(** * Spawn lifecycle and capture engine of the pokebot repository

    A shallow embedding of

    - [bot/services/fast_spawn_service.py]  ([RawSQLSpawnService]),
    - [bot/services/spawn_service.py]       ([SpawnService]),
    - [bot/services/scheduler_service.py]   ([FastSchedulerService]),
    - [bot/handlers/spawn.py]               ([spawn_handler]),
    - [bot/utils/helpers.py]                ([is_admin]),

    followed by the properties of the specification that concern them.

    Conventions of the embedding.

    - A [datetime] is an integer number of microseconds (the resolution of
      Python's [datetime]); [time.time()] and [random.random()] are
      rationals.
    - Every read of a clock and every draw of the random generator is an
      explicit input of the function that performs it, gathered in a record
      of inputs per call.
    - The tables [spawns], [pokemon] and [users] are finite maps keyed by
      their [UNIQUE NOT NULL] column ([spawn_id], [pokemon_id], [user_id]);
      an [INSERT] on a key already present is the unique violation the
      store raises.
    - A store statement may raise for reasons outside the program (lost
      connection, ...): the index of the statement that raises, if any, is
      an input ([fault]).  Inside [conn.transaction()] a raised exception
      rolls the tables back.
    - Every [await] on the store lets other tasks run.  [create_spawn] and
      [catch_spawn] below are a call run with no other task in between;
      they are composed of the steps between which another task can run,
      and [Race] and [CreateRace] run several calls step by step under a
      schedule. *)

From Stdlib Require Import ZArith QArith Lia.
From stdpp Require Import base option list gmap strings pretty.

Open Scope Z_scope.

(** ** Values shared by the services *)

Definition datetime := Z.

(** [timedelta(minutes=m)] *)
Definition minutes (m : Z) : Z := m * 60 * 1000000.

(** [int(dt.timestamp())] *)
Definition timestamp_int (t : datetime) : Z := Z.quot t 1000000.

(** Comparison of Python floats, on rationals. *)
Definition Qltb (x y : Q) : bool := negb (Qle_bool y x).

(** [int(x)] for a float: truncation towards zero. *)
Definition int_of_float (x : Q) : Z := Z.quot (Qnum x) (Zpos (Qden x)).

(** [random.randint(a, b)]: the draw [seed] of the generator brought into
    the closed range [a..b]. *)
Definition randint (a b : Z) (seed : Z) : Z := a + seed mod (b - a + 1).

(** [random.choice(l)] *)
Definition choice {A} (l : list A) (seed : Z) : option A :=
  l !! Z.to_nat (seed mod Z.of_nat (length l)).

(** Python truthiness of an [int]. *)
Definition truthy_int (z : Z) : bool := negb (z =? 0).

(** Result of a computation that may raise. *)
Inductive exn (A : Type) : Type :=
| Ok (a : A)
| Raise.
Arguments Ok {A} a.
Arguments Raise {A}.

#[global] Instance exn_ret : MRet exn := fun A a => Ok a.

#[global] Instance exn_bind : MBind exn := fun A B k m =>
  match m with
  | Ok a => k a
  | Raise => Raise
  end.

(** The [n]-th store statement of a call: it raises when the fault input
    names it, and yields [r] otherwise. *)
Definition stmt {A} (fault : option nat) (n : nat) (r : exn A) : exn A :=
  if decide (fault = Some n) then Raise else r.

(** ** Rows of the tables *)

Record Spawn := mkSpawn {
  row_id : positive;          (* id SERIAL PRIMARY KEY *)
  spawn_id : string;
  chat_id : Z;
  species : string;
  species_id : Z;
  level : Z;
  is_shiny : bool;
  rarity : string;
  spawned_at : datetime;
  expires_at : datetime;
  is_caught : bool;
  caught_by : option Z;
  caught_at : option datetime
}.

Record Pokemon := mkPokemon {
  pokemon_id : string;
  owner_id : Z;
  p_species : string;
  p_species_id : Z;
  p_level : Z;
  p_experience : Z;
  hp : Z;
  attack : Z;
  defense : Z;
  special_attack : Z;
  special_defense : Z;
  speed : Z;
  nature : string;
  ability : string;
  p_is_shiny : bool;
  p_rarity : string;
  gender : option string;
  p_caught_at : option datetime;
  created_at : option datetime;
  in_team : bool;
  team_position : option Z
}.

Record User := mkUser {
  username : string;
  first_name : string;
  coins : Z;
  experience : Z;
  u_level : Z;
  pokemon_caught : Z;
  total_pokemon : Z
}.

Record DB := mkDB {
  spawns : gmap string Spawn;
  pokemon : gmap string Pokemon;
  users : gmap Z User
}.

(** *** Statements on the tables *)

(** [INSERT INTO spawns ...]: raises on a duplicate [spawn_id]. *)
Definition insert_spawn (s : Spawn) (db : DB) : exn DB :=
  match spawns db !! spawn_id s with
  | Some _ => Raise
  | None => Ok (mkDB (<[spawn_id s := s]> (spawns db)) (pokemon db) (users db))
  end.

(** [INSERT INTO pokemon ...]: raises on a duplicate [pokemon_id]. *)
Definition insert_pokemon (p : Pokemon) (db : DB) : exn DB :=
  match pokemon db !! pokemon_id p with
  | Some _ => Raise
  | None => Ok (mkDB (spawns db) (<[pokemon_id p := p]> (pokemon db)) (users db))
  end.

(** [UPDATE spawns SET is_caught = TRUE, caught_by = $2, caught_at = $3
    WHERE spawn_id = $1] *)
Definition mark_caught (s : Spawn) (uid : Z) (t : datetime) : Spawn :=
  mkSpawn (row_id s) (spawn_id s) (chat_id s) (species s) (species_id s)
          (level s) (is_shiny s) (rarity s) (spawned_at s) (expires_at s)
          true (Some uid) (Some t).

Definition update_spawn_caught (sid : string) (uid : Z) (t : datetime)
    (db : DB) : DB :=
  mkDB (alter (fun s => mark_caught s uid t) sid (spawns db))
       (pokemon db) (users db).

(** Rows of [spawns] that satisfy a [WHERE] clause, in the order the store
    returns them. *)
Definition select_spawns (P : Spawn -> bool) (db : DB) : list Spawn :=
  filter (fun s => P s = true) ((map_to_list (spawns db)).*2).

(** [ORDER BY spawned_at DESC LIMIT 1] *)
Definition later (s best : Spawn) : Spawn :=
  if spawned_at best <? spawned_at s then s else best.

Fixpoint latest (l : list Spawn) : option Spawn :=
  match l with
  | [] => None
  | s :: l' =>
      match latest l' with
      | None => Some s
      | Some best => Some (later s best)
      end
  end.

(** [WHERE chat_id = $1 AND is_caught = false AND expires_at > now] *)
Definition active_in (chat : Z) (now : datetime) (s : Spawn) : bool :=
  (chat_id s =? chat) && negb (is_caught s) && (now <? expires_at s).

(** ** [RawSQLSpawnService] ([bot/services/fast_spawn_service.py]) *)

Module FastSpawn.

(** An entry of [_spawn_cache], a Python [dict]: the keys that
    [create_spawn] does not write are optional, and ['image_url'] may be
    present with the value [None]. *)
Record SpawnData := mkSpawnData {
  d_spawn_id : string;
  d_species : string;
  d_species_id : option Z;
  d_level : Z;
  d_is_shiny : bool;
  d_rarity : string;
  d_spawned_at : option datetime;
  d_image_url : option (option string)
}.

(** The state the service works on: the store and [self._spawn_cache]. *)
Record State := mkState {
  db : DB;
  _spawn_cache : gmap Z SpawnData
}.

Definition _pokemon_names : list string :=
  [ "pikachu"; "charizard"; "blastoise"; "venusaur"; "mewtwo"; "mew";
    "lugia"; "ho-oh"; "celebi"; "kyogre"; "groudon"; "rayquaza";
    "dialga"; "palkia"; "giratina"; "arceus"; "reshiram"; "zekrom";
    "squirtle"; "bulbasaur"; "charmander"; "eevee"; "vaporeon";
    "jolteon"; "flareon"; "espeon"; "umbreon"; "leafeon"; "glaceon";
    "sylveon"; "lucario"; "garchomp"; "dragonite"; "tyranitar";
    "salamence"; "metagross"; "latios"; "latias"; "darkrai"; "cresselia" ].

(** [random.choice] raises [IndexError] on an empty sequence. *)
Definition choice_exn {A} (l : list A) (seed : Z) : exn A :=
  match choice l seed with
  | Some a => Ok a
  | None => Raise
  end.

(** *** [create_spawn] *)

(** Inputs of one call, in the order the code consumes them. *)
Record CreateIn := mkCreateIn {
  c_fault : option nat;      (* 0: the SELECT, 1: the INSERT *)
  c_now_select : datetime;   (* NOW() of the SELECT *)
  c_name_seed : Z;           (* random.choice(self._pokemon_names) *)
  c_species_seed : Z;        (* random.randint(1, 800) *)
  c_level_seed : Z;          (* random.randint(1, 50) *)
  c_shiny_roll : Q;          (* random.random() *)
  c_rarity_seed : Z;         (* random.choice([...]), drawn when not shiny *)
  c_utcnow_id : datetime;    (* datetime.utcnow() of the spawn id *)
  c_id_seed : Z;             (* random.randint(1000, 9999) *)
  c_utcnow_expires : datetime; (* datetime.utcnow() of expires_at *)
  c_now_insert : datetime;   (* NOW() of the INSERT *)
  c_row_id : positive        (* value the id sequence hands out *)
}.

(** [SELECT id FROM spawns WHERE chat_id = $1 AND is_caught = false AND
    expires_at > NOW()], read with [fetchval]. *)
Definition select_existing (chat : Z) (now : datetime) (d : DB) : option positive :=
  row_id <$> head (select_spawns (active_in chat now) d).

Definition new_spawn (i : CreateIn) (chat : Z) : exn Spawn :=
  species_name ← choice_exn _pokemon_names (c_name_seed i);
  let species_id := randint 1 800 (c_species_seed i) in
  let level := randint 1 50 (c_level_seed i) in
  let is_shiny := Qltb (c_shiny_roll i) 0.005%Q in
  rarity ← (if is_shiny then Ok "legendary"
            else choice_exn ["common"; "uncommon"; "rare"] (c_rarity_seed i));
  let spawn_id := "spawn_" +:+ pretty (timestamp_int (c_utcnow_id i)) +:+ "_"
                  +:+ pretty (randint 1000 9999 (c_id_seed i)) in
  let expires_at := c_utcnow_expires i + minutes 10 in
  Ok (mkSpawn (c_row_id i) spawn_id chat species_name species_id level
              is_shiny rarity (c_now_insert i) expires_at false None None).

Definition cache_entry_of_new (s : Spawn) : SpawnData :=
  mkSpawnData (spawn_id s) (species s) None (level s) (is_shiny s) (rarity s)
              None None.

(** The first step of the [try] block: the SELECT. *)
Definition create_check (i : CreateIn) (chat : Z) (st : State)
    : exn (option positive) :=
  stmt (c_fault i) 0 (Ok (select_existing chat (c_now_select i) (db st))).

(** The second step, from [if existing:] on, on the state the store and
    the cache are in when the call goes on.  There is no transaction and no
    lock around the two steps: the INSERT is a statement of its own, which
    tests nothing but the constraints of the table. *)
Definition create_finish (i : CreateIn) (chat : Z) (existing : option positive)
    (st : State) : exn (State * bool) :=
  if from_option (fun r => truthy_int (Zpos r)) false existing
  then Ok (st, false)
  else
    s ← new_spawn i chat;
    d' ← stmt (c_fault i) 1 (insert_spawn s (db st));
    Ok (mkState d' (<[chat := cache_entry_of_new s]> (_spawn_cache st)), true).

(** The body of the [try] block, the two steps in a row: [Ok] carries the
    state and the value returned, [Raise] is an exception reaching the
    [except] clause. *)
Definition create_spawn_body (i : CreateIn) (chat : Z) (st : State)
    : exn (State * bool) :=
  existing ← create_check i chat st;
  create_finish i chat existing st.

Definition create_spawn (i : CreateIn) (chat : Z) (st : State) : State * bool :=
  match create_spawn_body i chat st with
  | Ok r => r
  | Raise => (st, false)
  end.

(** *** [get_active_spawn] *)

Section GetActive.

(** [pokeapi.get_pokemon_sprite_url], an external service: it returns a
    URL or [None], or raises. *)
Variable get_pokemon_sprite_url : Z -> bool -> exn (option string).

(** The inner [try: ... except: ... = None] around the sprite lookup. *)
Definition image_url_of (species_id : Z) (shiny : bool) : option string :=
  match get_pokemon_sprite_url species_id shiny with
  | Ok u => u
  | Raise => None
  end.

Definition with_image_url (c : SpawnData) (u : option string) : SpawnData :=
  mkSpawnData (d_spawn_id c) (d_species c) (d_species_id c) (d_level c)
              (d_is_shiny c) (d_rarity c) (d_spawned_at c) (Some u).

Definition spawn_data_of_row (s : Spawn) : SpawnData :=
  mkSpawnData (spawn_id s) (species s) (Some (species_id s)) (level s)
              (is_shiny s) (rarity s) (Some (spawned_at s)) None.

(** [SELECT ... WHERE chat_id = $1 AND is_caught = false AND
    expires_at > NOW() ORDER BY spawned_at DESC LIMIT 1] *)
Definition select_active (chat : Z) (now : datetime) (d : DB) : option Spawn :=
  latest (select_spawns (active_in chat now) d).

(** [fault = Some 0]: the SELECT raises.  [now] is the NOW() of the SELECT,
    read only when the cache has no entry for the chat. *)
Definition get_active_spawn (fault : option nat) (now : datetime) (chat : Z)
    (st : State) : State * option SpawnData :=
  match _spawn_cache st !! chat with
  | Some cached =>
      let cached' :=
        with_image_url cached
          (image_url_of (default 1 (d_species_id cached)) (d_is_shiny cached)) in
      (mkState (db st) (<[chat := cached']> (_spawn_cache st)), Some cached')
  | None =>
      match stmt fault 0 (Ok (select_active chat now (db st))) with
      | Ok (Some row) =>
          let spawn_data :=
            with_image_url (spawn_data_of_row row)
              (image_url_of (species_id row) (is_shiny row)) in
          (mkState (db st) (<[chat := spawn_data]> (_spawn_cache st)),
           Some spawn_data)
      | Ok None => (st, None)
      | Raise => (st, None)
      end
  end.

End GetActive.

(** *** [catch_spawn] *)

Record CatchIn := mkCatchIn {
  k_fault : option nat;  (* 0: SELECT, 1: UPDATE spawns, 2: INSERT users,
                            3: INSERT pokemon, 4: UPDATE users, 5: COMMIT *)
  k_now : datetime;      (* NOW() of the transaction *)
  k_roll : Q;            (* random.random() *)
  k_utcnow : datetime;   (* datetime.utcnow() of the pokemon id *)
  k_id_seed : Z          (* random.randint(1000, 9999) *)
}.

(** [SELECT ... FROM spawns WHERE spawn_id = $1 AND expires_at > NOW()] *)
Definition select_unexpired (sid : string) (now : datetime) (d : DB) : option Spawn :=
  match spawns d !! sid with
  | Some s => if now <? expires_at s then Some s else None
  | None => None
  end.

(** [INSERT INTO users ... VALUES ($1, 'trainer', 'Unknown', 1000, 0, 1, 0, 0)
    ON CONFLICT (user_id) DO NOTHING] *)
Definition ensure_user (uid : Z) (d : DB) : DB :=
  match users d !! uid with
  | Some _ => d
  | None => mkDB (spawns d) (pokemon d)
                 (<[uid := mkUser "trainer" "Unknown" 1000 0 1 0 0]> (users d))
  end.

Definition new_pokemon (i : CatchIn) (uid : Z) (spawn : Spawn) : Pokemon :=
  let pokemon_id := "poke_" +:+ pretty (timestamp_int (k_utcnow i)) +:+ "_"
                    +:+ pretty (randint 1000 9999 (k_id_seed i)) in
  mkPokemon pokemon_id uid (species spawn) (species_id spawn) (level spawn) 0
            (level spawn * 3 + 50)
            (level spawn * 2 + 30) (level spawn * 2 + 30)
            (level spawn * 2 + 30) (level spawn * 2 + 30)
            (level spawn * 2 + 30)
            "hardy" "unknown" (is_shiny spawn) (rarity spawn)
            None (Some (k_now i)) None false None.

(** [UPDATE users SET pokemon_caught = pokemon_caught + 1, total_pokemon =
    total_pokemon + 1, experience = experience + $2, coins = coins + $3
    WHERE user_id = $1] *)
Definition reward_user (exp_gained coins_earned : Z) (u : User) : User :=
  mkUser (username u) (first_name u) (coins u + coins_earned)
         (experience u + exp_gained) (u_level u)
         (pokemon_caught u + 1) (total_pokemon u + 1).

Definition update_user_stats (uid exp_gained coins_earned : Z) (d : DB) : DB :=
  mkDB (spawns d) (pokemon d)
       (alter (reward_user exp_gained coins_earned) uid (users d)).

Definition caught_message (spawn : Spawn) : string :=
  let exp_gained := level spawn * 10 in
  let coins_earned := level spawn * 5 + (if is_shiny spawn then 100 else 0) in
  let bonus_text :=
    if 0 <? coins_earned then " (+" +:+ pretty coins_earned +:+ " coins)" else "" in
  "Caught " +:+ species spawn +:+ "! (+" +:+ pretty exp_gained +:+ " EXP"
  +:+ bonus_text +:+ ")".

(** What the call does once the SELECT has returned [spawn]: the checks,
    the roll and, on success, the four writes, the cache invalidation and
    the COMMIT that leaving [conn.transaction()] issues.  The cache entry
    is deleted inside the transaction block: when the COMMIT raises, the
    tables are rolled back and the call answers "Catch failed!", but the
    entry is gone.  A transaction that returns before its first write has
    nothing to commit; if leaving it raises, the call answers as when the
    SELECT raises and nothing has changed, which is fault 0. *)
Definition catch_resolve (i : CatchIn) (sid : string) (uid : Z)
    (spawn : option Spawn) (st : State) : exn (State * (bool * string)) :=
  match spawn with
  | None => Ok (st, (false, "This Pokémon has disappeared!"))
  | Some spawn =>
      if is_caught spawn
      then Ok (st, (false, "Already caught by someone else!"))
      else if Qltb 0.02%Q (k_roll i) then
        d1 ← stmt (k_fault i) 1 (Ok (update_spawn_caught sid uid (k_now i) (db st)));
        d2 ← stmt (k_fault i) 2 (Ok (ensure_user uid d1));
        d3 ← stmt (k_fault i) 3 (insert_pokemon (new_pokemon i uid spawn) d2);
        let exp_gained := level spawn * 10 in
        let coins_earned := level spawn * 5 + (if is_shiny spawn then 100 else 0) in
        d4 ← stmt (k_fault i) 4 (Ok (update_user_stats uid exp_gained coins_earned d3));
        let cache' := delete (chat_id spawn) (_spawn_cache st) in
        match stmt (k_fault i) 5 (Ok d4) with
        | Ok d5 => Ok (mkState d5 cache', (true, caught_message spawn))
        | Raise => Ok (mkState (db st) cache', (false, "Catch failed!"))
        end
      else Ok (st, (false, species spawn +:+ " escaped! Try again!"))
  end.

Definition catch_spawn_body (i : CatchIn) (sid : string) (uid : Z) (st : State)
    : exn (State * (bool * string)) :=
  spawn ← stmt (k_fault i) 0 (Ok (select_unexpired sid (k_now i) (db st)));
  catch_resolve i sid uid spawn st.

(** An exception raised by one of the statements leaves the transaction
    rolled back and the cache as it was: the cache is touched only after
    the last of them. *)
Definition catch_spawn (i : CatchIn) (sid : string) (uid : Z) (st : State)
    : State * (bool * string) :=
  match catch_spawn_body i sid uid st with
  | Ok r => r
  | Raise => (st, (false, "Catch failed!"))
  end.

(** *** [cleanup_expired] *)

(** [DELETE FROM spawns WHERE expires_at < NOW() AND is_caught = false];
    the cache is cleared whether or not a row was deleted. *)
Definition expired_uncaught (now : datetime) (s : Spawn) : bool :=
  (expires_at s <? now) && negb (is_caught s).

Definition cleanup_expired (fault : option nat) (now : datetime) (st : State)
    : State * Z :=
  match stmt fault 0 (Ok (filter (fun kv => expired_uncaught now kv.2 = false)
                                 (spawns (db st)))) with
  | Ok kept =>
      (mkState (mkDB kept (pokemon (db st)) (users (db st))) ∅,
       Z.of_nat (size (spawns (db st))) - Z.of_nat (size kept))
  | Raise => (st, 0)
  end.

End FastSpawn.

(** ** [SpawnService] ([bot/services/spawn_service.py]) *)

Module SpawnSvc.

(** A record of the catalog as the service uses it: a Python [dict] of
    which only the truth value and the key ['name'] are read. *)
Abbreviation PokemonData := (gmap string string).

(** [if not pokemon_data]: [None] and the empty [dict] are false. *)
Definition has_data (d : option PokemonData) : bool :=
  match d with
  | Some m => negb (bool_decide (m = ∅))
  | None => false
  end.

Record State := mkState {
  db : DB;
  _pokemon_cache : gmap Z PokemonData;
  _last_cache_clear : datetime
}.

(** [timedelta.seconds]: the seconds field of the normalised difference,
    between 0 and 86399. *)
Definition td_seconds (delta : Z) : Z := (delta / 1000000) mod 86400.

(** [generate_id] of [bot/utils/helpers.py] *)
Definition id_alphabet : list Ascii.ascii :=
  String.list_ascii_of_string "abcdefghijklmnopqrstuvwxyz0123456789".

(** [random.choices(population, k=k)], the [j]-th draw being [seeds j]. *)
Definition choices (population : list Ascii.ascii) (k : nat) (seeds : nat -> Z)
    : list Ascii.ascii :=
  omap (fun j => choice population (seeds j)) (seq 0 k).

Definition generate_id (prefix : string) (utcnow : datetime) (seeds : nat -> Z) : string :=
  let timestamp := pretty (timestamp_int utcnow) in
  let random_part := String.string_of_list_ascii (choices id_alphabet 8 seeds) in
  if bool_decide (prefix = "") then timestamp +:+ random_part
  else prefix +:+ timestamp +:+ random_part.

(** *** [create_spawn] *)

Record CreateIn := mkCreateIn {
  c_fault : option nat;          (* 0: the SELECT, 1: the INSERT *)
  c_utcnow_clear : datetime;     (* utcnow() tested in _clear_cache_if_needed *)
  c_utcnow_cleared : datetime;   (* utcnow() stored when the cache is cleared *)
  c_utcnow_select : datetime;    (* utcnow() passed to the SELECT *)
  c_species_seed : Z;            (* random.randint(1, 1010) *)
  c_level_seed : Z;              (* random.randint(1, 50) *)
  c_shiny_roll : Q;              (* random.random() *)
  c_fallback_seed : Z;           (* random.randint(1, 151) *)
  c_utcnow_id : datetime;        (* utcnow() inside generate_id *)
  c_id_seeds : nat -> Z;         (* random.choices inside generate_id *)
  c_utcnow : datetime;           (* now = datetime.utcnow() *)
  c_row_id : positive            (* value the id sequence hands out *)
}.

Section Create.

(** [pokeapi.get_pokemon_data], an external service; the first argument
    numbers the lookups of one call, which may be answered differently. *)
Variable get_pokemon_data : nat -> Z -> option PokemonData.

Definition _clear_cache_if_needed (i : CreateIn) (st : State) : State :=
  if 1800 <? td_seconds (c_utcnow_clear i - _last_cache_clear st)
  then mkState (db st) ∅ (c_utcnow_cleared i)
  else st.

Definition _get_cached_pokemon_data (attempt : nat) (species_id : Z) (st : State)
    : State * option PokemonData :=
  match _pokemon_cache st !! species_id with
  | Some d => (st, Some d)
  | None =>
      match get_pokemon_data attempt species_id with
      | Some data =>
          if has_data (Some data)
          then (mkState (db st) (<[species_id := data]> (_pokemon_cache st))
                        (_last_cache_clear st), Some data)
          else (st, Some data)
      | None => (st, None)
      end
  end.

(** [SELECT 1 FROM spawns WHERE chat_id = $1 AND is_caught = FALSE AND
    expires_at > $2 LIMIT 1] *)
Definition select_one (chat : Z) (now : datetime) (d : DB) : option Z :=
  (fun _ => 1) <$> head (select_spawns (active_in chat now) d).

(** [pokemon_data['name']]: [KeyError] when the key is missing. *)
Definition name_of (pokemon_data : option PokemonData) : exn string :=
  match pokemon_data ≫= (fun d => d !! "name") with
  | Some n => Ok n
  | None => Raise
  end.

(** From [species_name = pokemon_data['name']] to the end of the [try]
    block. *)
Definition persist_spawn (i : CreateIn) (chat : Z) (level : Z) (is_shiny : bool)
    (rarity : string) (species_id : Z) (pokemon_data : option PokemonData)
    (st : State) : State * exn (option Spawn) :=
  match name_of pokemon_data with
  | Raise => (st, Raise)
  | Ok species_name =>
      let spawn_id := generate_id "spawn_" (c_utcnow_id i) (c_id_seeds i) in
      let now := c_utcnow i in
      let expires := now + minutes 8 in
      let spawn :=
        mkSpawn (c_row_id i) spawn_id chat species_name species_id level
                is_shiny rarity now expires false None None in
      match stmt (c_fault i) 1 (insert_spawn spawn (db st)) with
      | Raise => (st, Raise)
      | Ok d' =>
          (mkState d' (_pokemon_cache st) (_last_cache_clear st), Ok (Some spawn))
      end
  end.

(** The SELECT of the [try] block. *)
Definition create_check (i : CreateIn) (chat : Z) (st : State) : exn (option Z) :=
  stmt (c_fault i) 0 (Ok (select_one chat (c_utcnow_select i) (db st))).

(** The block from [if existing:] on, on the state the service is in when
    the call goes on: as in [RawSQLSpawnService] nothing ties the INSERT to
    the SELECT. *)
Definition create_finish (i : CreateIn) (chat : Z) (existing : option Z)
    (st0 : State) : State * exn (option Spawn) :=
  if from_option truthy_int false existing then (st0, Ok None)
  else
    let species_id := randint 1 1010 (c_species_seed i) in
    let level := randint 1 50 (c_level_seed i) in
    let is_shiny := Qltb (c_shiny_roll i) 0.002%Q in
    let rarity := if is_shiny then "rare" else "common" in
    let '(st1, pokemon_data) := _get_cached_pokemon_data 0 species_id st0 in
    if has_data pokemon_data
    then persist_spawn i chat level is_shiny rarity species_id pokemon_data st1
    else
      let species_id := randint 1 151 (c_fallback_seed i) in
      let '(st2, pokemon_data) := _get_cached_pokemon_data 1 species_id st1 in
      if has_data pokemon_data
      then persist_spawn i chat level is_shiny rarity species_id pokemon_data st2
      else (st2, Ok None).

(** The body of the [try] block.  The caches of the service are plain
    Python objects: what was written to them before an exception stays
    written. *)
Definition create_spawn_body (i : CreateIn) (chat : Z) (st : State)
    : State * exn (option Spawn) :=
  let st0 := _clear_cache_if_needed i st in
  match create_check i chat st0 with
  | Raise => (st0, Raise)
  | Ok existing => create_finish i chat existing st0
  end.

Definition create_spawn (i : CreateIn) (chat : Z) (st : State)
    : State * option Spawn :=
  match create_spawn_body i chat st with
  | (st', Ok r) => (st', r)
  | (st', Raise) => (st', None)
  end.

End Create.

(** *** [get_active_spawn] *)

Definition get_active_spawn (fault : option nat) (utcnow : datetime) (chat : Z)
    (d : DB) : option Spawn :=
  match stmt fault 0 (Ok (latest (select_spawns (active_in chat utcnow) d))) with
  | Ok row => row
  | Raise => None
  end.

(** *** [catch_spawn] *)

Record CatchIn := mkCatchIn {
  k_fault : option nat;     (* 0: SELECT, 1: UPDATE spawns, 2: INSERT pokemon,
                               3: UPDATE users, 4: COMMIT *)
  k_utcnow_check : datetime;   (* utcnow() of the expiry test *)
  k_roll : Q;                  (* random.random() *)
  k_utcnow_caught : datetime;  (* utcnow() stored in caught_at *)
  k_utcnow_id : datetime;      (* utcnow() inside generate_id *)
  k_id_seeds : nat -> Z;       (* random.choices inside generate_id *)
  k_utcnow_created : datetime  (* utcnow() stored in created_at *)
}.

(** [random.random()] is a multiple of [2^-53] and is compared with the
    floats the literals [0.95], [0.90] and [0.85] denote, which are not
    these decimals: [0.90] is a float above nine tenths, which the roll can
    equal.  The rates are these floats. *)
Definition catch_rate (rarity : string) : Q :=
  if bool_decide (rarity = "common")
  then Qmake 4278419646001971 4503599627370496
  else if bool_decide (rarity = "rare")
  then Qmake 8106479329266893 9007199254740992
  else Qmake 7656119366529843 9007199254740992.

Definition new_pokemon (i : CatchIn) (pokemon_id : string) (uid : Z) (row : Spawn)
    : Pokemon :=
  let level := level row in
  mkPokemon pokemon_id uid (species row) (species_id row) level 0
            (level * 2 + 100)
            (level * 2 + 50) (level * 2 + 50) (level * 2 + 50)
            (level * 2 + 50) (level * 2 + 50)
            "hardy" "unknown" (is_shiny row) (rarity row)
            (Some "unknown") None (Some (k_utcnow_created i)) false None.

(** [UPDATE users SET pokemon_caught = pokemon_caught + 1, total_pokemon =
    total_pokemon + 1, experience = experience + $2 WHERE user_id = $1] *)
Definition reward_user (exp_gained : Z) (u : User) : User :=
  mkUser (username u) (first_name u) (coins u) (experience u + exp_gained)
         (u_level u) (pokemon_caught u + 1) (total_pokemon u + 1).

Definition update_user_stats (uid exp_gained : Z) (d : DB) : DB :=
  mkDB (spawns d) (pokemon d) (alter (reward_user exp_gained) uid (users d)).

(** What the call does once the SELECT has returned [spawn_row]; statement
    4 is the COMMIT that leaving [conn.transaction()] issues after the
    writes. *)
Definition catch_resolve (i : CatchIn) (sid : string) (uid : Z)
    (spawn_row : option Spawn) (d : DB) : exn (DB * (bool * string)) :=
  match spawn_row with
  | None => Ok (d, (false, "Spawn not found"))
  | Some row =>
      if is_caught row
      then Ok (d, (false, "This Pokémon has already been caught!"))
      else if expires_at row <? k_utcnow_check i
      then Ok (d, (false, "This Pokémon has fled!"))
      else if Qltb (catch_rate (rarity row)) (k_roll i)
      then Ok (d, (false, "The Pokémon broke free!"))
      else
        d1 ← stmt (k_fault i) 1
               (Ok (update_spawn_caught sid uid (k_utcnow_caught i) d));
        let pokemon_id := generate_id "poke_" (k_utcnow_id i) (k_id_seeds i) in
        d2 ← stmt (k_fault i) 2 (insert_pokemon (new_pokemon i pokemon_id uid row) d1);
        d3 ← stmt (k_fault i) 3 (Ok (update_user_stats uid (level row * 10) d2));
        d4 ← stmt (k_fault i) 4 (Ok d3);
        Ok (d4, (true, pokemon_id))
  end.

Definition catch_spawn_body (i : CatchIn) (sid : string) (uid : Z) (d : DB)
    : exn (DB * (bool * string)) :=
  spawn_row ← stmt (k_fault i) 0 (Ok (spawns d !! sid));
  catch_resolve i sid uid spawn_row d.

Definition catch_spawn (i : CatchIn) (sid : string) (uid : Z) (d : DB)
    : DB * (bool * string) :=
  match catch_spawn_body i sid uid d with
  | Ok r => r
  | Raise => (d, (false, "An error occurred while catching"))
  end.

End SpawnSvc.

(** ** Overlapping calls of [catch_spawn]

    Each call runs on a connection of its own and suspends at every
    [await].  As far as the shared tables go a call has two steps: its
    SELECT, which reads the committed rows, and the rest of the
    transaction, whose writes other transactions read only once it has
    committed (the isolation level [conn.transaction()] opens by default,
    read committed; an UPDATE that meets a row written by a transaction
    still open waits for its commit and then applies to the committed
    row).  A schedule says which call takes its next step. *)

Module Race.

Inductive Call :=
| Pending (i : FastSpawn.CatchIn) (uid : Z)
| Fetched (i : FastSpawn.CatchIn) (uid : Z) (spawn : option Spawn)
| Returned (r : bool * string).

Definition step_call (sid : string) (c : Call) (st : FastSpawn.State)
    : FastSpawn.State * Call :=
  match c with
  | Pending i uid =>
      match stmt (FastSpawn.k_fault i) 0
              (Ok (FastSpawn.select_unexpired sid (FastSpawn.k_now i) (FastSpawn.db st))) with
      | Ok spawn => (st, Fetched i uid spawn)
      | Raise => (st, Returned (false, "Catch failed!"))
      end
  | Fetched i uid spawn =>
      match FastSpawn.catch_resolve i sid uid spawn st with
      | Ok (st', r) => (st', Returned r)
      | Raise => (st, Returned (false, "Catch failed!"))
      end
  | Returned r => (st, c)
  end.

Fixpoint run (sid : string) (schedule : list nat) (calls : list Call)
    (st : FastSpawn.State) : FastSpawn.State * list Call :=
  match schedule with
  | [] => (st, calls)
  | k :: rest =>
      match calls !! k with
      | Some c =>
          let '(st', c') := step_call sid c st in
          run sid rest (<[k := c']> calls) st'
      | None => run sid rest calls st
      end
  end.

(** The calls that returned [True]. *)
Definition captured (c : Call) : bool :=
  match c with
  | Returned (true, _) => true
  | _ => false
  end.

End Race.

(** ** Overlapping calls of [create_spawn]

    The SELECT and the INSERT of [create_spawn] are two awaits with no
    transaction or lock around them, and the table has no constraint that
    ties a chat to one uncaught spawn.  The handlers and the loop of the
    scheduler are tasks of one event loop: between the two steps of a call
    another call can take its own. *)

Module CreateRace.

(** The calls of a run taken step by step: [schedule] lists, in order, the
    index of the call that takes its next step. *)
Fixpoint run {S C : Type} (step : C -> S -> S * C) (schedule : list nat)
    (calls : list C) (st : S) : S * list C :=
  match schedule with
  | [] => (st, calls)
  | k :: rest =>
      match calls !! k with
      | Some c =>
          let '(st', c') := step c st in
          run step rest (<[k := c']> calls) st'
      | None => run step rest calls st
      end
  end.

(** A call of [RawSQLSpawnService.create_spawn]: not started, between its
    SELECT and the rest, or returned. *)
Inductive Call :=
| Pending (i : FastSpawn.CreateIn) (chat : Z)
| Checked (i : FastSpawn.CreateIn) (chat : Z) (existing : option positive)
| Returned (r : bool).

Definition step_call (c : Call) (st : FastSpawn.State) : FastSpawn.State * Call :=
  match c with
  | Pending i chat =>
      match FastSpawn.create_check i chat st with
      | Ok existing => (st, Checked i chat existing)
      | Raise => (st, Returned false)
      end
  | Checked i chat existing =>
      match FastSpawn.create_finish i chat existing st with
      | Ok (st', r) => (st', Returned r)
      | Raise => (st, Returned false)
      end
  | Returned _ => (st, c)
  end.

(** A call of [SpawnService.create_spawn], with the catalog that answers
    its lookups. *)
Inductive SvcCall :=
| SvcPending (catalog : nat -> Z -> option SpawnSvc.PokemonData)
    (i : SpawnSvc.CreateIn) (chat : Z)
| SvcChecked (catalog : nat -> Z -> option SpawnSvc.PokemonData)
    (i : SpawnSvc.CreateIn) (chat : Z) (existing : option Z)
| SvcReturned (r : option Spawn).

Definition svc_step_call (c : SvcCall) (st : SpawnSvc.State)
    : SpawnSvc.State * SvcCall :=
  match c with
  | SvcPending catalog i chat =>
      let st0 := SpawnSvc._clear_cache_if_needed i st in
      match SpawnSvc.create_check i chat st0 with
      | Ok existing => (st0, SvcChecked catalog i chat existing)
      | Raise => (st0, SvcReturned None)
      end
  | SvcChecked catalog i chat existing =>
      match SpawnSvc.create_finish catalog i chat existing st with
      | (st', Ok r) => (st', SvcReturned r)
      | (st', Raise) => (st', SvcReturned None)
      end
  | SvcReturned _ => (st, c)
  end.

End CreateRace.

(** Calls of [catch_spawn] made one after the other on the same spawn. *)
Fixpoint fast_catch_all (sid : string) (calls : list (FastSpawn.CatchIn * Z))
    (st : FastSpawn.State) : FastSpawn.State * list (bool * string) :=
  match calls with
  | [] => (st, [])
  | (i, uid) :: rest =>
      let '(st', r) := FastSpawn.catch_spawn i sid uid st in
      let '(st'', rs) := fast_catch_all sid rest st' in
      (st'', r :: rs)
  end.

Fixpoint svc_catch_all (sid : string) (calls : list (SpawnSvc.CatchIn * Z))
    (d : DB) : DB * list (bool * string) :=
  match calls with
  | [] => (d, [])
  | (i, uid) :: rest =>
      let '(d', r) := SpawnSvc.catch_spawn i sid uid d in
      let '(d'', rs) := svc_catch_all sid rest d' in
      (d'', r :: rs)
  end.

(** Number of [True] results. *)
Definition wins (rs : list (bool * string)) : nat :=
  length (filter (fun r => r.1 = true) rs).

(** ** [FastSchedulerService] ([bot/services/scheduler_service.py]) *)

Module Scheduler.

Record State := mkState {
  active_channels : gset Z;
  running : bool;
  svc : FastSpawn.State      (* the global fast_spawn_service and the store *)
}.

Definition register_channel (chat : Z) (st : State) : State :=
  mkState ({[chat]} ∪ active_channels st) (running st) (svc st).

Definition unregister_channel (chat : Z) (st : State) : State :=
  mkState (active_channels st ∖ {[chat]}) (running st) (svc st).

(** What the loop does that is visible from outside. *)
Inductive Event :=
| Sleep (seconds : Z)
| AutoSpawned (chat : Z)     (* logger.info(f"Auto-spawned in channel ...") *)
| LoopError.                 (* logger.error(f"Spawn loop error: ...") *)

(** Exceptions the body of an iteration can meet: [asyncio.CancelledError]
    derives from [BaseException] and passes through [except Exception]. *)
Inductive Raised :=
| Error        (* an instance of Exception *)
| Cancelled.   (* asyncio.CancelledError *)

(** The places of the body where the environment can make a statement
    raise. *)
Inductive Point :=
| AtIdleSleep      (* await asyncio.sleep(5) *)
| AtImport         (* from bot.services.fast_spawn_service import ... *)
| AtCreateSpawn    (* await fast_spawn_service.create_spawn(chat_id) *)
| AtIntervalSleep. (* await asyncio.sleep(interval) *)

#[global] Instance Point_eq_dec : EqDecision Point.
Proof. solve_decision. Defined.

(** Inputs of one iteration. *)
Record IterIn := mkIterIn {
  it_raise : option (Point * Raised); (* a statement of the body that raises *)
  it_choice_seed : Z;                 (* random.choice(channels_list) *)
  it_create : FastSpawn.CreateIn;     (* inputs of create_spawn *)
  it_interval_seed : Z;               (* random.randint(30, 60) *)
  it_backoff_cancelled : bool;        (* asyncio.sleep(10) is cancelled *)
  it_meanwhile : State -> State       (* what other tasks did to the shared
                                         state while the loop was suspended *)
}.

Definition raises_at (i : IterIn) (p : Point) : option Raised :=
  match it_raise i with
  | Some (q, r) => if decide (q = p) then Some r else None
  | None => None
  end.

(** The [try] block of one iteration: state and events up to the end of
    the block or to the statement that raised. *)
Definition try_block (i : IterIn) (st : State) : State * list Event * option Raised :=
  if bool_decide (active_channels st = ∅) then
    match raises_at i AtIdleSleep with
    | Some r => (st, [], Some r)
    | None => (st, [Sleep 5], None)
    end
  else
    match raises_at i AtImport with
    | Some r => (st, [], Some r)
    | None =>
        (* [if self.active_channels:] is tested again here, with no await
           since the first test: the set is the same and is not empty. *)
        let channels_list := elements (active_channels st) in
        match choice channels_list (it_choice_seed i) with
        | None => (st, [], Some Error)
        | Some chat_id =>
            match raises_at i AtCreateSpawn with
            | Some r => (st, [], Some r)
            | None =>
                let '(svc', success) :=
                  FastSpawn.create_spawn (it_create i) chat_id (svc st) in
                let st' := mkState (active_channels st) (running st) svc' in
                let logged := if success then [AutoSpawned chat_id] else [] in
                let interval := randint 30 60 (it_interval_seed i) in
                match raises_at i AtIntervalSleep with
                | Some r => (st', logged, Some r)
                | None => (st', logged ++ [Sleep interval], None)
                end
            end
        end
    end.

(** One pass through the body of [while self.running]: the [try] block and
    the [except Exception] clause.  The last component tells whether the
    loop goes on ([true]) or an exception left it ([false]). *)
Definition iteration (i : IterIn) (st : State) : State * list Event * bool :=
  match try_block i st with
  | (st', evs, None) => (st', evs, true)
  | (st', evs, Some Error) =>
      if it_backoff_cancelled i then (st', evs ++ [LoopError], false)
      else (st', evs ++ [LoopError; Sleep 10], true)
  | (st', evs, Some Cancelled) => (st', evs, false)
  end.

(** [_spawn_loop], run for the iterations whose inputs are given. *)
Fixpoint _spawn_loop (inputs : list IterIn) (st : State) : State * list Event :=
  match inputs with
  | [] => (st, [])
  | i :: rest =>
      if running st then
        match iteration i st with
        | (st', evs, true) =>
            let '(st'', evs') := _spawn_loop rest (it_meanwhile i st') in
            (st'', evs ++ evs')
        | (st', evs, false) => (st', evs)
        end
      else (st, [])
  end.

End Scheduler.

(** ** [spawn_handler] ([bot/handlers/spawn.py]) *)

Module Handler.

(** [is_admin] of [bot/utils/helpers.py]; [ADMIN_IDS] is a setting. *)
Definition is_admin (ADMIN_IDS : list Z) (user_id : Z) : bool :=
  bool_decide (user_id ∈ ADMIN_IDS).

Definition cooldown_key (user_id : Z) : string := "spawn_" +:+ pretty user_id.

(** Outcome of the cooldown step of the handler. *)
Inductive Gate :=
| Blocked (remaining : Z)   (* the "Spawn Cooldown Active" reply, and return *)
| Pass.                     (* the handler goes on *)

(** Lines 27-41: the cooldown step.  [now] is [time.time()]. *)
Definition cooldown_step (ADMIN_IDS : list Z) (user_id : Z) (now : Q)
    (user_cooldowns : gmap string Q) : gmap string Q * Gate :=
  if negb (is_admin ADMIN_IDS user_id) then
    let cooldown_key := cooldown_key user_id in
    match user_cooldowns !! cooldown_key with
    | Some last =>
        if Qltb (now - last) 30%Q
        then (user_cooldowns, Blocked (30 - int_of_float (now - last)))
        else (<[cooldown_key := now]> user_cooldowns, Pass)
    | None => (<[cooldown_key := now]> user_cooldowns, Pass)
    end
  else (user_cooldowns, Pass).

(** The state the handler works on. *)
Record State := mkState {
  sched : Scheduler.State;          (* scheduler_service, fast_spawn_service *)
  user_cooldowns : gmap string Q
}.

Inductive Reply :=
| CooldownActive (remaining : Z)
| WildSpotted (active : FastSpawn.SpawnData)
| SpawnFailed
| SpawnCreationError
| SpawnedSuccessfully (spawn : FastSpawn.SpawnData).

Record HandlerIn := mkHandlerIn {
  h_time : Q;                        (* time.time() *)
  h_fault_first : option nat;        (* first get_active_spawn *)
  h_now_first : datetime;
  h_create : FastSpawn.CreateIn;     (* create_spawn *)
  h_fault_second : option nat;       (* second get_active_spawn *)
  h_now_second : datetime
}.

Section SpawnHandler.

Variable ADMIN_IDS : list Z.
Variable get_pokemon_sprite_url : Z -> bool -> exn (option string).

Definition with_svc (st : State) (svc' : FastSpawn.State) : State :=
  mkState (Scheduler.mkState (Scheduler.active_channels (sched st))
                             (Scheduler.running (sched st)) svc')
          (user_cooldowns st).

(** The handler up to its reply; the calls to the chat transport are not
    taken as fallible. *)
Definition spawn_handler (i : HandlerIn) (user_id chat_id : Z) (st : State)
    : State * Reply :=
  let st := mkState (Scheduler.register_channel chat_id (sched st))
                    (user_cooldowns st) in
  match cooldown_step ADMIN_IDS user_id (h_time i) (user_cooldowns st) with
  | (_, Blocked remaining) => (st, CooldownActive remaining)
  | (cooldowns', Pass) =>
      let st := mkState (sched st) cooldowns' in
      let '(svc1, active) :=
        FastSpawn.get_active_spawn get_pokemon_sprite_url (h_fault_first i)
          (h_now_first i) chat_id (Scheduler.svc (sched st)) in
      let st := with_svc st svc1 in
      match active with
      | Some active => (st, WildSpotted active)
      | None =>
          let '(svc2, success) := FastSpawn.create_spawn (h_create i) chat_id svc1 in
          let st := with_svc st svc2 in
          if negb success then (st, SpawnFailed)
          else
            let '(svc3, spawn) :=
              FastSpawn.get_active_spawn get_pokemon_sprite_url (h_fault_second i)
                (h_now_second i) chat_id svc2 in
            let st := with_svc st svc3 in
            match spawn with
            | None => (st, SpawnCreationError)
            | Some spawn => (st, SpawnedSuccessfully spawn)
            end
      end
  end.

End SpawnHandler.

End Handler.

(** The spawn is marked caught in the store. *)
Definition caught_in (sid : string) (d : DB) : Prop :=
  ∃ s, spawns d !! sid = Some s ∧ is_caught s = true.

(** The chat has a spawn that is not caught and expires after [now]. *)
Definition has_active (chat : Z) (now : datetime) (d : DB) : Prop :=
  ∃ k s, spawns d !! k = Some s ∧ chat_id s = chat ∧ is_caught s = false ∧
         now < expires_at s.

(** A call of [catch_spawn] on the uncaught spawn [s] that has all it takes
    to capture it: no statement raises, the clock is before the expiry, the
    roll succeeds and the id of the pokemon is new in the table. *)
Definition fast_hits (d : DB) (s : Spawn) (c : FastSpawn.CatchIn * Z) : Prop :=
  FastSpawn.k_fault c.1 = None ∧
  FastSpawn.k_now c.1 < expires_at s ∧
  (0.02 < FastSpawn.k_roll c.1)%Q ∧
  pokemon d !! pokemon_id (FastSpawn.new_pokemon c.1 c.2 s) = None.

Definition svc_hits (d : DB) (s : Spawn) (c : SpawnSvc.CatchIn * Z) : Prop :=
  SpawnSvc.k_fault c.1 = None ∧
  SpawnSvc.k_utcnow_check c.1 ≤ expires_at s ∧
  (SpawnSvc.k_roll c.1 <= SpawnSvc.catch_rate (rarity s))%Q ∧
  pokemon d !! SpawnSvc.generate_id "poke_" (SpawnSvc.k_utcnow_id c.1)
                 (SpawnSvc.k_id_seeds c.1) = None.

(** A call that cannot capture [s]: the spawn is caught or has expired at
    the clock of the call, the roll fails, or one of the statements of the
    call raises. *)
Definition fast_misses (s : Spawn) (c : FastSpawn.CatchIn * Z) : Prop :=
  is_caught s = true ∨
  expires_at s ≤ FastSpawn.k_now c.1 ∨
  (FastSpawn.k_roll c.1 <= 0.02)%Q ∨
  ∃ n, FastSpawn.k_fault c.1 = Some n ∧ (n ≤ 5)%nat.

Definition svc_misses (s : Spawn) (c : SpawnSvc.CatchIn * Z) : Prop :=
  is_caught s = true ∨
  expires_at s < SpawnSvc.k_utcnow_check c.1 ∨
  (SpawnSvc.catch_rate (rarity s) < SpawnSvc.k_roll c.1)%Q ∨
  ∃ n, SpawnSvc.k_fault c.1 = Some n ∧ (n ≤ 4)%nat.

(** The schedule in which [n] calls, numbered from [k], run one after the
    other: both steps of a call before the first step of the next. *)
Fixpoint serial (k n : nat) : list nat :=
  match n with
  | O => []
  | S n' => k :: k :: serial (S k) n'
  end.

Definition pending (calls : list (FastSpawn.CatchIn * Z)) : list Race.Call :=
  (fun c => Race.Pending c.1 c.2) <$> calls.

(** ** Sample data *)

Module Ex.

(** A level 5 pikachu spawned in chat 7 at time 0 with the ten minute
    window of [RawSQLSpawnService]. *)
Definition pikachu : Spawn :=
  mkSpawn 1 "spawn_0_1234" 7 "pikachu" 25 5 false "common" 0 (minutes 10)
          false None None.

Definition caught_pikachu : Spawn := mark_caught pikachu 101 (minutes 1).

Definition store : DB := mkDB {[ "spawn_0_1234" := pikachu ]} ∅ ∅.

Definition store_caught : DB := mkDB {[ "spawn_0_1234" := caught_pikachu ]} ∅ ∅.

Definition fresh : FastSpawn.State := FastSpawn.mkState store ∅.

(** Calls of [RawSQLSpawnService.catch_spawn]: no store fault, the clock
    at [now], the roll [roll], the pokemon id built from [seed]. *)
Definition fast_call (now : datetime) (roll : Q) (seed : Z) : FastSpawn.CatchIn :=
  FastSpawn.mkCatchIn None now roll now seed.

(** Calls of [SpawnService.catch_spawn]; every draw of [random.choices]
    is [seed]. *)
Definition svc_call (now : datetime) (roll : Q) (seed : Z) : SpawnSvc.CatchIn :=
  SpawnSvc.mkCatchIn None now roll now now (fun _ => seed) now.

(** A catalog that knows no species, and one that knows only bulbasaur. *)
Definition no_catalog : nat → Z → option SpawnSvc.PokemonData := fun _ _ => None.

Definition bulbasaur_only : nat → Z → option SpawnSvc.PokemonData :=
  fun _ species_id =>
    if species_id =? 1 then Some {[ "name" := "bulbasaur" ]} else None.

Definition no_sprite : Z → bool → exn (option string) := fun _ _ => Ok None.

(** Calls of [create_spawn] at time [now], without store fault, every seed
    being [seed] and the shiny roll 0.5. *)
Definition fast_create (now : datetime) (seed : Z) : FastSpawn.CreateIn :=
  FastSpawn.mkCreateIn None now seed seed seed 0.5 seed now seed now now 2.

Definition svc_create (now : datetime) (seed : Z) : SpawnSvc.CreateIn :=
  SpawnSvc.mkCreateIn None now now now seed seed 0.5 seed now (fun _ => seed) now 2.

Definition svc_fresh : SpawnSvc.State := SpawnSvc.mkState store ∅ 0.

(** A call of [SpawnService.create_spawn] that first draws species 6 and
    then the fallback species 1. *)
Definition svc_create_fallback (now : datetime) : SpawnSvc.CreateIn :=
  SpawnSvc.mkCreateIn None now now now 5 0 0.5 0 now (fun _ => 0) now 2.

Definition empty : FastSpawn.State := FastSpawn.mkState (mkDB ∅ ∅ ∅) ∅.

End Ex.

(** * The rest of the cited files *)

(** ** Helpers ([bot/utils/helpers.py]) *)

Module Helpers.

(** [PokemonRarity] of [bot/models/sql_models.py], a [str] enumeration. *)
Inductive PokemonRarity :=
| COMMON | UNCOMMON | RARE | EPIC | LEGENDARY | MYTHICAL.

(** The value of a member, which is also what it compares equal to. *)
Definition value (r : PokemonRarity) : string :=
  match r with
  | COMMON => "common"
  | UNCOMMON => "uncommon"
  | RARE => "rare"
  | EPIC => "epic"
  | LEGENDARY => "legendary"
  | MYTHICAL => "mythical"
  end.

Definition calculate_level_exp (level : Z) : Z :=
  if level <=? 1 then 0 else level ^ 3.

Definition calculate_exp_for_next_level (current_level : Z) : Z :=
  calculate_level_exp (current_level + 1) - calculate_level_exp current_level.

(** The [while] loop of [get_level_from_exp], run for at most [fuel]
    rounds. *)
Fixpoint level_loop (fuel : nat) (experience level : Z) : Z :=
  match fuel with
  | O => level
  | S fuel' =>
      if calculate_level_exp (level + 1) <=? experience
      then level_loop fuel' experience (level + 1)
      else level
  end.

(** [experience] rounds are more than the loop can make: each round but
    the last needs [(level + 1) ^ 3 <= experience]. *)
Definition get_level_from_exp (experience : Z) : Z :=
  if experience <=? 0 then 1
  else Z.min (level_loop (Z.to_nat experience) experience 1) 100.

Definition get_legendary_pokemon : list Z :=
  [ 144; 145; 146; 150; 151;
    243; 244; 245; 249; 250; 251;
    377; 378; 379; 380; 381; 382; 383; 384; 385; 386;
    480; 481; 482; 483; 484; 485; 486; 487; 488; 489; 490; 491; 492; 493;
    494; 638; 639; 640; 641; 642; 643; 644; 645; 646; 647; 648; 649 ].

Definition get_rare_pokemon : list Z := [ 149; 248; 376; 445; 600 ].

Definition get_uncommon_pokemon : list Z :=
  [ 1; 4; 7; 152; 155; 158; 252; 255; 258; 387; 390; 393; 495; 498; 501 ].

Definition determine_rarity (pokemon_id : Z) (is_shiny : bool) : PokemonRarity :=
  if is_shiny then
    if bool_decide (pokemon_id ∈ get_legendary_pokemon) then MYTHICAL
    else if bool_decide (pokemon_id ∈ get_rare_pokemon) then LEGENDARY
    else EPIC
  else if bool_decide (pokemon_id ∈ get_legendary_pokemon) then LEGENDARY
  else if bool_decide (pokemon_id ∈ get_rare_pokemon) then RARE
  else if bool_decide (pokemon_id ∈ get_uncommon_pokemon) then UNCOMMON
  else COMMON.

(** [calculate_shiny_chance]: [random.randint(1, 4096) == 1] *)
Definition calculate_shiny_chance (seed : Z) : bool := randint 1 4096 seed =? 1.

End Helpers.

(** ** Python string operations used by the handlers *)

Module PyStr.

(** [s.startswith(prefix)] *)
Fixpoint startswith (prefix s : string) : bool :=
  match prefix, s with
  | EmptyString, _ => true
  | String _ _, EmptyString => false
  | String a prefix', String b s' =>
      if bool_decide (a = b) then startswith prefix' s' else false
  end.

(** [sub in s] *)
Fixpoint contains (sub s : string) : bool :=
  startswith sub s ||
  match s with
  | EmptyString => false
  | String _ s' => contains sub s'
  end.

(** [s.split(sep)] for a separator that is not empty: the text is scanned
    from the left; [cur] is the piece being read and [skip] the number of
    characters of a separator just found that are still to be passed. *)
Fixpoint split_go (sep : string) (skip : nat) (cur s : string) : list string :=
  match s with
  | EmptyString => [cur]
  | String c s' =>
      match skip with
      | S skip' => split_go sep skip' cur s'
      | O =>
          if startswith sep s
          then cur :: split_go sep (String.length sep - 1) "" s'
          else split_go sep 0 (cur +:+ String c "") s'
      end
  end.

Definition split (sep s : string) : list string := split_go sep 0 "" s.

End PyStr.

(** ** The other functions of [SpawnService] *)

Module SpawnSvcRest.

(** [_get_catch_rate]: [rates.get(rarity, 0.8)], the keys being the members
    of [PokemonRarity]. *)
Definition _get_catch_rate (rarity : string) : Q :=
  if bool_decide (rarity = "common") then 0.9%Q
  else if bool_decide (rarity = "uncommon") then 0.75%Q
  else if bool_decide (rarity = "rare") then 0.6%Q
  else if bool_decide (rarity = "epic") then 0.4%Q
  else if bool_decide (rarity = "legendary") then 0.25%Q
  else if bool_decide (rarity = "mythical") then 0.1%Q
  else 0.8%Q.

(** [_calculate_catch_exp]: [base_exp.get(rarity, 10) + (level // 5)] *)
Definition base_exp (rarity : string) : Z :=
  if bool_decide (rarity = "common") then 10
  else if bool_decide (rarity = "uncommon") then 20
  else if bool_decide (rarity = "rare") then 35
  else if bool_decide (rarity = "epic") then 50
  else if bool_decide (rarity = "legendary") then 75
  else if bool_decide (rarity = "mythical") then 100
  else 10.

Definition _calculate_catch_exp (rarity : string) (level : Z) : Z :=
  base_exp rarity + level / 5.

(** [_get_random_pokemon_id]: [roll] is [random.random()], [seed] the draw
    of the one [random.choice] or [random.randint] that follows.  The
    thresholds are sums of floats: [0.01 + 0.05] is the float
    [0.060000000000000005] and [0.01 + 0.05 + 0.15] the float [0.21]. *)
Definition starters : list Z := seqZ 1 9 ++ seqZ 152 9 ++ seqZ 252 9.

Definition _get_random_pokemon_id (roll : Q) (seed : Z) : exn Z :=
  let legendary_chance := 0.01%Q in
  let legendary_or_rare := 0.060000000000000005%Q in
  let legendary_rare_or_uncommon := 0.21%Q in
  if Qltb roll legendary_chance
  then FastSpawn.choice_exn Helpers.get_legendary_pokemon seed
  else if Qltb roll legendary_or_rare
  then FastSpawn.choice_exn Helpers.get_rare_pokemon seed
  else if Qltb roll legendary_rare_or_uncommon
  then FastSpawn.choice_exn starters seed
  else Ok (randint 1 649 seed).

(** *** The cooldown of a chat *)

(** A row of [spawn_cooldowns]; the table is keyed by its unique
    [chat_id]. *)
Record SpawnCooldown := mkSpawnCooldown {
  last_spawn : datetime;
  cooldown_until : datetime
}.

(** [timedelta(seconds=n)] *)
Definition seconds (n : Z) : Z := n * 1000000.

(** [check_spawn_cooldown]: [fault = Some 0] makes the query raise;
    [utcnow] is read after the query. *)
Definition check_spawn_cooldown (fault : option nat) (utcnow : datetime) (chat : Z)
    (spawn_cooldowns : gmap Z SpawnCooldown) : bool :=
  match stmt fault 0 (Ok (spawn_cooldowns !! chat)) with
  | Ok None => true
  | Ok (Some cooldown) => cooldown_until cooldown <=? utcnow
  | Raise => true
  end.

(** [set_spawn_cooldown]: statement 0 is the query, statement 1 the
    commit; nothing is written unless the commit goes through. *)
Definition set_spawn_cooldown (SPAWN_COOLDOWN : Z) (fault : option nat)
    (now : datetime) (chat : Z) (spawn_cooldowns : gmap Z SpawnCooldown)
    : gmap Z SpawnCooldown :=
  let cooldown_until := now + seconds SPAWN_COOLDOWN in
  match
    _ ← stmt fault 0 (Ok (spawn_cooldowns !! chat));
    stmt fault 1
      (Ok (<[chat := mkSpawnCooldown now cooldown_until]> spawn_cooldowns))
  with
  | Ok table => table
  | Raise => spawn_cooldowns
  end.

(** [should_auto_spawn] *)
Record AutoIn := mkAutoIn {
  a_roll : Q;                      (* random.random() *)
  a_fault_cooldown : option nat;   (* check_spawn_cooldown *)
  a_utcnow_cooldown : datetime;
  a_fault_active : option nat;     (* get_active_spawn *)
  a_utcnow_active : datetime
}.

Definition should_auto_spawn (i : AutoIn) (chat : Z) (d : DB)
    (spawn_cooldowns : gmap Z SpawnCooldown) : bool :=
  if Qltb 0.05%Q (a_roll i) then false
  else if negb (check_spawn_cooldown (a_fault_cooldown i) (a_utcnow_cooldown i) chat
                  spawn_cooldowns)
  then false
  else
    match SpawnSvc.get_active_spawn (a_fault_active i) (a_utcnow_active i) chat d with
    | Some _ => false
    | None => true
    end.

(** [cleanup_expired_spawns]: [DELETE FROM spawns WHERE is_caught = false
    AND expires_at < utcnow]; the number of rows deleted, 0 on an
    exception. *)
Definition cleanup_expired_spawns (fault : option nat) (utcnow : datetime) (d : DB)
    : DB * Z :=
  match stmt fault 0
          (Ok (filter (fun kv => (negb (is_caught kv.2) && (expires_at kv.2 <? utcnow))
                                 = false) (spawns d))) with
  | Ok kept =>
      (mkDB kept (pokemon d) (users d),
       Z.of_nat (size (spawns d)) - Z.of_nat (size kept))
  | Raise => (d, 0)
  end.

End SpawnSvcRest.

(** ** The other functions of [FastSchedulerService] *)

Module SchedulerRest.

(** [force_spawn_all_channels]: [inputs chat] are the inputs of the call of
    [spawn_service.create_spawn] made for [chat]. *)
Fixpoint force_spawn_list (catalog : nat -> Z -> option SpawnSvc.PokemonData)
    (inputs : Z -> SpawnSvc.CreateIn) (channels : list Z) (st : SpawnSvc.State)
    : SpawnSvc.State * Z :=
  match channels with
  | [] => (st, 0)
  | chat_id :: rest =>
      let '(st', spawn) := SpawnSvc.create_spawn catalog (inputs chat_id) chat_id st in
      let '(st'', spawned_count) := force_spawn_list catalog inputs rest st' in
      (st'', match spawn with Some _ => 1 | None => 0 end + spawned_count)
  end.

Definition force_spawn_all_channels (catalog : nat -> Z -> option SpawnSvc.PokemonData)
    (inputs : Z -> SpawnSvc.CreateIn) (active_channels : gset Z) (st : SpawnSvc.State)
    : SpawnSvc.State * Z :=
  force_spawn_list catalog inputs (elements active_channels) st.

(** [cleanup_expired_spawns]: [DELETE FROM spawns WHERE expires_at < $1 AND
    is_caught = FALSE]; the second component tells whether the deletion
    was logged ([result != "DELETE 0"]). *)
Definition cleanup_expired_spawns (fault : option nat) (utcnow : datetime) (d : DB)
    : DB * bool :=
  match stmt fault 0
          (Ok (filter (fun kv => ((expires_at kv.2 <? utcnow) && negb (is_caught kv.2))
                                 = false) (spawns d))) with
  | Ok kept =>
      (mkDB kept (pokemon d) (users d),
       negb (Z.of_nat (size (spawns d)) - Z.of_nat (size kept) =? 0))
  | Raise => (d, false)
  end.

End SchedulerRest.

(** ** The handlers that call the services *)

Module Handlers.

(** What [get_spawn_by_id] returns: the fields of a cache entry and the
    state of the capture. *)
Record SpawnInfo := mkSpawnInfo {
  info : FastSpawn.SpawnData;
  info_is_caught : bool;
  info_caught_by : option Z
}.

Section Sprite.

Variable get_pokemon_sprite_url : Z -> bool -> exn (option string).

(** [RawSQLSpawnService.get_spawn_by_id]: [SELECT ... WHERE spawn_id = $1
    AND expires_at > NOW()] *)
Definition get_spawn_by_id (fault : option nat) (now : datetime) (sid : string)
    (d : DB) : option SpawnInfo :=
  match stmt fault 0 (Ok (FastSpawn.select_unexpired sid now d)) with
  | Ok (Some row) =>
      Some (mkSpawnInfo
              (FastSpawn.with_image_url (FastSpawn.spawn_data_of_row row)
                 (FastSpawn.image_url_of get_pokemon_sprite_url (species_id row)
                    (is_shiny row)))
              (is_caught row) (caught_by row))
  | Ok None => None
  | Raise => None
  end.

(** *** [catch_button_handler] ([bot/handlers/inline.py])

    The reply is what the handler answers when the calls of the Telegram
    API themselves go through; of the statements modelled here only the
    indexing of the split can reach the [except] clause. *)

Inductive ButtonReply :=
| InvalidAction
| Disappeared
| AlreadyCaughtBySomeone
| CapturedOk (message : string)
| CatchFailed (message : string)
| CatchError.               (* the [except] clause *)

Record ButtonIn := mkButtonIn {
  b_fault : option nat;          (* get_spawn_by_id *)
  b_now : datetime;
  b_catch : FastSpawn.CatchIn    (* catch_spawn *)
}.

Definition catch_button_handler (i : ButtonIn) (data : string) (user_id : Z)
    (st : FastSpawn.State) : FastSpawn.State * ButtonReply :=
  if negb (PyStr.startswith "catch_" data) then (st, InvalidAction)
  else
    match PyStr.split "catch_" data !! 1%nat with
    | None => (st, CatchError)          (* IndexError *)
    | Some spawn_id =>
        match get_spawn_by_id (b_fault i) (b_now i) spawn_id (FastSpawn.db st) with
        | None => (st, Disappeared)
        | Some spawn =>
            if info_is_caught spawn then (st, AlreadyCaughtBySomeone)
            else
              let '(st', (success, message)) :=
                FastSpawn.catch_spawn (b_catch i) spawn_id user_id st in
              if success then (st', CapturedOk message)
              else (st', CatchFailed message)
        end
    end.

(** The [callback_data] of the button [spawn_handler] shows. *)
Definition catch_button_data (spawn : FastSpawn.SpawnData) : string :=
  "catch_" +:+ FastSpawn.d_spawn_id spawn.

(** *** [catch_handler] ([bot/handlers/pokemon.py]) *)

Inductive CatchReply :=
| NoWildPokemon
| Captured (message : string)
| CaptureFailed (message : string).

Record CatchHandlerIn := mkCatchHandlerIn {
  h_fault : option nat;          (* get_active_spawn *)
  h_now : datetime;
  h_catch : FastSpawn.CatchIn    (* catch_spawn *)
}.

Definition catch_handler (i : CatchHandlerIn) (user_id chat_id : Z)
    (st : FastSpawn.State) : FastSpawn.State * CatchReply :=
  let '(st1, spawn) :=
    FastSpawn.get_active_spawn get_pokemon_sprite_url (h_fault i) (h_now i) chat_id st in
  match spawn with
  | None => (st1, NoWildPokemon)
  | Some spawn =>
      let '(st2, (success, message)) :=
        FastSpawn.catch_spawn (h_catch i) (FastSpawn.d_spawn_id spawn) user_id st1 in
      if success then (st2, Captured message) else (st2, CaptureFailed message)
  end.

(** *** [auto_spawn_handler] ([bot/handlers/spawn.py]) *)

Record AutoSpawnIn := mkAutoSpawnIn {
  s_hash : Z;                      (* hash(str(chat.id) + str(time.time())) *)
  s_fault_first : option nat;      (* first get_active_spawn *)
  s_now_first : datetime;
  s_create : FastSpawn.CreateIn;   (* create_spawn *)
  s_fault_second : option nat;     (* second get_active_spawn *)
  s_now_second : datetime
}.

(** The spawn announced in the chat, if any. *)
Definition auto_spawn_handler (i : AutoSpawnIn) (chat_type : string) (chat_id : Z)
    (st : FastSpawn.State) : FastSpawn.State * option FastSpawn.SpawnData :=
  if negb (bool_decide (chat_type ∈ ["group"; "supergroup"])) then (st, None)
  else if negb (s_hash i mod 100 <? 3) then (st, None)
  else
    let '(st1, active) :=
      FastSpawn.get_active_spawn get_pokemon_sprite_url (s_fault_first i)
        (s_now_first i) chat_id st in
    match active with
    | Some _ => (st1, None)
    | None =>
        let '(st2, success) := FastSpawn.create_spawn (s_create i) chat_id st1 in
        if negb success then (st2, None)
        else
          FastSpawn.get_active_spawn get_pokemon_sprite_url (s_fault_second i)
            (s_now_second i) chat_id st2
    end.

End Sprite.

End Handlers.

(** ** Notions used in the statements *)

(** The order of the members of [PokemonRarity], from the most common. *)
Definition rank (r : Helpers.PokemonRarity) : Z :=
  match r with
  | Helpers.COMMON => 1
  | Helpers.UNCOMMON => 2
  | Helpers.RARE => 3
  | Helpers.EPIC => 4
  | Helpers.LEGENDARY => 5
  | Helpers.MYTHICAL => 6
  end.

(** The chat of an "Auto-spawned in channel" log line. *)
Definition spawned (e : Scheduler.Event) : option Z :=
  match e with
  | Scheduler.AutoSpawned chat => Some chat
  | _ => None
  end.

(** A call of [catch_spawn] that cannot capture the spawn [sid] as long as
    the store is [d]: it has not read the row yet and the row it will read
    is missing, caught or expired at its clock; or it has read no row or a
    caught row; or it has returned [False]. *)
Definition harmless (sid : string) (d : DB) (c : Race.Call) : Prop :=
  match c with
  | Race.Pending i _ =>
      ∀ s, spawns d !! sid = Some s →
           is_caught s = true ∨ expires_at s ≤ FastSpawn.k_now i
  | Race.Fetched _ _ None => True
  | Race.Fetched _ _ (Some s) => is_caught s = true
  | Race.Returned (success, _) => success = false
  end.

(** The row [INSERT INTO users ... ON CONFLICT DO NOTHING] inserts for a
    user the store does not know yet. *)
Definition new_trainer : User := mkUser "trainer" "Unknown" 1000 0 1 0 0.

(** A record of the catalog that carries a name, and a service whose
    cached records all do. *)
Definition named (data : SpawnSvc.PokemonData) : Prop := is_Some (data !! "name").

Definition named_cache (st : SpawnSvc.State) : Prop :=
  ∀ species_id data, SpawnSvc._pokemon_cache st !! species_id = Some data → named data.

(** * Properties *)

(** ** Basic facts about the shared definitions *)

Lemma stmt_no_fault {A} (n : nat) (r : exn A) : stmt None n r = r.
Proof. reflexivity. Qed.

Lemma stmt_fault {A} (n : nat) (r : exn A) : stmt (Some n) n r = Raise.
Proof. unfold stmt. by rewrite decide_True. Qed.

Lemma stmt_cases {A} (fault : option nat) (n : nat) (r : exn A) :
  (fault = Some n ∧ stmt fault n r = Raise) ∨ (fault ≠ Some n ∧ stmt fault n r = r).
Proof. unfold stmt. case_decide; [left | right]; done. Qed.

Lemma Qltb_lt (x y : Q) : Qltb x y = true ↔ (x < y)%Q.
Proof.
  unfold Qltb. rewrite negb_true_iff, <- not_true_iff_false, Qle_bool_iff.
  split; [apply Qnot_le_lt | apply Qlt_not_le].
Qed.

Lemma Qltb_ge (x y : Q) : Qltb x y = false ↔ (y <= x)%Q.
Proof. unfold Qltb. by rewrite negb_false_iff, Qle_bool_iff. Qed.

Lemma randint_range (a b seed : Z) : a ≤ b → a ≤ randint a b seed ≤ b.
Proof.
  intros Hab. unfold randint.
  pose proof (Z.mod_pos_bound seed (b - a + 1)). lia.
Qed.

Lemma choice_nonempty {A} (l : list A) (seed : Z) :
  l ≠ [] → is_Some (choice l seed).
Proof.
  intros Hl. unfold choice. apply lookup_lt_is_Some.
  assert (0 < Z.of_nat (length l)) by (destruct l; [done | simpl; lia]).
  pose proof (Z.mod_pos_bound seed (Z.of_nat (length l))). lia.
Qed.

Lemma choice_elem {A} (l : list A) (seed : Z) (a : A) :
  choice l seed = Some a → a ∈ l.
Proof. unfold choice. apply list_elem_of_lookup_2. Qed.

Ltac stmt_split :=
  match goal with
  | |- context [stmt ?f ?n ?r] =>
      let Hf := fresh "Hfault" in
      destruct (stmt_cases f n r) as [[Hf ->] | [Hf ->]]
  end.

Ltac exn_simpl := cbn [mbind exn_bind mret exn_ret].

(** *** Rows selected by a [WHERE] clause *)

Lemma elem_of_select_spawns (P : Spawn → bool) (d : DB) (s : Spawn) :
  s ∈ select_spawns P d ↔ (∃ k, spawns d !! k = Some s) ∧ P s = true.
Proof.
  unfold select_spawns. rewrite list_elem_of_filter, list_elem_of_fmap.
  split.
  - intros [HP [[k s'] [-> Hin]]]. apply elem_of_map_to_list in Hin. eauto.
  - intros [[k Hk] HP]. split; [done |].
    exists (k, s). split; [done | by apply elem_of_map_to_list].
Qed.

Lemma select_spawns_head_None (P : Spawn → bool) (d : DB) :
  head (select_spawns P d) = None ↔ ∀ k s, spawns d !! k = Some s → P s = false.
Proof.
  rewrite head_None. split.
  - intros Hnil k s Hk. destruct (P s) eqn:HP; [| done].
    assert (s ∈ select_spawns P d) as Hin by (apply elem_of_select_spawns; eauto).
    rewrite Hnil in Hin. by apply not_elem_of_nil in Hin.
  - intros Hall. destruct (select_spawns P d) as [| s l] eqn:Hsel; [done |].
    assert (s ∈ select_spawns P d) as Hin by (rewrite Hsel; left).
    apply elem_of_select_spawns in Hin as [[k Hk] HP].
    rewrite (Hall k s Hk) in HP. done.
Qed.

Lemma select_spawns_head_Some (P : Spawn → bool) (d : DB) (k : string) (s : Spawn) :
  spawns d !! k = Some s → P s = true → is_Some (head (select_spawns P d)).
Proof.
  intros Hk HP. destruct (head (select_spawns P d)) eqn:Hh; [eauto |].
  apply select_spawns_head_None with (k := k) (s := s) in Hh; [congruence | done].
Qed.

Lemma latest_elem (l : list Spawn) (s : Spawn) : latest l = Some s → s ∈ l.
Proof.
  revert s. induction l as [| a l IH]; intros s; simpl; [done |].
  destruct (latest l) as [best |] eqn:Hl.
  - intros [= <-]. unfold later. case_match; [left | right; by apply IH].
  - intros [= <-]. left.
Qed.

Lemma latest_None (l : list Spawn) : latest l = None ↔ l = [].
Proof.
  destruct l as [| a l]; simpl; [done |]. by destruct (latest l).
Qed.

Lemma active_in_spec (chat : Z) (now : datetime) (s : Spawn) :
  active_in chat now s = true ↔
  chat_id s = chat ∧ is_caught s = false ∧ now < expires_at s.
Proof.
  unfold active_in. rewrite !andb_true_iff, negb_true_iff, Z.eqb_eq, Z.ltb_lt.
  tauto.
Qed.

(** ** [catch_spawn] of [RawSQLSpawnService] *)

(** A call that returns [False] has left the state as it was, unless it
    is its COMMIT that raised: then the tables are as they were and the
    cache entry of the chat of the spawn is gone. *)
Lemma fast_catch_failure_cases i sid uid st :
  (FastSpawn.catch_spawn i sid uid st).2.1 = false →
  (FastSpawn.catch_spawn i sid uid st).1 = st ∨
  (FastSpawn.k_fault i = Some 5%nat ∧
   ∃ s, spawns (FastSpawn.db st) !! sid = Some s ∧ is_caught s = false ∧
        FastSpawn.k_now i < expires_at s ∧ (0.02 < FastSpawn.k_roll i)%Q ∧
        FastSpawn.catch_spawn i sid uid st
        = (FastSpawn.mkState (FastSpawn.db st)
             (delete (chat_id s) (FastSpawn._spawn_cache st)),
           (false, "Catch failed!"))).
Proof.
  unfold FastSpawn.catch_spawn, FastSpawn.catch_spawn_body.
  stmt_split; exn_simpl; [by left |].
  unfold FastSpawn.catch_resolve, FastSpawn.select_unexpired.
  destruct (spawns (FastSpawn.db st) !! sid) as [s |] eqn:Hs; [| by left].
  destruct (FastSpawn.k_now i <? expires_at s) eqn:Hexp; [| by left].
  destruct (is_caught s) eqn:Hc; [by left |].
  destruct (Qltb _ _) eqn:Hroll; [| by left].
  repeat (stmt_split; exn_simpl; [by left |]).
  destruct (insert_pokemon _ _); exn_simpl; [| by left].
  stmt_split; exn_simpl; [by left |].
  stmt_split; [| done].
  intros _. right. split; [done |]. exists s.
  split_and!; try done; [by apply Z.ltb_lt | by apply Qltb_lt].
Qed.

Lemma fast_catch_failure_db i sid uid st :
  (FastSpawn.catch_spawn i sid uid st).2.1 = false →
  FastSpawn.db (FastSpawn.catch_spawn i sid uid st).1 = FastSpawn.db st.
Proof.
  intros Hr.
  destruct (fast_catch_failure_cases i sid uid st Hr) as [-> | (_ & s & _ & _ & _ & _ & ->)];
    done.
Qed.

Lemma fast_catch_failure_unchanged i sid uid st :
  (FastSpawn.catch_spawn i sid uid st).2.1 = false →
  FastSpawn.k_fault i ≠ Some 5%nat →
  (FastSpawn.catch_spawn i sid uid st).1 = st.
Proof.
  intros Hr Hfault.
  by destruct (fast_catch_failure_cases i sid uid st Hr) as [-> | [? _]].
Qed.

Lemma fast_catch_success i sid uid st :
  (FastSpawn.catch_spawn i sid uid st).2.1 = true →
  ∃ s, spawns (FastSpawn.db st) !! sid = Some s ∧ is_caught s = false ∧
       FastSpawn.k_now i < expires_at s ∧ (0.02 < FastSpawn.k_roll i)%Q ∧
       (FastSpawn.catch_spawn i sid uid st).2.2 = FastSpawn.caught_message s ∧
       spawns (FastSpawn.db (FastSpawn.catch_spawn i sid uid st).1)
         = <[sid := mark_caught s uid (FastSpawn.k_now i)]> (spawns (FastSpawn.db st)) ∧
       pokemon (FastSpawn.db st) !! pokemon_id (FastSpawn.new_pokemon i uid s) = None ∧
       pokemon (FastSpawn.db (FastSpawn.catch_spawn i sid uid st).1)
         = <[pokemon_id (FastSpawn.new_pokemon i uid s) := FastSpawn.new_pokemon i uid s]>
             (pokemon (FastSpawn.db st)) ∧
       FastSpawn._spawn_cache (FastSpawn.catch_spawn i sid uid st).1
         = delete (chat_id s) (FastSpawn._spawn_cache st).
Proof.
  unfold FastSpawn.catch_spawn, FastSpawn.catch_spawn_body.
  stmt_split; exn_simpl; [done |].
  unfold FastSpawn.catch_resolve, FastSpawn.select_unexpired.
  destruct (spawns (FastSpawn.db st) !! sid) as [s |] eqn:Hs; [| done].
  destruct (FastSpawn.k_now i <? expires_at s) eqn:Hexp; [| done].
  destruct (is_caught s) eqn:Hc; [done |].
  destruct (Qltb _ _) eqn:Hroll; [| done].
  repeat (stmt_split; exn_simpl; [done |]).
  unfold insert_pokemon.
  assert (pokemon (FastSpawn.ensure_user uid
            (update_spawn_caught sid uid (FastSpawn.k_now i) (FastSpawn.db st)))
          = pokemon (FastSpawn.db st)) as Hpk.
  { unfold FastSpawn.ensure_user. by case_match. }
  assert (spawns (FastSpawn.ensure_user uid
            (update_spawn_caught sid uid (FastSpawn.k_now i) (FastSpawn.db st)))
          = <[sid := mark_caught s uid (FastSpawn.k_now i)]> (spawns (FastSpawn.db st))) as Hsp.
  { unfold FastSpawn.ensure_user. case_match; cbn [spawns update_spawn_caught];
      apply map_eq; intros k; rewrite lookup_alter, lookup_insert;
      case_decide; subst; by rewrite ?Hs. }
  rewrite Hpk.
  destruct (pokemon (FastSpawn.db st) !! _) eqn:Hp; exn_simpl; [done |].
  stmt_split; exn_simpl; [done |].
  stmt_split; [done |].
  intros _. exists s. cbn. rewrite Hsp.
  repeat split; try done.
  - by apply Z.ltb_lt.
  - by apply Qltb_lt.
Qed.

Lemma fast_catch_caught_fails i sid uid st :
  caught_in sid (FastSpawn.db st) →
  (FastSpawn.catch_spawn i sid uid st).2.1 = false.
Proof.
  intros (s & Hs & Hc).
  destruct ((FastSpawn.catch_spawn i sid uid st).2.1) eqn:Hr; [| done].
  apply fast_catch_success in Hr as (s' & Hs' & Hc' & _). congruence.
Qed.

Lemma fast_catch_success_caught i sid uid st :
  (FastSpawn.catch_spawn i sid uid st).2.1 = true →
  caught_in sid (FastSpawn.db (FastSpawn.catch_spawn i sid uid st).1).
Proof.
  intros Hr. apply fast_catch_success in Hr as (s & _ & _ & _ & _ & _ & Hsp & _).
  exists (mark_caught s uid (FastSpawn.k_now i)). rewrite Hsp.
  by rewrite lookup_insert_eq.
Qed.

(** ** [catch_spawn] of [SpawnService] *)

Lemma svc_catch_failure_unchanged i sid uid d :
  (SpawnSvc.catch_spawn i sid uid d).2.1 = false →
  (SpawnSvc.catch_spawn i sid uid d).1 = d.
Proof.
  unfold SpawnSvc.catch_spawn, SpawnSvc.catch_spawn_body.
  stmt_split; exn_simpl; [done |].
  unfold SpawnSvc.catch_resolve.
  destruct (spawns d !! sid) as [s |]; [| done].
  destruct (is_caught s); [done |].
  destruct (expires_at s <? _); [done |].
  destruct (Qltb _ _); [done |].
  stmt_split; exn_simpl; [done |].
  stmt_split; exn_simpl; [done |].
  destruct (insert_pokemon _ _); exn_simpl; [| done].
  stmt_split; exn_simpl; [done |].
  stmt_split; exn_simpl; done.
Qed.

Lemma svc_catch_success i sid uid d :
  (SpawnSvc.catch_spawn i sid uid d).2.1 = true →
  ∃ s, let pid := SpawnSvc.generate_id "poke_" (SpawnSvc.k_utcnow_id i)
                    (SpawnSvc.k_id_seeds i) in
       spawns d !! sid = Some s ∧ is_caught s = false ∧
       SpawnSvc.k_utcnow_check i ≤ expires_at s ∧
       (SpawnSvc.k_roll i <= SpawnSvc.catch_rate (rarity s))%Q ∧
       (SpawnSvc.catch_spawn i sid uid d).2.2 = pid ∧
       spawns (SpawnSvc.catch_spawn i sid uid d).1
         = <[sid := mark_caught s uid (SpawnSvc.k_utcnow_caught i)]> (spawns d) ∧
       pokemon d !! pid = None ∧
       pokemon (SpawnSvc.catch_spawn i sid uid d).1
         = <[pid := SpawnSvc.new_pokemon i pid uid s]> (pokemon d).
Proof.
  unfold SpawnSvc.catch_spawn, SpawnSvc.catch_spawn_body.
  stmt_split; exn_simpl; [done |].
  unfold SpawnSvc.catch_resolve.
  destruct (spawns d !! sid) as [s |] eqn:Hs; [| done].
  destruct (is_caught s) eqn:Hc; [done |].
  destruct (expires_at s <? _) eqn:Hexp; [done |].
  destruct (Qltb _ _) eqn:Hroll; [done |].
  stmt_split; exn_simpl; [done |].
  stmt_split; exn_simpl; [done |].
  unfold insert_pokemon. cbn [pokemon update_spawn_caught pokemon_id SpawnSvc.new_pokemon].
  destruct (pokemon d !! _) eqn:Hp; exn_simpl; [done |].
  stmt_split; exn_simpl; [done |].
  stmt_split; exn_simpl; [done |].
  intros _. exists s. cbn.
  repeat split; try done.
  - by apply Z.ltb_ge.
  - by apply Qltb_ge.
  - apply map_eq; intros k. rewrite lookup_alter, lookup_insert.
    case_decide; subst; by rewrite ?Hs.
Qed.

Lemma svc_catch_caught_fails i sid uid d :
  caught_in sid d → (SpawnSvc.catch_spawn i sid uid d).2.1 = false.
Proof.
  intros (s & Hs & Hc).
  destruct ((SpawnSvc.catch_spawn i sid uid d).2.1) eqn:Hr; [| done].
  apply svc_catch_success in Hr as (s' & Hs' & Hc' & _). congruence.
Qed.

Lemma svc_catch_success_caught i sid uid d :
  (SpawnSvc.catch_spawn i sid uid d).2.1 = true →
  caught_in sid (SpawnSvc.catch_spawn i sid uid d).1.
Proof.
  intros Hr. apply svc_catch_success in Hr as (s & _ & _ & _ & _ & _ & Hsp & _).
  exists (mark_caught s uid (SpawnSvc.k_utcnow_caught i)). rewrite Hsp.
  by rewrite lookup_insert_eq.
Qed.

(** ** Calls made one after the other *)

Lemma wins_nil : wins [] = 0%nat.
Proof. reflexivity. Qed.

Lemma wins_cons r rs :
  wins (r :: rs) = ((if r.1 then 1 else 0) + wins rs)%nat.
Proof.
  unfold wins. rewrite filter_cons. by destruct r as [[] msg].
Qed.

Lemma fast_catch_all_caught sid calls st :
  caught_in sid (FastSpawn.db st) →
  (fast_catch_all sid calls st).1 = st ∧ wins (fast_catch_all sid calls st).2 = 0%nat.
Proof.
  revert st. induction calls as [| [i uid] calls IH]; intros st Hc; [done |].
  simpl.
  pose proof (fast_catch_caught_fails i sid uid st Hc) as Hr.
  assert ((FastSpawn.catch_spawn i sid uid st).1 = st) as Hst.
  { destruct (fast_catch_failure_cases i sid uid st Hr)
      as [? | (_ & s & Hs & Hopen & _)]; [done |].
    destruct Hc as (s' & Hs' & Hc'). congruence. }
  destruct (FastSpawn.catch_spawn i sid uid st) as [st' r]. simpl in *. subst st'.
  destruct (IH st Hc) as [IH1 IH2].
  destruct (fast_catch_all sid calls st) as [st'' rs]. simpl in *.
  split; [done |]. rewrite wins_cons, Hr, IH2. done.
Qed.

Lemma fast_catch_all_wins sid calls st :
  (wins (fast_catch_all sid calls st).2 ≤ 1)%nat ∧
  size (pokemon (FastSpawn.db (fast_catch_all sid calls st).1))
    = (size (pokemon (FastSpawn.db st)) + wins (fast_catch_all sid calls st).2)%nat.
Proof.
  revert st. induction calls as [| [i uid] calls IH]; intros st.
  { cbn [fast_catch_all svc_catch_all fst snd]. rewrite wins_nil. lia. }
  simpl.
  destruct ((FastSpawn.catch_spawn i sid uid st).2.1) eqn:Hr.
  - pose proof (fast_catch_success_caught i sid uid st Hr) as Hc.
    apply fast_catch_success in Hr as Hs.
    destruct Hs as (s & _ & _ & _ & _ & _ & _ & Hfresh & Hpk & _).
    pose proof (fast_catch_all_caught sid calls _ Hc) as [H1 H2].
    destruct (FastSpawn.catch_spawn i sid uid st) as [st' r]. simpl in *.
    destruct (fast_catch_all sid calls st') as [st'' rs]. simpl in *. subst st''.
    rewrite wins_cons, Hr, H2, Hpk, map_size_insert_None by done.
    split; lia.
  - pose proof (fast_catch_failure_db i sid uid st Hr) as Hdb.
    destruct (FastSpawn.catch_spawn i sid uid st) as [st' r]. simpl in *.
    destruct (IH st') as [IH1 IH2].
    destruct (fast_catch_all sid calls st') as [st'' rs]. simpl in *.
    rewrite wins_cons, Hr, <- Hdb. simpl. done.
Qed.

Lemma svc_catch_all_caught sid calls d :
  caught_in sid d →
  (svc_catch_all sid calls d).1 = d ∧ wins (svc_catch_all sid calls d).2 = 0%nat.
Proof.
  revert d. induction calls as [| [i uid] calls IH]; intros d Hc; [done |].
  simpl.
  pose proof (svc_catch_caught_fails i sid uid d Hc) as Hr.
  pose proof (svc_catch_failure_unchanged i sid uid d Hr) as Hd.
  destruct (SpawnSvc.catch_spawn i sid uid d) as [d' r]. simpl in *. subst d'.
  destruct (IH d Hc) as [IH1 IH2].
  destruct (svc_catch_all sid calls d) as [d'' rs]. simpl in *.
  split; [done |]. rewrite wins_cons, Hr, IH2. done.
Qed.

Lemma svc_catch_all_wins sid calls d :
  (wins (svc_catch_all sid calls d).2 ≤ 1)%nat ∧
  size (pokemon (svc_catch_all sid calls d).1)
    = (size (pokemon d) + wins (svc_catch_all sid calls d).2)%nat.
Proof.
  revert d. induction calls as [| [i uid] calls IH]; intros d.
  { cbn [fast_catch_all svc_catch_all fst snd]. rewrite wins_nil. lia. }
  simpl.
  destruct ((SpawnSvc.catch_spawn i sid uid d).2.1) eqn:Hr.
  - pose proof (svc_catch_success_caught i sid uid d Hr) as Hc.
    apply svc_catch_success in Hr as Hs.
    destruct Hs as (s & _ & _ & _ & _ & _ & _ & Hfresh & Hpk).
    pose proof (svc_catch_all_caught sid calls _ Hc) as [H1 H2].
    destruct (SpawnSvc.catch_spawn i sid uid d) as [d' r]. simpl in *.
    destruct (svc_catch_all sid calls d') as [d'' rs]. simpl in *. subst d''.
    rewrite wins_cons, Hr, H2, Hpk, map_size_insert_None by done.
    split; lia.
  - pose proof (svc_catch_failure_unchanged i sid uid d Hr) as Hd.
    destruct (SpawnSvc.catch_spawn i sid uid d) as [d' r]. simpl in *. subst d'.
    destruct (IH d) as [IH1 IH2].
    destruct (svc_catch_all sid calls d) as [d'' rs]. simpl in *.
    rewrite wins_cons, Hr. simpl. done.
Qed.

(** A call that has all it takes captures the spawn. *)
Lemma fast_catch_hit (d : DB) (cache : gmap Z FastSpawn.SpawnData) (sid : string)
    (uid : Z) (s : Spawn) (i : FastSpawn.CatchIn) :
  spawns d !! sid = Some s →
  is_caught s = false →
  FastSpawn.k_fault i = None →
  FastSpawn.k_now i < expires_at s →
  (0.02 < FastSpawn.k_roll i)%Q →
  pokemon d !! pokemon_id (FastSpawn.new_pokemon i uid s) = None →
  (FastSpawn.catch_spawn i sid uid (FastSpawn.mkState d cache)).2
  = (true, FastSpawn.caught_message s).
Proof.
  intros Hs Hc Hf Hexp Hroll Hfresh.
  unfold FastSpawn.catch_spawn, FastSpawn.catch_spawn_body.
  rewrite Hf, stmt_no_fault. exn_simpl.
  unfold FastSpawn.catch_resolve, FastSpawn.select_unexpired. cbn [FastSpawn.db].
  rewrite Hs. apply Z.ltb_lt in Hexp. rewrite Hexp, Hc.
  apply Qltb_lt in Hroll. rewrite Hroll, Hf.
  repeat (rewrite stmt_no_fault; exn_simpl).
  unfold insert_pokemon.
  replace (pokemon (FastSpawn.ensure_user uid
             (update_spawn_caught sid uid (FastSpawn.k_now i) d)))
    with (pokemon d) by (unfold FastSpawn.ensure_user; by case_match).
  rewrite Hfresh. by repeat (rewrite stmt_no_fault; exn_simpl).
Qed.

Lemma svc_catch_hit (d : DB) (sid : string) (uid : Z) (s : Spawn)
    (i : SpawnSvc.CatchIn) :
  let pid := SpawnSvc.generate_id "poke_" (SpawnSvc.k_utcnow_id i)
               (SpawnSvc.k_id_seeds i) in
  spawns d !! sid = Some s →
  is_caught s = false →
  SpawnSvc.k_fault i = None →
  SpawnSvc.k_utcnow_check i ≤ expires_at s →
  (SpawnSvc.k_roll i <= SpawnSvc.catch_rate (rarity s))%Q →
  pokemon d !! pid = None →
  (SpawnSvc.catch_spawn i sid uid d).2 = (true, pid).
Proof.
  intros pid Hs Hc Hf Hexp Hroll Hfresh.
  unfold SpawnSvc.catch_spawn, SpawnSvc.catch_spawn_body.
  rewrite Hf, stmt_no_fault. exn_simpl.
  unfold SpawnSvc.catch_resolve.
  rewrite Hs, Hc. apply Z.ltb_ge in Hexp. rewrite Hexp.
  apply Qltb_ge in Hroll. rewrite Hroll, Hf.
  repeat (rewrite stmt_no_fault; exn_simpl).
  unfold insert_pokemon. cbn [pokemon update_spawn_caught pokemon_id SpawnSvc.new_pokemon].
  fold pid. rewrite Hfresh. by repeat (rewrite stmt_no_fault; exn_simpl).
Qed.

(** A call that returns [True] met no statement that raises. *)
Lemma fast_catch_success_no_fault i sid uid st (n : nat) :
  (FastSpawn.catch_spawn i sid uid st).2.1 = true →
  (n ≤ 5)%nat → FastSpawn.k_fault i ≠ Some n.
Proof.
  unfold FastSpawn.catch_spawn, FastSpawn.catch_spawn_body.
  stmt_split; exn_simpl; [done |].
  unfold FastSpawn.catch_resolve.
  destruct (FastSpawn.select_unexpired _ _ _) as [s |]; [| done].
  destruct (is_caught s); [done |].
  destruct (Qltb _ _); [| done].
  stmt_split; exn_simpl; [done |].
  stmt_split; exn_simpl; [done |].
  stmt_split; exn_simpl; [done |].
  destruct (insert_pokemon _ _); exn_simpl; [| done].
  stmt_split; exn_simpl; [done |].
  stmt_split; [done |].
  intros _ Hn Hf.
  destruct n as [| [| [| [| [| [| n]]]]]]; try done. lia.
Qed.

Lemma svc_catch_success_no_fault i sid uid d (n : nat) :
  (SpawnSvc.catch_spawn i sid uid d).2.1 = true →
  (n ≤ 4)%nat → SpawnSvc.k_fault i ≠ Some n.
Proof.
  unfold SpawnSvc.catch_spawn, SpawnSvc.catch_spawn_body.
  stmt_split; exn_simpl; [done |].
  unfold SpawnSvc.catch_resolve.
  destruct (spawns d !! sid) as [s |]; [| done].
  destruct (is_caught s); [done |].
  destruct (expires_at s <? _); [done |].
  destruct (Qltb _ _); [done |].
  stmt_split; exn_simpl; [done |].
  stmt_split; exn_simpl; [done |].
  destruct (insert_pokemon _ _); exn_simpl; [| done].
  stmt_split; exn_simpl; [done |].
  stmt_split; exn_simpl; [done |].
  intros _ Hn Hf.
  destruct n as [| [| [| [| [| n]]]]]; try done. lia.
Qed.

(** Calls made one after the other on an uncaught spawn, one of which has
    all it takes: exactly one call returns [True]. *)
Lemma fast_catch_all_hit sid calls st s :
  spawns (FastSpawn.db st) !! sid = Some s →
  is_caught s = false →
  (∃ c, c ∈ calls ∧ fast_hits (FastSpawn.db st) s c) →
  wins (fast_catch_all sid calls st).2 = 1%nat.
Proof.
  revert st. induction calls as [| [i uid] calls IH]; intros st Hs Hopen (c & Hin & Hhit).
  { by apply elem_of_nil in Hin. }
  simpl.
  destruct ((FastSpawn.catch_spawn i sid uid st).2.1) eqn:Hr.
  - pose proof (fast_catch_success_caught i sid uid st Hr) as Hc.
    pose proof (fast_catch_all_caught sid calls _ Hc) as [_ H2].
    destruct (FastSpawn.catch_spawn i sid uid st) as [st' r]. simpl in *.
    destruct (fast_catch_all sid calls st') as [st'' rs]. simpl in *.
    by rewrite wins_cons, Hr, H2.
  - apply elem_of_cons in Hin as [-> | Hin].
    + destruct Hhit as (Hf & Hexp & Hroll & Hfresh). cbn [fst snd] in *.
      destruct st as [d cache]. cbn [FastSpawn.db] in *.
      rewrite (fast_catch_hit d cache sid uid s i) in Hr by done. done.
    + pose proof (fast_catch_failure_db i sid uid st Hr) as Hdb.
      destruct (FastSpawn.catch_spawn i sid uid st) as [st' r]. simpl in *.
      specialize (IH st'). rewrite Hdb in IH.
      specialize (IH Hs Hopen (ex_intro _ c (conj Hin Hhit))).
      destruct (fast_catch_all sid calls st') as [st'' rs]. simpl in *.
      by rewrite wins_cons, Hr, IH.
Qed.

Lemma svc_catch_all_hit sid calls d s :
  spawns d !! sid = Some s →
  is_caught s = false →
  (∃ c, c ∈ calls ∧ svc_hits d s c) →
  wins (svc_catch_all sid calls d).2 = 1%nat.
Proof.
  revert d. induction calls as [| [i uid] calls IH]; intros d Hs Hopen (c & Hin & Hhit).
  { by apply elem_of_nil in Hin. }
  simpl.
  destruct ((SpawnSvc.catch_spawn i sid uid d).2.1) eqn:Hr.
  - pose proof (svc_catch_success_caught i sid uid d Hr) as Hc.
    pose proof (svc_catch_all_caught sid calls _ Hc) as [_ H2].
    destruct (SpawnSvc.catch_spawn i sid uid d) as [d' r]. simpl in *.
    destruct (svc_catch_all sid calls d') as [d'' rs]. simpl in *.
    by rewrite wins_cons, Hr, H2.
  - apply elem_of_cons in Hin as [-> | Hin].
    + destruct Hhit as (Hf & Hexp & Hroll & Hfresh). cbn [fst snd] in *.
      rewrite (svc_catch_hit d sid uid s i) in Hr by done. done.
    + pose proof (svc_catch_failure_unchanged i sid uid d Hr) as Hd.
      destruct (SpawnSvc.catch_spawn i sid uid d) as [d' r]. simpl in *. subst d'.
      specialize (IH d Hs Hopen (ex_intro _ c (conj Hin Hhit))).
      destruct (svc_catch_all sid calls d) as [d'' rs]. simpl in *.
      by rewrite wins_cons, Hr, IH.
Qed.

(** Calls none of which can capture the spawn: no call returns [True] and
    the tables are as they were. *)
Lemma fast_catch_all_miss sid calls st :
  (∀ c s, c ∈ calls → spawns (FastSpawn.db st) !! sid = Some s → fast_misses s c) →
  wins (fast_catch_all sid calls st).2 = 0%nat ∧
  FastSpawn.db (fast_catch_all sid calls st).1 = FastSpawn.db st.
Proof.
  revert st. induction calls as [| [i uid] calls IH]; intros st Hmiss; [done |].
  simpl.
  assert ((FastSpawn.catch_spawn i sid uid st).2.1 = false) as Hr.
  { destruct ((FastSpawn.catch_spawn i sid uid st).2.1) eqn:Hr; [| done].
    pose proof (fast_catch_success_no_fault i sid uid st) as Hnf.
    destruct (fast_catch_success i sid uid st Hr) as (s & Hs & Hopen & Hexp & Hroll & _).
    destruct (Hmiss (i, uid) s ltac:(left) Hs) as [? | [? | [Hlow | (n & Hf & Hn)]]];
      cbn [fst snd] in *.
    - congruence.
    - lia.
    - by destruct (Qlt_not_le _ _ Hroll).
    - by destruct (Hnf n Hr Hn). }
  pose proof (fast_catch_failure_db i sid uid st Hr) as Hdb.
  destruct (FastSpawn.catch_spawn i sid uid st) as [st' r]. simpl in *.
  destruct (IH st') as [IH1 IH2].
  { intros c s Hin. rewrite Hdb. apply Hmiss. by right. }
  destruct (fast_catch_all sid calls st') as [st'' rs]. simpl in *.
  rewrite wins_cons, Hr, IH1. split; [done | congruence].
Qed.

Lemma svc_catch_all_miss sid calls d :
  (∀ c s, c ∈ calls → spawns d !! sid = Some s → svc_misses s c) →
  wins (svc_catch_all sid calls d).2 = 0%nat ∧ (svc_catch_all sid calls d).1 = d.
Proof.
  revert d. induction calls as [| [i uid] calls IH]; intros d Hmiss; [done |].
  simpl.
  assert ((SpawnSvc.catch_spawn i sid uid d).2.1 = false) as Hr.
  { destruct ((SpawnSvc.catch_spawn i sid uid d).2.1) eqn:Hr; [| done].
    pose proof (svc_catch_success_no_fault i sid uid d) as Hnf.
    destruct (svc_catch_success i sid uid d Hr) as (s & Hs & Hopen & Hexp & Hroll & _).
    destruct (Hmiss (i, uid) s ltac:(left) Hs) as [? | [? | [Hhigh | (n & Hf & Hn)]]];
      cbn [fst snd] in *.
    - congruence.
    - lia.
    - by destruct (Qlt_not_le _ _ Hhigh).
    - by destruct (Hnf n Hr Hn). }
  pose proof (svc_catch_failure_unchanged i sid uid d Hr) as Hd.
  destruct (SpawnSvc.catch_spawn i sid uid d) as [d' r]. simpl in *. subst d'.
  destruct (IH d) as [IH1 IH2].
  { intros c s Hin. apply Hmiss. by right. }
  destruct (svc_catch_all sid calls d) as [d'' rs]. simpl in *.
  by rewrite wins_cons, Hr, IH1.
Qed.

(** ** Overlapping calls *)

(** Both steps of a call taken in a row are the call itself. *)
Lemma race_two_steps sid i uid st :
  let '(st1, c1) := Race.step_call sid (Race.Pending i uid) st in
  Race.step_call sid c1 st1
  = ((FastSpawn.catch_spawn i sid uid st).1,
     Race.Returned (FastSpawn.catch_spawn i sid uid st).2).
Proof.
  unfold Race.step_call, FastSpawn.catch_spawn, FastSpawn.catch_spawn_body.
  stmt_split; exn_simpl; [done |].
  by destruct (FastSpawn.catch_resolve _ _ _ _ _) as [[st' r] |].
Qed.

Lemma insert_middle {A} (l1 l2 : list A) (x y : A) :
  <[length l1 := y]> (l1 ++ x :: l2) = l1 ++ y :: l2.
Proof.
  replace (length l1) with (length l1 + 0)%nat by lia.
  by rewrite insert_app_r.
Qed.

Lemma race_serial_from sid finished calls st :
  Race.run sid (serial (length finished) (length calls)) (finished ++ pending calls) st
  = ((fast_catch_all sid calls st).1,
     finished ++ (Race.Returned <$> (fast_catch_all sid calls st).2)).
Proof.
  revert finished st. induction calls as [| [i uid] calls IH]; intros finished st.
  { done. }
  cbn [length serial pending fmap list_fmap Race.run fst snd].
  rewrite list_lookup_middle by done.
  pose proof (race_two_steps sid i uid st) as Hsteps.
  destruct (Race.step_call sid (Race.Pending i uid) st) as [st1 c1].
  rewrite insert_middle, list_lookup_middle by done.
  rewrite Hsteps, insert_middle.
  cbn [fast_catch_all].
  destruct (FastSpawn.catch_spawn i sid uid st) as [st' r]. cbn [fst snd].
  specialize (IH (finished ++ [Race.Returned r]) st').
  rewrite length_app, Nat.add_1_r, <- !app_assoc in IH. cbn [app] in IH.
  unfold pending in IH. rewrite IH.
  destruct (fast_catch_all sid calls st') as [st'' rs]. cbn [fst snd].
  done.
Qed.

(** C1, counterexample: two overlapping calls on the sample spawn, both
    SELECTs before either transaction commits.  Both calls return [True]
    and two rows are inserted in [pokemon] for the one spawn.  And when
    two calls that do not overlap both fail their roll, neither returns
    [True]: both are told that the spawn escaped. *)
Lemma capture_race_two_winners :
  let a := Ex.fast_call (minutes 1) 0.5 1 in
  let b := Ex.fast_call (minutes 1) 0.5 2 in
  let out := Race.run "spawn_0_1234" [0; 1; 0; 1]%nat
               [Race.Pending a 101; Race.Pending b 202] Ex.fresh in
  let miss := Ex.fast_call (minutes 1) 0.01 1 in
  let missed := fast_catch_all "spawn_0_1234" [(miss, 101); (miss, 202)] Ex.fresh in
  Race.captured <$> out.2 = [true; true] ∧
  size (pokemon (FastSpawn.db Ex.fresh)) = 0%nat ∧
  size (pokemon (FastSpawn.db out.1)) = 2%nat ∧
  missed.2 = [(false, "pikachu escaped! Try again!");
              (false, "pikachu escaped! Try again!")].
Proof. vm_compute. done. Qed.

(** C1, as amended: when the calls on one spawn id do not overlap (each
    call takes both its steps before the next call starts), at most one of
    them returns [True], whatever the rolls, clocks and store faults; every
    other call returns [False]; and the number of rows added to [pokemon]
    is the number of calls that returned [True], in both services.  Exactly
    one call returns [True] when the spawn is uncaught and one of the calls
    has all it takes (clock before the expiry, successful roll, new pokemon
    id, no statement that raises).  No call returns [True], and the tables
    are as they were, when every call finds the spawn missing, caught or
    expired, or fails its roll, or meets a statement that raises. *)
Theorem serial_catches_at_most_one_winner
    (sid : string) (fcalls : list (FastSpawn.CatchIn * Z)) (st : FastSpawn.State)
    (scalls : list (SpawnSvc.CatchIn * Z)) (d : DB) :
  let fast := fast_catch_all sid fcalls st in
  let svc := svc_catch_all sid scalls d in
  Race.run sid (serial 0 (length fcalls)) (pending fcalls) st
    = (fast.1, Race.Returned <$> fast.2) ∧
  (wins fast.2 ≤ 1)%nat ∧
  size (pokemon (FastSpawn.db fast.1))
    = (size (pokemon (FastSpawn.db st)) + wins fast.2)%nat ∧
  (wins svc.2 ≤ 1)%nat ∧
  size (pokemon svc.1) = (size (pokemon d) + wins svc.2)%nat ∧
  (∀ s, spawns (FastSpawn.db st) !! sid = Some s → is_caught s = false →
        (∃ c, c ∈ fcalls ∧ fast_hits (FastSpawn.db st) s c) →
        wins fast.2 = 1%nat) ∧
  (∀ s, spawns d !! sid = Some s → is_caught s = false →
        (∃ c, c ∈ scalls ∧ svc_hits d s c) →
        wins svc.2 = 1%nat) ∧
  ((∀ c s, c ∈ fcalls → spawns (FastSpawn.db st) !! sid = Some s → fast_misses s c) →
   wins fast.2 = 0%nat ∧ FastSpawn.db fast.1 = FastSpawn.db st) ∧
  ((∀ c s, c ∈ scalls → spawns d !! sid = Some s → svc_misses s c) →
   wins svc.2 = 0%nat ∧ svc.1 = d).
Proof.
  cbv zeta. split; [apply (race_serial_from sid [] fcalls st) |].
  destruct (fast_catch_all_wins sid fcalls st).
  destruct (svc_catch_all_wins sid scalls d).
  split_and!; try done.
  - intros s. apply fast_catch_all_hit.
  - intros s. apply svc_catch_all_hit.
  - apply fast_catch_all_miss.
  - apply svc_catch_all_miss.
Qed.

Lemma serial_catches_at_most_one_winner_witness :
  let miss := Ex.fast_call (minutes 1) 0.01 1 in
  let hit := Ex.fast_call (minutes 1) 0.5 2 in
  let svc_miss := Ex.svc_call (minutes 1) 0.99 1 in
  let svc_hit := Ex.svc_call (minutes 1) 0.5 2 in
  fast_hits Ex.store Ex.pikachu (hit, 202) ∧
  wins (fast_catch_all "spawn_0_1234" [(miss, 101); (hit, 202); (hit, 303)] Ex.fresh).2
  = 1%nat ∧
  svc_hits Ex.store Ex.pikachu (svc_hit, 202) ∧
  wins (svc_catch_all "spawn_0_1234" [(svc_miss, 101); (svc_hit, 202); (svc_hit, 303)]
          Ex.store).2
  = 1%nat ∧
  wins (fast_catch_all "spawn_0_1234" [(miss, 101); (miss, 202)] Ex.fresh).2 = 0%nat ∧
  wins (svc_catch_all "spawn_0_1234" [(svc_miss, 101); (svc_miss, 202)] Ex.store).2
  = 0%nat.
Proof.
  cbv zeta.
  set (miss := Ex.fast_call (minutes 1) 0.01 1).
  set (hit := Ex.fast_call (minutes 1) 0.5 2).
  set (svc_miss := Ex.svc_call (minutes 1) 0.99 1).
  set (svc_hit := Ex.svc_call (minutes 1) 0.5 2).
  assert (fast_hits Ex.store Ex.pikachu (hit, 202)) as Hfast.
  { repeat split; vm_compute; congruence. }
  assert (svc_hits Ex.store Ex.pikachu (svc_hit, 202)) as Hsvc.
  { repeat split; vm_compute; congruence. }
  destruct (serial_catches_at_most_one_winner "spawn_0_1234"
              [(miss, 101); (hit, 202); (hit, 303)] Ex.fresh
              [(svc_miss, 101); (svc_hit, 202); (svc_hit, 303)] Ex.store)
    as (_ & _ & _ & _ & _ & Hone & Hone' & _).
  destruct (serial_catches_at_most_one_winner "spawn_0_1234"
              [(miss, 101); (miss, 202)] Ex.fresh
              [(svc_miss, 101); (svc_miss, 202)] Ex.store)
    as (_ & _ & _ & _ & _ & _ & _ & Hnone & Hnone').
  split; [exact Hfast |].
  split.
  { apply (Hone Ex.pikachu); [reflexivity | reflexivity |].
    exists (hit, 202). split; [| exact Hfast]. apply elem_of_cons. right.
    apply elem_of_cons. by left. }
  split; [exact Hsvc |].
  split.
  { apply (Hone' Ex.pikachu); [reflexivity | reflexivity |].
    exists (svc_hit, 202). split; [| exact Hsvc]. apply elem_of_cons. right.
    apply elem_of_cons. by left. }
  split.
  - apply Hnone. intros c s Hc _.
    assert (c.1 = miss) as Hmiss.
    { apply elem_of_cons in Hc as [-> | Hc]; [done |].
      apply elem_of_cons in Hc as [-> | Hc]; [done |]. by apply not_elem_of_nil in Hc. }
    right. right. left. rewrite Hmiss. vm_compute. congruence.
  - apply Hnone'. intros c s Hc Hs.
    assert (c.1 = svc_miss) as Hmiss.
    { apply elem_of_cons in Hc as [-> | Hc]; [done |].
      apply elem_of_cons in Hc as [-> | Hc]; [done |]. by apply not_elem_of_nil in Hc. }
    assert (s = Ex.pikachu) as ->.
    { unfold Ex.store in Hs. cbn [spawns] in Hs.
      apply lookup_singleton_Some in Hs as [_ <-]. done. }
    right. right. left. rewrite Hmiss. vm_compute. reflexivity.
Defined.

(** ** Expired and resolved spawns *)

(** C2: a call of [catch_spawn] on a spawn whose [expires_at] is before
    the time the call reads returns [False] and writes nothing (store and
    cache are as before), whatever the roll and the store faults, whether
    the expired row is still in the table or has been deleted; in both
    services. *)
Theorem expired_spawn_is_never_caught
    (d : DB) (cache : gmap Z FastSpawn.SpawnData) (sid : string) (uid : Z)
    (now : datetime) (fi : FastSpawn.CatchIn) (si : SpawnSvc.CatchIn) :
  (∀ s, spawns d !! sid = Some s → expires_at s < now) →
  FastSpawn.k_now fi = now →
  SpawnSvc.k_utcnow_check si = now →
  (∃ msg, FastSpawn.catch_spawn fi sid uid (FastSpawn.mkState d cache)
          = (FastSpawn.mkState d cache, (false, msg))) ∧
  (∃ msg, SpawnSvc.catch_spawn si sid uid d = (d, (false, msg))).
Proof.
  intros Hexp Hf Hs. split.
  - destruct ((FastSpawn.catch_spawn fi sid uid (FastSpawn.mkState d cache)).2.1) eqn:Hr.
    + apply fast_catch_success in Hr as (s & Hlk & _ & Hnow & _).
      specialize (Hexp s Hlk). simpl in *. lia.
    + assert ((FastSpawn.catch_spawn fi sid uid (FastSpawn.mkState d cache)).1
              = FastSpawn.mkState d cache) as Hst.
      { destruct (fast_catch_failure_cases _ _ _ _ Hr)
          as [? | (_ & s & Hlk & _ & Hnow & _)]; [done |].
        specialize (Hexp s Hlk). simpl in *. lia. }
      destruct (FastSpawn.catch_spawn _ _ _ _) as [st' [b msg]]. simpl in *.
      subst. by exists msg.
  - destruct ((SpawnSvc.catch_spawn si sid uid d).2.1) eqn:Hr.
    + apply svc_catch_success in Hr as (s & Hlk & _ & Hnow & _).
      specialize (Hexp s Hlk). lia.
    + pose proof (svc_catch_failure_unchanged _ _ _ _ Hr) as Hd.
      destruct (SpawnSvc.catch_spawn _ _ _ _) as [d' [b msg]]. simpl in *.
      subst. by exists msg.
Qed.

Lemma expired_spawn_is_never_caught_witness :
  (∀ s, spawns Ex.store !! "spawn_0_1234" = Some s → expires_at s < minutes 11) ∧
  (∃ msg, FastSpawn.catch_spawn (Ex.fast_call (minutes 11) 0.5 1) "spawn_0_1234" 101
            (FastSpawn.mkState Ex.store ∅)
          = (FastSpawn.mkState Ex.store ∅, (false, msg))) ∧
  (∃ msg, SpawnSvc.catch_spawn (Ex.svc_call (minutes 11) 0.5 1) "spawn_0_1234" 101
            Ex.store
          = (Ex.store, (false, msg))).
Proof.
  assert (∀ s, spawns Ex.store !! "spawn_0_1234" = Some s → expires_at s < minutes 11)
    as Hexp.
  { intros s Hs. vm_compute in Hs. injection Hs as <-. reflexivity. }
  split; [exact Hexp |].
  apply (expired_spawn_is_never_caught Ex.store ∅ "spawn_0_1234" 101 (minutes 11)
           (Ex.fast_call (minutes 11) 0.5 1) (Ex.svc_call (minutes 11) 0.5 1));
    [exact Hexp | reflexivity | reflexivity].
Defined.

(** C7, counterexample: the sample spawn, caught by user 101 after one
    minute, is tried again by user 202 after eleven minutes.
    [RawSQLSpawnService.catch_spawn] does not answer that it is already
    caught: its SELECT filters on [expires_at > NOW()] and the call answers
    that the spawn has disappeared. *)
Lemma caught_and_expired_reports_disappeared :
  let st := FastSpawn.mkState Ex.store_caught ∅ in
  let out := FastSpawn.catch_spawn (Ex.fast_call (minutes 11) 0.5 1)
               "spawn_0_1234" 202 st in
  spawns Ex.store_caught !! "spawn_0_1234" = Some Ex.caught_pikachu ∧
  is_caught Ex.caught_pikachu = true ∧
  out.2 = (false, "This Pokémon has disappeared!") ∧
  out.2 ≠ (false, "Already caught by someone else!").
Proof. vm_compute. repeat split; done. Qed.

(** C7, as amended: a call of [catch_spawn] on a spawn whose [is_caught]
    is true returns [False] and leaves the spawn row, the [pokemon] and
    [users] tables and the cache as they were.  Unless the SELECT itself
    raises, [SpawnService] answers that the spawn has already been caught;
    [RawSQLSpawnService] answers so when the spawn has not expired and
    answers that it has disappeared when it has. *)
Theorem caught_spawn_is_left_unchanged
    (d : DB) (cache : gmap Z FastSpawn.SpawnData) (sid : string) (uid : Z)
    (s : Spawn) (fi : FastSpawn.CatchIn) (si : SpawnSvc.CatchIn) :
  spawns d !! sid = Some s →
  is_caught s = true →
  FastSpawn.catch_spawn fi sid uid (FastSpawn.mkState d cache)
  = (FastSpawn.mkState d cache,
     (false,
      if decide (FastSpawn.k_fault fi = Some 0%nat) then "Catch failed!"
      else if FastSpawn.k_now fi <? expires_at s
           then "Already caught by someone else!"
           else "This Pokémon has disappeared!")) ∧
  SpawnSvc.catch_spawn si sid uid d
  = (d,
     (false,
      if decide (SpawnSvc.k_fault si = Some 0%nat)
      then "An error occurred while catching"
      else "This Pokémon has already been caught!")).
Proof.
  intros Hs Hc. split.
  - unfold FastSpawn.catch_spawn, FastSpawn.catch_spawn_body.
    stmt_split; exn_simpl.
    + by rewrite decide_True.
    + rewrite decide_False by done.
      unfold FastSpawn.catch_resolve, FastSpawn.select_unexpired. cbn [FastSpawn.db].
      rewrite Hs. destruct (_ <? _); [by rewrite Hc | done].
  - unfold SpawnSvc.catch_spawn, SpawnSvc.catch_spawn_body.
    stmt_split; exn_simpl.
    + by rewrite decide_True.
    + rewrite decide_False by done.
      unfold SpawnSvc.catch_resolve. by rewrite Hs, Hc.
Qed.

Lemma caught_spawn_is_left_unchanged_witness :
  spawns Ex.store_caught !! "spawn_0_1234" = Some Ex.caught_pikachu ∧
  is_caught Ex.caught_pikachu = true ∧
  FastSpawn.catch_spawn (Ex.fast_call (minutes 2) 0.5 1) "spawn_0_1234" 202
    (FastSpawn.mkState Ex.store_caught ∅)
  = (FastSpawn.mkState Ex.store_caught ∅, (false, "Already caught by someone else!")) ∧
  SpawnSvc.catch_spawn (Ex.svc_call (minutes 2) 0.5 1) "spawn_0_1234" 202 Ex.store_caught
  = (Ex.store_caught, (false, "This Pokémon has already been caught!")).
Proof.
  split; [reflexivity |]. split; [reflexivity |].
  apply (caught_spawn_is_left_unchanged Ex.store_caught ∅ "spawn_0_1234" 202
           Ex.caught_pikachu (Ex.fast_call (minutes 2) 0.5 1)
           (Ex.svc_call (minutes 2) 0.5 1)); reflexivity.
Defined.

(** ** A roll that fails *)

(** C3, counterexample: on the sample spawn a first call whose roll fails
    is followed by a second call whose roll succeeds; the second call
    returns [True], in both services. *)
Lemma missed_spawn_is_caught_by_next_call :
  let miss := FastSpawn.catch_spawn (Ex.fast_call (minutes 1) 0.01 1)
                "spawn_0_1234" 101 Ex.fresh in
  let next := FastSpawn.catch_spawn (Ex.fast_call (minutes 2) 0.5 2)
                "spawn_0_1234" 202 miss.1 in
  let miss' := SpawnSvc.catch_spawn (Ex.svc_call (minutes 1) 0.99 1)
                 "spawn_0_1234" 101 Ex.store in
  let next' := SpawnSvc.catch_spawn (Ex.svc_call (minutes 2) 0.5 1)
                 "spawn_0_1234" 202 miss'.1 in
  miss.2 = (false, "pikachu escaped! Try again!") ∧
  next.2 = (true, "Caught pikachu! (+50 EXP (+25 coins))") ∧
  miss'.2 = (false, "The Pokémon broke free!") ∧
  next'.2 = (true, "poke_120bbbbbbbb").
Proof. vm_compute. repeat split; done. Qed.

(** C3, as amended: on an active, unexpired spawn a call of [catch_spawn]
    that passes the checks and whose roll fails returns the escape message
    and leaves store and cache as they were, the spawn still uncaught; a
    later call on the same spawn id, made before the spawn expires, whose
    roll succeeds (its pokemon id being new and the store not failing)
    returns [True].  In both services. *)
Theorem missed_roll_leaves_spawn_open
    (d : DB) (cache : gmap Z FastSpawn.SpawnData) (sid : string) (s : Spawn)
    (uid1 uid2 : Z) (f1 f2 : FastSpawn.CatchIn) (s1 s2 : SpawnSvc.CatchIn) :
  spawns d !! sid = Some s →
  is_caught s = false →
  (FastSpawn.k_fault f1 = None →
   FastSpawn.k_now f1 < expires_at s →
   (FastSpawn.k_roll f1 <= 0.02)%Q →
   FastSpawn.catch_spawn f1 sid uid1 (FastSpawn.mkState d cache)
   = (FastSpawn.mkState d cache, (false, species s +:+ " escaped! Try again!")) ∧
   (FastSpawn.k_fault f2 = None →
    FastSpawn.k_now f2 < expires_at s →
    (0.02 < FastSpawn.k_roll f2)%Q →
    pokemon d !! pokemon_id (FastSpawn.new_pokemon f2 uid2 s) = None →
    (FastSpawn.catch_spawn f2 sid uid2
       (FastSpawn.catch_spawn f1 sid uid1 (FastSpawn.mkState d cache)).1).2
    = (true, FastSpawn.caught_message s))) ∧
  (SpawnSvc.k_fault s1 = None →
   SpawnSvc.k_utcnow_check s1 ≤ expires_at s →
   (SpawnSvc.catch_rate (rarity s) < SpawnSvc.k_roll s1)%Q →
   SpawnSvc.catch_spawn s1 sid uid1 d = (d, (false, "The Pokémon broke free!")) ∧
   (SpawnSvc.k_fault s2 = None →
    SpawnSvc.k_utcnow_check s2 ≤ expires_at s →
    (SpawnSvc.k_roll s2 <= SpawnSvc.catch_rate (rarity s))%Q →
    pokemon d !! SpawnSvc.generate_id "poke_" (SpawnSvc.k_utcnow_id s2)
                   (SpawnSvc.k_id_seeds s2) = None →
    (SpawnSvc.catch_spawn s2 sid uid2 (SpawnSvc.catch_spawn s1 sid uid1 d).1).2
    = (true, SpawnSvc.generate_id "poke_" (SpawnSvc.k_utcnow_id s2)
               (SpawnSvc.k_id_seeds s2)))).
Proof.
  intros Hs Hc. split.
  - intros Hf Hexp Hroll.
    assert (FastSpawn.catch_spawn f1 sid uid1 (FastSpawn.mkState d cache)
            = (FastSpawn.mkState d cache, (false, species s +:+ " escaped! Try again!")))
      as Hmiss.
    { unfold FastSpawn.catch_spawn, FastSpawn.catch_spawn_body.
      rewrite Hf, stmt_no_fault. exn_simpl.
      unfold FastSpawn.catch_resolve, FastSpawn.select_unexpired. cbn [FastSpawn.db].
      rewrite Hs. apply Z.ltb_lt in Hexp. rewrite Hexp, Hc.
      apply Qltb_ge in Hroll. by rewrite Hroll. }
    split; [exact Hmiss |].
    intros Hf2 Hexp2 Hroll2 Hfresh. rewrite Hmiss. cbn [fst].
    by apply (fast_catch_hit d cache sid uid2 s f2).
  - intros Hf Hexp Hroll.
    assert (SpawnSvc.catch_spawn s1 sid uid1 d = (d, (false, "The Pokémon broke free!")))
      as Hmiss.
    { unfold SpawnSvc.catch_spawn, SpawnSvc.catch_spawn_body.
      rewrite Hf, stmt_no_fault. exn_simpl.
      unfold SpawnSvc.catch_resolve.
      rewrite Hs, Hc. apply Z.ltb_ge in Hexp. rewrite Hexp.
      apply Qltb_lt in Hroll. by rewrite Hroll. }
    split; [exact Hmiss |].
    intros Hf2 Hexp2 Hroll2 Hfresh. rewrite Hmiss. cbn [fst].
    by apply (svc_catch_hit d sid uid2 s s2).
Qed.

Lemma missed_roll_leaves_spawn_open_witness :
  spawns Ex.store !! "spawn_0_1234" = Some Ex.pikachu ∧
  is_caught Ex.pikachu = false ∧
  FastSpawn.catch_spawn (Ex.fast_call (minutes 1) 0.01 1) "spawn_0_1234" 101 Ex.fresh
  = (Ex.fresh, (false, "pikachu escaped! Try again!")) ∧
  (FastSpawn.catch_spawn (Ex.fast_call (minutes 2) 0.5 2) "spawn_0_1234" 202
     (FastSpawn.catch_spawn (Ex.fast_call (minutes 1) 0.01 1) "spawn_0_1234" 101
        Ex.fresh).1).2
  = (true, "Caught pikachu! (+50 EXP (+25 coins))") ∧
  SpawnSvc.catch_spawn (Ex.svc_call (minutes 1) 0.99 1) "spawn_0_1234" 101 Ex.store
  = (Ex.store, (false, "The Pokémon broke free!")) ∧
  (SpawnSvc.catch_spawn (Ex.svc_call (minutes 2) 0.5 1) "spawn_0_1234" 202
     (SpawnSvc.catch_spawn (Ex.svc_call (minutes 1) 0.99 1) "spawn_0_1234" 101
        Ex.store).1).2
  = (true, "poke_120bbbbbbbb").
Proof.
  destruct (missed_roll_leaves_spawn_open Ex.store ∅ "spawn_0_1234" Ex.pikachu
              101 202 (Ex.fast_call (minutes 1) 0.01 1) (Ex.fast_call (minutes 2) 0.5 2)
              (Ex.svc_call (minutes 1) 0.99 1) (Ex.svc_call (minutes 2) 0.5 1)
              eq_refl eq_refl) as [Hfast Hsvc].
  destruct Hfast as [Hmiss Hnext];
    [reflexivity | reflexivity | vm_compute; discriminate |].
  destruct Hsvc as [Hmiss' Hnext'];
    [reflexivity | vm_compute; discriminate | reflexivity |].
  split; [reflexivity |]. split; [reflexivity |].
  split; [exact Hmiss |].
  split; [apply Hnext; reflexivity |].
  split; [exact Hmiss' |].
  apply Hnext'; [reflexivity | vm_compute; discriminate | vm_compute; discriminate
                | reflexivity].
Defined.

(** ** [create_spawn] *)

Lemma select_active_head_Some (chat : Z) (now : datetime) (d : DB) (k : string)
    (s : Spawn) :
  spawns d !! k = Some s → chat_id s = chat → is_caught s = false →
  now < expires_at s →
  is_Some (head (select_spawns (active_in chat now) d)).
Proof.
  intros Hk Hchat Hc Hexp.
  apply select_spawns_head_Some with (k := k) (s := s); [done |].
  by apply active_in_spec.
Qed.

Lemma select_active_head_None (chat : Z) (now : datetime) (d : DB) :
  (∀ k s, spawns d !! k = Some s → chat_id s = chat → is_caught s = false →
          expires_at s ≤ now) →
  head (select_spawns (active_in chat now) d) = None.
Proof.
  intros Hall. apply select_spawns_head_None. intros k s Hk.
  destruct (active_in chat now s) eqn:Ha; [| done].
  apply active_in_spec in Ha as (Hchat & Hc & Hexp).
  specialize (Hall k s Hk Hchat Hc). lia.
Qed.

Lemma fast_new_spawn_ok (i : FastSpawn.CreateIn) (chat : Z) :
  ∃ s, FastSpawn.new_spawn i chat = Ok s ∧
       chat_id s = chat ∧ is_caught s = false ∧
       spawned_at s = FastSpawn.c_now_insert i ∧
       expires_at s = FastSpawn.c_utcnow_expires i + minutes 10.
Proof.
  unfold FastSpawn.new_spawn, FastSpawn.choice_exn.
  destruct (choice_nonempty FastSpawn._pokemon_names (FastSpawn.c_name_seed i))
    as [name ->]; [done |]. exn_simpl.
  destruct (Qltb _ _); exn_simpl; [eauto 10 |].
  destruct (choice_nonempty ["common"; "uncommon"; "rare"] (FastSpawn.c_rarity_seed i))
    as [r ->]; [done |]. exn_simpl. eauto 10.
Qed.

Lemma fast_create_when_active (i : FastSpawn.CreateIn) (chat : Z)
    (st : FastSpawn.State) (k : string) (s : Spawn) :
  spawns (FastSpawn.db st) !! k = Some s → chat_id s = chat →
  is_caught s = false → FastSpawn.c_now_select i < expires_at s →
  FastSpawn.create_spawn i chat st = (st, false).
Proof.
  intros Hk Hchat Hc Hexp.
  unfold FastSpawn.create_spawn, FastSpawn.create_spawn_body, FastSpawn.create_check,
    FastSpawn.create_finish.
  stmt_split; exn_simpl; [done |].
  unfold FastSpawn.select_existing.
  destruct (select_active_head_Some chat (FastSpawn.c_now_select i) (FastSpawn.db st)
              k s Hk Hchat Hc Hexp) as [r ->].
  done.
Qed.

Lemma fast_create_when_free (i : FastSpawn.CreateIn) (chat : Z)
    (st : FastSpawn.State) (s : Spawn) :
  (∀ k s, spawns (FastSpawn.db st) !! k = Some s → chat_id s = chat →
          is_caught s = false → expires_at s ≤ FastSpawn.c_now_select i) →
  FastSpawn.c_fault i = None →
  FastSpawn.new_spawn i chat = Ok s →
  spawns (FastSpawn.db st) !! spawn_id s = None →
  FastSpawn.create_spawn i chat st
  = (FastSpawn.mkState
       (mkDB (<[spawn_id s := s]> (spawns (FastSpawn.db st)))
             (pokemon (FastSpawn.db st)) (users (FastSpawn.db st)))
       (<[chat := FastSpawn.cache_entry_of_new s]> (FastSpawn._spawn_cache st)),
     true).
Proof.
  intros Hfree Hf Hnew Hfresh.
  unfold FastSpawn.create_spawn, FastSpawn.create_spawn_body, FastSpawn.create_check,
    FastSpawn.create_finish.
  rewrite Hf, stmt_no_fault. exn_simpl.
  unfold FastSpawn.select_existing.
  rewrite (select_active_head_None _ _ _ Hfree). cbn [fmap option_fmap option_map from_option].
  rewrite Hnew. exn_simpl. rewrite stmt_no_fault.
  unfold insert_spawn. rewrite Hfresh. done.
Qed.

Lemma svc_clear_cache_db (i : SpawnSvc.CreateIn) (st : SpawnSvc.State) :
  SpawnSvc.db (SpawnSvc._clear_cache_if_needed i st) = SpawnSvc.db st.
Proof. unfold SpawnSvc._clear_cache_if_needed. by case_match. Qed.

Lemma svc_lookup_db catalog (n : nat) (species_id : Z) (st : SpawnSvc.State) :
  SpawnSvc.db (SpawnSvc._get_cached_pokemon_data catalog n species_id st).1
  = SpawnSvc.db st.
Proof.
  unfold SpawnSvc._get_cached_pokemon_data.
  destruct (SpawnSvc._pokemon_cache st !! species_id); [done |].
  destruct (catalog n species_id); [| done].
  by destruct (SpawnSvc.has_data _).
Qed.

Lemma has_data_named (data : SpawnSvc.PokemonData) (n : string) :
  data !! "name" = Some n → SpawnSvc.has_data (Some data) = true.
Proof.
  intros Hn. unfold SpawnSvc.has_data. rewrite negb_true_iff, bool_decide_eq_false.
  intros ->. by rewrite lookup_empty in Hn.
Qed.

(** What [persist_spawn] can do: raise and leave the store as it was, or
    insert the spawn it returns, named after the catalog record. *)
Lemma svc_persist_cases (i : SpawnSvc.CreateIn) (chat lvl : Z) (shiny : bool)
    (rar : string) (sp_id : Z) (pokemon_data : option SpawnSvc.PokemonData)
    (st : SpawnSvc.State) :
  let out := SpawnSvc.persist_spawn i chat lvl shiny rar sp_id pokemon_data st in
  (out = (st, Raise)) ∨
  (∃ spawn,
     out.2 = Ok (Some spawn) ∧
     SpawnSvc.db out.1
       = mkDB (<[spawn_id spawn := spawn]> (spawns (SpawnSvc.db st)))
              (pokemon (SpawnSvc.db st)) (users (SpawnSvc.db st)) ∧
     spawns (SpawnSvc.db st) !! spawn_id spawn = None ∧
     pokemon_data ≫= (λ d, d !! "name") = Some (species spawn) ∧
     species_id spawn = sp_id ∧
     chat_id spawn = chat ∧ is_caught spawn = false ∧
     spawned_at spawn = SpawnSvc.c_utcnow i ∧
     expires_at spawn = SpawnSvc.c_utcnow i + minutes 8).
Proof.
  unfold SpawnSvc.persist_spawn, SpawnSvc.name_of.
  destruct (pokemon_data ≫= _) as [n |] eqn:Hn; [| by left].
  stmt_split; [by left |].
  unfold insert_spawn. cbn [spawn_id].
  destruct (spawns (SpawnSvc.db st) !! _) eqn:Hfresh; [by left |].
  right. eexists. cbn. repeat split; done.
Qed.

(** What [SpawnService.create_spawn] can do: return [None] and leave the
    store as it was, or insert the spawn it returns; that spawn carries the
    name the catalog gave for its species id, which is the id first drawn
    or, when the catalog had no data for it, the fallback id. *)
Lemma svc_create_cases catalog (i : SpawnSvc.CreateIn) (chat : Z)
    (st : SpawnSvc.State) :
  let st0 := SpawnSvc._clear_cache_if_needed i st in
  let id0 := randint 1 1010 (SpawnSvc.c_species_seed i) in
  let id1 := randint 1 151 (SpawnSvc.c_fallback_seed i) in
  let first := SpawnSvc._get_cached_pokemon_data catalog 0 id0 st0 in
  let second := SpawnSvc._get_cached_pokemon_data catalog 1 id1 first.1 in
  let out := SpawnSvc.create_spawn catalog i chat st in
  (out.2 = None ∧ SpawnSvc.db out.1 = SpawnSvc.db st) ∨
  (∃ spawn,
     out.2 = Some spawn ∧
     SpawnSvc.db out.1
       = mkDB (<[spawn_id spawn := spawn]> (spawns (SpawnSvc.db st)))
              (pokemon (SpawnSvc.db st)) (users (SpawnSvc.db st)) ∧
     spawns (SpawnSvc.db st) !! spawn_id spawn = None ∧
     chat_id spawn = chat ∧ is_caught spawn = false ∧
     spawned_at spawn = SpawnSvc.c_utcnow i ∧
     expires_at spawn = SpawnSvc.c_utcnow i + minutes 8 ∧
     ((SpawnSvc.has_data first.2 = true ∧ species_id spawn = id0 ∧
       first.2 ≫= (λ d, d !! "name") = Some (species spawn)) ∨
      (SpawnSvc.has_data first.2 = false ∧ SpawnSvc.has_data second.2 = true ∧
       species_id spawn = id1 ∧
       second.2 ≫= (λ d, d !! "name") = Some (species spawn)))).
Proof.
  cbv zeta. unfold SpawnSvc.create_spawn, SpawnSvc.create_spawn_body, SpawnSvc.create_check,
    SpawnSvc.create_finish.
  pose proof (svc_clear_cache_db i st) as Hdb0.
  stmt_split; [left; done |].
  destruct (from_option truthy_int false _); [left; done |].
  pose proof (svc_lookup_db catalog 0 (randint 1 1010 (SpawnSvc.c_species_seed i))
                (SpawnSvc._clear_cache_if_needed i st)) as Hdb1.
  destruct (SpawnSvc._get_cached_pokemon_data catalog 0 _ _) as [st1 data1].
  cbn [fst snd] in *.
  destruct (SpawnSvc.has_data data1) eqn:Hd1.
  - match goal with
    | |- context [SpawnSvc.persist_spawn ?a ?b ?c ?d ?e ?f ?g ?h] =>
        destruct (svc_persist_cases a b c d e f g h) as [Hraise | Hp]
    end.
    + left. cbv zeta in Hraise. rewrite Hraise. cbn. split; [done | congruence].
    + destruct Hp as (spawn & Hout & Hdb & Hfresh & Hname & Hid & Hrest).
      destruct (SpawnSvc.persist_spawn _ _ _ _ _ _ _ _) as [st' r].
      cbn [fst snd] in *. subst r. right. exists spawn. cbn [fst snd].
      rewrite Hdb, Hdb1, Hdb0. rewrite Hdb1, Hdb0 in Hfresh.
      repeat split; tauto.
  - pose proof (svc_lookup_db catalog 1 (randint 1 151 (SpawnSvc.c_fallback_seed i))
                  st1) as Hdb2.
    destruct (SpawnSvc._get_cached_pokemon_data catalog 1 _ _) as [st2 data2].
    cbn [fst snd] in *.
    destruct (SpawnSvc.has_data data2) eqn:Hd2;
      [| left; cbn [fst snd]; split; [done | congruence]].
    match goal with
    | |- context [SpawnSvc.persist_spawn ?a ?b ?c ?d ?e ?f ?g ?h] =>
        destruct (svc_persist_cases a b c d e f g h) as [Hraise | Hp]
    end.
    + left. cbv zeta in Hraise. rewrite Hraise. cbn. split; [done | congruence].
    + destruct Hp as (spawn & Hout & Hdb & Hfresh & Hname & Hid & Hrest).
      destruct (SpawnSvc.persist_spawn _ _ _ _ _ _ _ _) as [st' r].
      cbn [fst snd] in *. subst r. right. exists spawn. cbn [fst snd].
      rewrite Hdb, Hdb2, Hdb1, Hdb0. rewrite Hdb2, Hdb1, Hdb0 in Hfresh.
      repeat split; tauto.
Qed.

Lemma not_has_active (chat : Z) (now : datetime) (d : DB) :
  ¬ has_active chat now d →
  ∀ k s, spawns d !! k = Some s → chat_id s = chat → is_caught s = false →
         expires_at s ≤ now.
Proof.
  intros Hno k s Hk Hchat Hc.
  destruct (decide (now < expires_at s)) as [Hlt |]; [| lia].
  exfalso. apply Hno. exists k, s. done.
Qed.

Lemma svc_create_when_active catalog (i : SpawnSvc.CreateIn) (chat : Z)
    (st : SpawnSvc.State) :
  has_active chat (SpawnSvc.c_utcnow_select i) (SpawnSvc.db st) →
  SpawnSvc.create_spawn catalog i chat st
  = (SpawnSvc._clear_cache_if_needed i st, None).
Proof.
  intros (k & s & Hk & Hchat & Hc & Hexp).
  unfold SpawnSvc.create_spawn, SpawnSvc.create_spawn_body, SpawnSvc.create_check,
    SpawnSvc.create_finish.
  stmt_split; [done |].
  unfold SpawnSvc.select_one. rewrite svc_clear_cache_db.
  destruct (select_active_head_Some chat (SpawnSvc.c_utcnow_select i) (SpawnSvc.db st)
              k s Hk Hchat Hc Hexp) as [r ->].
  done.
Qed.

Lemma svc_create_when_free catalog (i : SpawnSvc.CreateIn) (chat : Z)
    (st : SpawnSvc.State) (data : SpawnSvc.PokemonData) (species_name : string) :
  let st0 := SpawnSvc._clear_cache_if_needed i st in
  let species_id := randint 1 1010 (SpawnSvc.c_species_seed i) in
  let is_shiny := Qltb (SpawnSvc.c_shiny_roll i) 0.002%Q in
  let spawn :=
    mkSpawn (SpawnSvc.c_row_id i)
      (SpawnSvc.generate_id "spawn_" (SpawnSvc.c_utcnow_id i) (SpawnSvc.c_id_seeds i))
      chat species_name species_id (randint 1 50 (SpawnSvc.c_level_seed i))
      is_shiny (if is_shiny then "rare" else "common")
      (SpawnSvc.c_utcnow i) (SpawnSvc.c_utcnow i + minutes 8) false None None in
  ¬ has_active chat (SpawnSvc.c_utcnow_select i) (SpawnSvc.db st) →
  SpawnSvc.c_fault i = None →
  (SpawnSvc._get_cached_pokemon_data catalog 0 species_id st0).2 = Some data →
  data !! "name" = Some species_name →
  spawns (SpawnSvc.db st) !! spawn_id spawn = None →
  (SpawnSvc.create_spawn catalog i chat st).2 = Some spawn ∧
  SpawnSvc.db (SpawnSvc.create_spawn catalog i chat st).1
  = mkDB (<[spawn_id spawn := spawn]> (spawns (SpawnSvc.db st)))
         (pokemon (SpawnSvc.db st)) (users (SpawnSvc.db st)).
Proof.
  cbv zeta. intros Hno Hf Hdata Hname Hfresh.
  unfold SpawnSvc.create_spawn, SpawnSvc.create_spawn_body, SpawnSvc.create_check,
    SpawnSvc.create_finish.
  rewrite Hf, stmt_no_fault.
  unfold SpawnSvc.select_one. rewrite svc_clear_cache_db.
  rewrite (select_active_head_None _ _ _ (not_has_active _ _ _ Hno)).
  cbn [fmap option_fmap option_map from_option].
  pose proof (svc_lookup_db catalog 0 (randint 1 1010 (SpawnSvc.c_species_seed i))
                (SpawnSvc._clear_cache_if_needed i st)) as Hdb1.
  rewrite svc_clear_cache_db in Hdb1.
  destruct (SpawnSvc._get_cached_pokemon_data catalog 0 _ _) as [st1 data1].
  cbn [fst snd] in *. subst data1.
  rewrite (has_data_named data species_name Hname).
  unfold SpawnSvc.persist_spawn, SpawnSvc.name_of. cbn [mbind option_bind].
  rewrite Hname, Hf, stmt_no_fault.
  unfold insert_spawn. cbn [spawn_id] in *. rewrite Hdb1, Hfresh. done.
Qed.

(** A store statement of [create_spawn] that raises makes it return
    [False]: the exception does not leave the service. *)
Lemma fast_create_store_fault (i : FastSpawn.CreateIn) (chat : Z)
    (st : FastSpawn.State) :
  FastSpawn.c_fault i = Some 0%nat ∨ FastSpawn.c_fault i = Some 1%nat →
  FastSpawn.create_spawn i chat st = (st, false).
Proof.
  unfold FastSpawn.create_spawn, FastSpawn.create_spawn_body, FastSpawn.create_check,
    FastSpawn.create_finish.
  intros [-> | ->].
  - by rewrite stmt_fault.
  - stmt_split; [done |]. exn_simpl.
    destruct (from_option _ _ _); [done |].
    destruct (FastSpawn.new_spawn i chat); exn_simpl; [| done].
    by rewrite stmt_fault.
Qed.

Lemma fast_new_spawn_payload (i : FastSpawn.CreateIn) (chat : Z) (s : Spawn) :
  FastSpawn.new_spawn i chat = Ok s →
  chat_id s = chat ∧
  species s ∈ FastSpawn._pokemon_names ∧
  1 ≤ species_id s ≤ 800 ∧
  1 ≤ level s ≤ 50 ∧
  (if is_shiny s then rarity s = "legendary"
   else rarity s ∈ ["common"; "uncommon"; "rare"]) ∧
  is_caught s = false ∧ caught_by s = None ∧ caught_at s = None ∧
  expires_at s = FastSpawn.c_utcnow_expires i + minutes 10.
Proof.
  unfold FastSpawn.new_spawn, FastSpawn.choice_exn.
  destruct (choice FastSpawn._pokemon_names _) as [name |] eqn:Hname; exn_simpl; [| done].
  apply choice_elem in Hname.
  pose proof (randint_range 1 800 (FastSpawn.c_species_seed i) ltac:(lia)).
  pose proof (randint_range 1 50 (FastSpawn.c_level_seed i) ltac:(lia)).
  destruct (Qltb _ _) eqn:Hshiny; exn_simpl.
  - intros [= <-]. cbn. done.
  - destruct (choice ["common"; "uncommon"; "rare"] _) as [r |] eqn:Hr; exn_simpl; [| done].
    apply choice_elem in Hr. intros [= <-]. cbn. done.
Qed.

(** The row [create_spawn] is about to insert. *)
Lemma fast_new_spawn_record (i : FastSpawn.CreateIn) (chat : Z) :
  ∃ name rarity,
    let shiny := Qltb (FastSpawn.c_shiny_roll i) 0.005%Q in
    choice FastSpawn._pokemon_names (FastSpawn.c_name_seed i) = Some name ∧
    (if shiny then rarity = "legendary"
     else choice ["common"; "uncommon"; "rare"] (FastSpawn.c_rarity_seed i)
          = Some rarity) ∧
    FastSpawn.new_spawn i chat
    = Ok (mkSpawn (FastSpawn.c_row_id i)
            ("spawn_" +:+ pretty (timestamp_int (FastSpawn.c_utcnow_id i)) +:+ "_"
             +:+ pretty (randint 1000 9999 (FastSpawn.c_id_seed i)))
            chat name (randint 1 800 (FastSpawn.c_species_seed i))
            (randint 1 50 (FastSpawn.c_level_seed i)) shiny rarity
            (FastSpawn.c_now_insert i)
            (FastSpawn.c_utcnow_expires i + minutes 10) false None None).
Proof.
  cbv zeta. unfold FastSpawn.new_spawn, FastSpawn.choice_exn.
  destruct (choice_nonempty FastSpawn._pokemon_names (FastSpawn.c_name_seed i))
    as [name Hname]; [done |]. rewrite Hname. exn_simpl.
  destruct (Qltb _ _); exn_simpl; [by exists name, "legendary" |].
  destruct (choice_nonempty ["common"; "uncommon"; "rare"] (FastSpawn.c_rarity_seed i))
    as [r Hr]; [done |]. rewrite Hr. exn_simpl. by exists name, r.
Qed.

(** An id that is already in the table makes the INSERT raise. *)
Lemma fast_create_collision (i : FastSpawn.CreateIn) (chat : Z) (st : FastSpawn.State)
    (s : Spawn) :
  FastSpawn.new_spawn i chat = Ok s →
  is_Some (spawns (FastSpawn.db st) !! spawn_id s) →
  FastSpawn.create_spawn i chat st = (st, false).
Proof.
  intros Hnew [old Hold].
  unfold FastSpawn.create_spawn, FastSpawn.create_spawn_body, FastSpawn.create_check,
    FastSpawn.create_finish.
  stmt_split; exn_simpl; [done |].
  destruct (from_option _ _ _); [done |].
  rewrite Hnew. exn_simpl. stmt_split; exn_simpl; [done |].
  unfold insert_spawn. by rewrite Hold.
Qed.

Lemma choices_total (population : list Ascii.ascii) (seeds : nat → Z) (k : nat) :
  population ≠ [] →
  length (SpawnSvc.choices population k seeds) = k ∧
  Forall (λ c, c ∈ population) (SpawnSvc.choices population k seeds).
Proof.
  intros Hpop. unfold SpawnSvc.choices.
  assert (∀ l : list nat,
            length (omap (λ j, choice population (seeds j)) l) = length l ∧
            Forall (λ c, c ∈ population) (omap (λ j, choice population (seeds j)) l))
    as Hdraws.
  { induction l as [| j l [IHlen IHall]]; [done |].
    cbn [omap list_omap]. destruct (choice_nonempty population (seeds j) Hpop) as [c Hc].
    rewrite Hc. cbn [length]. split; [by f_equal |].
    apply Forall_cons. split; [by apply choice_elem in Hc | done]. }
  destruct (Hdraws (seq 0 k)) as [Hlen Hall]. by rewrite length_seq in Hlen.
Qed.

Lemma string_of_list_ascii_length (l : list Ascii.ascii) :
  String.length (String.string_of_list_ascii l) = length l.
Proof. induction l as [| a l IH]; [done |]. cbn. by rewrite IH. Qed.

(** The parts of an id [generate_id] returns. *)
Lemma generate_id_parts (prefix : string) (utcnow : datetime) (seeds : nat → Z) :
  ∃ random_part,
    SpawnSvc.generate_id prefix utcnow seeds
    = prefix +:+ pretty (timestamp_int utcnow) +:+ random_part ∧
    String.length random_part = 8%nat ∧
    Forall (λ c, c ∈ SpawnSvc.id_alphabet) (String.list_ascii_of_string random_part).
Proof.
  destruct (choices_total SpawnSvc.id_alphabet seeds 8) as [Hlen Hall]; [done |].
  exists (String.string_of_list_ascii (SpawnSvc.choices SpawnSvc.id_alphabet 8 seeds)).
  split_and!.
  - unfold SpawnSvc.generate_id. by case_bool_decide as Hprefix; [rewrite Hprefix |].
  - by rewrite string_of_list_ascii_length.
  - by rewrite String.list_ascii_of_string_of_list_ascii.
Qed.

(** C4, counterexample.  First: chat 8 has no spawn at all, yet
    [RawSQLSpawnService.create_spawn] returns [False] and inserts nothing,
    because the id it builds from the second of the clock and a four-digit
    draw is the id of a row of another chat and the INSERT raises.  Second
    and third: two calls for one chat whose SELECTs both run before either
    INSERT both create a spawn, in either service, and the chat has two
    uncaught, unexpired spawns. *)
Lemma create_spawn_refuses_or_doubles :
  let i := FastSpawn.mkCreateIn None 0 0 0 0 0.5 0 0 234 0 0 2 in
  let a := FastSpawn.mkCreateIn None 0 0 0 0 0.5 0 0 0 0 0 2 in
  let b := FastSpawn.mkCreateIn None 0 1 1 1 0.5 1 0 1 0 0 3 in
  let fast := CreateRace.run CreateRace.step_call [0; 1; 0; 1]%nat
                [CreateRace.Pending a 7; CreateRace.Pending b 7] Ex.empty in
  let a' := SpawnSvc.mkCreateIn None 0 0 0 0 0 0.5 0 0 (fun _ => 0) 0 2 in
  let b' := SpawnSvc.mkCreateIn None 0 0 0 0 0 0.5 0 0 (fun _ => 1) 0 3 in
  let svc := CreateRace.run CreateRace.svc_step_call [0; 1; 0; 1]%nat
               [CreateRace.SvcPending Ex.bulbasaur_only a' 9;
                CreateRace.SvcPending Ex.bulbasaur_only b' 9]
               (SpawnSvc.mkState (mkDB ∅ ∅ ∅) ∅ 0) in
  select_spawns (fun s => chat_id s =? 8) Ex.store = [] ∧
  FastSpawn.create_spawn i 8 Ex.fresh = (Ex.fresh, false) ∧
  fast.2 = [CreateRace.Returned true; CreateRace.Returned true] ∧
  length (select_spawns (active_in 7 (minutes 1)) (FastSpawn.db fast.1)) = 2%nat ∧
  map (fun c => match c with CreateRace.SvcReturned (Some _) => true | _ => false end)
      svc.2 = [true; true] ∧
  length (select_spawns (active_in 9 (minutes 1)) (SpawnSvc.db svc.1)) = 2%nat.
Proof. vm_compute. repeat split; done. Qed.

(** C4, as amended: in both services, when the chat has a spawn with
    [is_caught] false and [expires_at] after the time of the call,
    [create_spawn] returns [False] (resp. [None]) and the store is as
    before.  When it has none, a call run with no other call in between
    creates a spawn if the store does not fail and the spawn id it builds is
    not the id of a row of the table (and, for [SpawnService], the catalog
    gives a named record for the species drawn): it returns [True] (resp.
    the spawn) and has inserted exactly the row told here, a spawn of the
    chat, not caught, whose [expires_at] is the time read at the creation
    plus the window, ten minutes in [RawSQLSpawnService], eight in
    [SpawnService].  When a statement raises or the id is taken,
    [RawSQLSpawnService.create_spawn] returns [False] and inserts nothing
    although the chat has no active spawn. *)
Theorem create_spawn_suppresses_duplicates
    (catalog : nat → Z → option SpawnSvc.PokemonData) (chat : Z)
    (fi : FastSpawn.CreateIn) (st : FastSpawn.State)
    (si : SpawnSvc.CreateIn) (sst : SpawnSvc.State) :
  (has_active chat (FastSpawn.c_now_select fi) (FastSpawn.db st) →
   FastSpawn.create_spawn fi chat st = (st, false)) ∧
  (¬ has_active chat (FastSpawn.c_now_select fi) (FastSpawn.db st) →
   ∃ name rarity,
     let shiny := Qltb (FastSpawn.c_shiny_roll fi) 0.005%Q in
     let s :=
       mkSpawn (FastSpawn.c_row_id fi)
         ("spawn_" +:+ pretty (timestamp_int (FastSpawn.c_utcnow_id fi)) +:+ "_"
          +:+ pretty (randint 1000 9999 (FastSpawn.c_id_seed fi)))
         chat name (randint 1 800 (FastSpawn.c_species_seed fi))
         (randint 1 50 (FastSpawn.c_level_seed fi)) shiny rarity
         (FastSpawn.c_now_insert fi)
         (FastSpawn.c_utcnow_expires fi + minutes 10) false None None in
     name ∈ FastSpawn._pokemon_names ∧
     (if shiny then rarity = "legendary" else rarity ∈ ["common"; "uncommon"; "rare"]) ∧
     (FastSpawn.c_fault fi = None →
      spawns (FastSpawn.db st) !! spawn_id s = None →
      FastSpawn.create_spawn fi chat st
      = (FastSpawn.mkState
           (mkDB (<[spawn_id s := s]> (spawns (FastSpawn.db st)))
                 (pokemon (FastSpawn.db st)) (users (FastSpawn.db st)))
           (<[chat := FastSpawn.cache_entry_of_new s]> (FastSpawn._spawn_cache st)),
         true)) ∧
     (FastSpawn.c_fault fi = Some 0%nat ∨ FastSpawn.c_fault fi = Some 1%nat ∨
      is_Some (spawns (FastSpawn.db st) !! spawn_id s) →
      FastSpawn.create_spawn fi chat st = (st, false))) ∧
  (has_active chat (SpawnSvc.c_utcnow_select si) (SpawnSvc.db sst) →
   (SpawnSvc.create_spawn catalog si chat sst).2 = None ∧
   SpawnSvc.db (SpawnSvc.create_spawn catalog si chat sst).1 = SpawnSvc.db sst) ∧
  (¬ has_active chat (SpawnSvc.c_utcnow_select si) (SpawnSvc.db sst) →
   SpawnSvc.c_fault si = None →
   ∀ data species_name,
     (SpawnSvc._get_cached_pokemon_data catalog 0
        (randint 1 1010 (SpawnSvc.c_species_seed si))
        (SpawnSvc._clear_cache_if_needed si sst)).2 = Some data →
     data !! "name" = Some species_name →
     spawns (SpawnSvc.db sst)
       !! SpawnSvc.generate_id "spawn_" (SpawnSvc.c_utcnow_id si) (SpawnSvc.c_id_seeds si)
       = None →
     ∃ random_part,
       let shiny := Qltb (SpawnSvc.c_shiny_roll si) 0.002%Q in
       let s :=
         mkSpawn (SpawnSvc.c_row_id si)
           ("spawn_" +:+ pretty (timestamp_int (SpawnSvc.c_utcnow_id si)) +:+ random_part)
           chat species_name (randint 1 1010 (SpawnSvc.c_species_seed si))
           (randint 1 50 (SpawnSvc.c_level_seed si)) shiny
           (if shiny then "rare" else "common")
           (SpawnSvc.c_utcnow si) (SpawnSvc.c_utcnow si + minutes 8) false None None in
       String.length random_part = 8%nat ∧
       Forall (λ c, c ∈ SpawnSvc.id_alphabet) (String.list_ascii_of_string random_part) ∧
       (SpawnSvc.create_spawn catalog si chat sst).2 = Some s ∧
       SpawnSvc.db (SpawnSvc.create_spawn catalog si chat sst).1
       = mkDB (<[spawn_id s := s]> (spawns (SpawnSvc.db sst)))
              (pokemon (SpawnSvc.db sst)) (users (SpawnSvc.db sst))).
Proof.
  split_and!.
  - intros (k & s & Hk & Hchat & Hc & Hexp). by eapply fast_create_when_active.
  - intros Hno.
    destruct (fast_new_spawn_record fi chat) as (name & rarity & Hname & Hrarity & Hnew).
    cbv zeta in Hname, Hrarity, Hnew.
    exists name, rarity. cbv zeta. split_and!.
    + by apply choice_elem in Hname.
    + destruct (Qltb _ _); [done | by apply choice_elem in Hrarity].
    + intros Hf Hfresh. apply fast_create_when_free; try done.
      by apply not_has_active.
    + intros [Hf | [Hf | Htaken]].
      * apply fast_create_store_fault. by left.
      * apply fast_create_store_fault. by right.
      * by eapply fast_create_collision.
  - intros Hact. rewrite svc_create_when_active by done.
    split; [done | apply svc_clear_cache_db].
  - intros Hno Hf data species_name Hdata Hname Hfresh.
    destruct (svc_create_when_free catalog si chat sst data species_name
                Hno Hf Hdata Hname Hfresh) as [Hs Hdb].
    destruct (generate_id_parts "spawn_" (SpawnSvc.c_utcnow_id si) (SpawnSvc.c_id_seeds si))
      as (random_part & Hid & Hlen & Hall).
    exists random_part. cbv zeta. rewrite <- Hid. done.
Qed.

Lemma create_spawn_suppresses_duplicates_witness :
  has_active 7 (minutes 1) Ex.store ∧
  ¬ has_active 7 (minutes 11) Ex.store ∧
  FastSpawn.create_spawn (Ex.fast_create (minutes 1) 0) 7 Ex.fresh = (Ex.fresh, false) ∧
  (let s := mkSpawn 2 "spawn_660_1000" 7 "pikachu" 1 1 false "common"
              (minutes 11) (minutes 21) false None None in
   FastSpawn.create_spawn (Ex.fast_create (minutes 11) 0) 7 Ex.fresh
   = (FastSpawn.mkState
        (mkDB (<[ "spawn_660_1000" := s ]> (spawns Ex.store)) ∅ ∅)
        {[ 7 := FastSpawn.cache_entry_of_new s ]},
      true)) ∧
  (SpawnSvc.create_spawn Ex.bulbasaur_only (Ex.svc_create (minutes 1) 0) 7
     Ex.svc_fresh).2 = None ∧
  (SpawnSvc.create_spawn Ex.bulbasaur_only (Ex.svc_create (minutes 11) 0) 7
     Ex.svc_fresh).2
  = Some (mkSpawn 2 "spawn_660aaaaaaaa" 7 "bulbasaur" 1 1 false "common"
            (minutes 11) (minutes 19) false None None).
Proof.
  assert (has_active 7 (minutes 1) Ex.store) as Hyes.
  { exists "spawn_0_1234", Ex.pikachu. repeat split; reflexivity. }
  assert (¬ has_active 7 (minutes 11) Ex.store) as Hno.
  { intros (k & s & Hk & _ & _ & Hexp).
    unfold Ex.store in Hk. cbn [spawns] in Hk.
    apply lookup_singleton_Some in Hk as [_ <-]. vm_compute in Hexp. discriminate. }
  destruct (create_spawn_suppresses_duplicates Ex.bulbasaur_only 7
              (Ex.fast_create (minutes 1) 0) Ex.fresh
              (Ex.svc_create (minutes 1) 0) Ex.svc_fresh) as (Hdup & _ & Hdup' & _).
  destruct (create_spawn_suppresses_duplicates Ex.bulbasaur_only 7
              (Ex.fast_create (minutes 11) 0) Ex.fresh
              (Ex.svc_create (minutes 11) 0) Ex.svc_fresh) as (_ & Hnew & _ & Hnew').
  split; [exact Hyes |]. split; [exact Hno |].
  split; [exact (Hdup Hyes) |].
  split.
  { destruct (Hnew Hno) as (name & rarity & Hname & Hrarity & Hcreate & _).
    cbv zeta in Hcreate. cbv zeta. rewrite Hcreate; [| reflexivity | reflexivity].
    assert (name = "pikachu") as ->.
    { revert Hcreate. vm_compute. intros Hcreate. specialize (Hcreate eq_refl eq_refl).
      by injection Hcreate. }
    assert (rarity = "common") as ->.
    { revert Hcreate. vm_compute. intros Hcreate. specialize (Hcreate eq_refl eq_refl).
      by injection Hcreate. }
    reflexivity. }
  split; [exact (proj1 (Hdup' Hyes)) |].
  destruct (Hnew' Hno eq_refl {[ "name" := "bulbasaur" ]} "bulbasaur"
              eq_refl eq_refl eq_refl) as (random_part & _ & _ & Hs & _).
  cbv zeta in Hs. reflexivity.
Defined.

(** ** The catalog *)

Lemma svc_create_fallback_when_free catalog (i : SpawnSvc.CreateIn) (chat : Z)
    (st : SpawnSvc.State) (data : SpawnSvc.PokemonData) (species_name : string) :
  let st0 := SpawnSvc._clear_cache_if_needed i st in
  let id0 := randint 1 1010 (SpawnSvc.c_species_seed i) in
  let id1 := randint 1 151 (SpawnSvc.c_fallback_seed i) in
  let first := SpawnSvc._get_cached_pokemon_data catalog 0 id0 st0 in
  let second := SpawnSvc._get_cached_pokemon_data catalog 1 id1 first.1 in
  let is_shiny := Qltb (SpawnSvc.c_shiny_roll i) 0.002%Q in
  let spawn :=
    mkSpawn (SpawnSvc.c_row_id i)
      (SpawnSvc.generate_id "spawn_" (SpawnSvc.c_utcnow_id i) (SpawnSvc.c_id_seeds i))
      chat species_name id1 (randint 1 50 (SpawnSvc.c_level_seed i))
      is_shiny (if is_shiny then "rare" else "common")
      (SpawnSvc.c_utcnow i) (SpawnSvc.c_utcnow i + minutes 8) false None None in
  ¬ has_active chat (SpawnSvc.c_utcnow_select i) (SpawnSvc.db st) →
  SpawnSvc.c_fault i = None →
  SpawnSvc.has_data first.2 = false →
  second.2 = Some data →
  data !! "name" = Some species_name →
  spawns (SpawnSvc.db st) !! spawn_id spawn = None →
  (SpawnSvc.create_spawn catalog i chat st).2 = Some spawn.
Proof.
  cbv zeta. intros Hno Hf Hfirst Hdata Hname Hfresh.
  unfold SpawnSvc.create_spawn, SpawnSvc.create_spawn_body, SpawnSvc.create_check,
    SpawnSvc.create_finish.
  rewrite Hf, stmt_no_fault.
  unfold SpawnSvc.select_one. rewrite svc_clear_cache_db.
  rewrite (select_active_head_None _ _ _ (not_has_active _ _ _ Hno)).
  cbn [fmap option_fmap option_map from_option].
  pose proof (svc_lookup_db catalog 0 (randint 1 1010 (SpawnSvc.c_species_seed i))
                (SpawnSvc._clear_cache_if_needed i st)) as Hdb1.
  rewrite svc_clear_cache_db in Hdb1.
  destruct (SpawnSvc._get_cached_pokemon_data catalog 0 _ _) as [st1 data1].
  cbn [fst snd] in *. rewrite Hfirst.
  pose proof (svc_lookup_db catalog 1 (randint 1 151 (SpawnSvc.c_fallback_seed i)) st1)
    as Hdb2.
  destruct (SpawnSvc._get_cached_pokemon_data catalog 1 _ _) as [st2 data2].
  cbn [fst snd] in *. subst data2.
  rewrite (has_data_named data species_name Hname).
  unfold SpawnSvc.persist_spawn, SpawnSvc.name_of. cbn [mbind option_bind].
  rewrite Hname, Hf, stmt_no_fault.
  unfold insert_spawn. cbn [spawn_id] in *. rewrite Hdb2, Hdb1, Hfresh. done.
Qed.

(** C8: in [SpawnService.create_spawn], when the catalog has no data for
    the species id first drawn, the lookup is made again with an id drawn
    between 1 and 151; when that lookup has no data either, the call
    returns [None] and the store is as before; when it gives a named
    record (the chat having no active spawn, the store not failing and the
    spawn id being new) the spawn is created with the second id and that
    name.  A spawn that is returned carries the id of the second draw and
    the name its catalog record gives, and is the one row added to the
    store; whenever [None] is returned the store is as before. *)
Theorem catalog_failure_is_not_persisted
    (catalog : nat → Z → option SpawnSvc.PokemonData) (i : SpawnSvc.CreateIn)
    (chat : Z) (st : SpawnSvc.State) :
  let st0 := SpawnSvc._clear_cache_if_needed i st in
  let id0 := randint 1 1010 (SpawnSvc.c_species_seed i) in
  let id1 := randint 1 151 (SpawnSvc.c_fallback_seed i) in
  let first := SpawnSvc._get_cached_pokemon_data catalog 0 id0 st0 in
  let second := SpawnSvc._get_cached_pokemon_data catalog 1 id1 first.1 in
  let out := SpawnSvc.create_spawn catalog i chat st in
  SpawnSvc.has_data first.2 = false →
  1 ≤ id1 ≤ 151 ∧
  (SpawnSvc.has_data second.2 = false →
   out.2 = None ∧ SpawnSvc.db out.1 = SpawnSvc.db st) ∧
  (∀ spawn, out.2 = Some spawn →
     species_id spawn = id1 ∧
     second.2 ≫= (λ d, d !! "name") = Some (species spawn) ∧
     SpawnSvc.db out.1
     = mkDB (<[spawn_id spawn := spawn]> (spawns (SpawnSvc.db st)))
            (pokemon (SpawnSvc.db st)) (users (SpawnSvc.db st))) ∧
  (out.2 = None → SpawnSvc.db out.1 = SpawnSvc.db st) ∧
  (¬ has_active chat (SpawnSvc.c_utcnow_select i) (SpawnSvc.db st) →
   SpawnSvc.c_fault i = None →
   ∀ data species_name,
     second.2 = Some data →
     data !! "name" = Some species_name →
     spawns (SpawnSvc.db st)
       !! SpawnSvc.generate_id "spawn_" (SpawnSvc.c_utcnow_id i) (SpawnSvc.c_id_seeds i)
       = None →
     ∃ spawn, out.2 = Some spawn ∧ species_id spawn = id1 ∧
              species spawn = species_name).
Proof.
  cbv zeta. intros Hfirst.
  split; [by apply randint_range |].
  pose proof (svc_create_cases catalog i chat st) as Hcases. cbv zeta in Hcases.
  split; [| split; [| split]].
  - intros Hsecond.
    destruct Hcases as [Hnone | (spawn & _ & _ & _ & _ & _ & _ & _ & Hsrc)]; [done |].
    destruct Hsrc as [(Hd & _) | (_ & Hd2 & _)]; congruence.
  - intros spawn Hsome.
    destruct Hcases
      as [[Hnone _] | (spawn' & Hsome' & Hdb & _ & _ & _ & _ & _ & Hsrc)];
      [congruence |].
    assert (spawn' = spawn) as -> by congruence.
    destruct Hsrc as [(Hd & _) | (_ & _ & Hid & Hname)]; [congruence | done].
  - intros Hnone.
    destruct Hcases as [[_ Hdb] | (spawn & Hsome & _)]; [done | congruence].
  - intros Hno Hf data species_name Hdata Hname Hfresh.
    eexists. split; [| split].
    + by apply (svc_create_fallback_when_free catalog i chat st data species_name).
    + done.
    + done.
Qed.

Lemma catalog_failure_is_not_persisted_witness :
  SpawnSvc.has_data
    (SpawnSvc._get_cached_pokemon_data Ex.bulbasaur_only 0 6 Ex.svc_fresh).2 = false ∧
  (SpawnSvc.create_spawn Ex.no_catalog (Ex.svc_create_fallback (minutes 11)) 7
     Ex.svc_fresh).2 = None ∧
  ∃ s, (SpawnSvc.create_spawn Ex.bulbasaur_only (Ex.svc_create_fallback (minutes 11)) 7
          Ex.svc_fresh).2 = Some s ∧
       species_id s = 1 ∧ species s = "bulbasaur".
Proof.
  split; [reflexivity |].
  destruct (catalog_failure_is_not_persisted Ex.no_catalog
              (Ex.svc_create_fallback (minutes 11)) 7 Ex.svc_fresh eq_refl)
    as (_ & Hnone & _).
  split; [exact (proj1 (Hnone eq_refl)) |].
  destruct (catalog_failure_is_not_persisted Ex.bulbasaur_only
              (Ex.svc_create_fallback (minutes 11)) 7 Ex.svc_fresh eq_refl)
    as (_ & _ & Hsome & _ & _).
  eexists. split; [reflexivity |].
  destruct (Hsome _ eq_refl) as (Hid & Hname & _).
  split; [exact Hid |].
  apply (inj Some). symmetry. exact Hname.
Defined.

(** ** The cache of [RawSQLSpawnService] *)

(** C5, counterexample: a spawn is created in chat 7 at time 0, which
    caches it; eleven minutes later its [expires_at] (ten minutes) has
    passed and the store has no active spawn for the chat, yet
    [get_active_spawn] returns the cached spawn. *)
Lemma cached_spawn_outlives_expiry :
  let st := (FastSpawn.create_spawn (Ex.fast_create 0 0) 7 Ex.empty).1 in
  let out := FastSpawn.get_active_spawn Ex.no_sprite None (minutes 11) 7 st in
  expires_at <$> spawns (FastSpawn.db st) !! "spawn_0_1000" = Some (minutes 10) ∧
  FastSpawn.select_active 7 (minutes 11) (FastSpawn.db st) = None ∧
  FastSpawn.d_spawn_id <$> out.2 = Some "spawn_0_1000".
Proof. vm_compute. repeat split; done. Qed.

(** C5, as amended: [get_active_spawn] returns the cached entry of the
    chat whenever there is one (with its image URL refreshed), without
    comparing an expiry time with the clock and without reading the store:
    a cache entry carries no [expires_at].  Only when the chat has no
    cache entry does it query the store; a spawn returned then is a row of
    the chat that is not caught and whose [expires_at] is after the current
    time, and it is written to the cache; when the query finds none or
    fails, [None] is returned and nothing changes. *)
Theorem get_active_spawn_serves_cache_first
    (sprite : Z → bool → exn (option string)) (fault : option nat)
    (now : datetime) (chat : Z) (st : FastSpawn.State) :
  let out := FastSpawn.get_active_spawn sprite fault now chat st in
  (∀ cached, FastSpawn._spawn_cache st !! chat = Some cached →
     let cached' :=
       FastSpawn.with_image_url cached
         (FastSpawn.image_url_of sprite (default 1 (FastSpawn.d_species_id cached))
            (FastSpawn.d_is_shiny cached)) in
     out = (FastSpawn.mkState (FastSpawn.db st)
              (<[chat := cached']> (FastSpawn._spawn_cache st)),
            Some cached')) ∧
  (FastSpawn._spawn_cache st !! chat = None →
   (∀ data, out.2 = Some data →
      ∃ k row, spawns (FastSpawn.db st) !! k = Some row ∧
               FastSpawn.d_spawn_id data = spawn_id row ∧
               chat_id row = chat ∧ is_caught row = false ∧ now < expires_at row ∧
               out.1 = FastSpawn.mkState (FastSpawn.db st)
                         (<[chat := data]> (FastSpawn._spawn_cache st))) ∧
   (out.2 = None → out.1 = st) ∧
   (fault = None → has_active chat now (FastSpawn.db st) → is_Some out.2)).
Proof.
  cbv zeta. unfold FastSpawn.get_active_spawn. split.
  - intros cached ->. done.
  - intros ->. unfold FastSpawn.select_active. split; [| split].
    + intros data. stmt_split; [done |].
      destruct (latest _) as [row |] eqn:Hrow; [| done].
      cbn [snd fst]. intros [= <-].
      apply latest_elem, elem_of_select_spawns in Hrow as [[k Hk] Hact].
      apply active_in_spec in Hact as (Hchat & Hc & Hexp).
      exists k, row. done.
    + stmt_split; [done |]. by destruct (latest _).
    + intros -> (k & s & Hk & Hchat & Hc & Hexp). rewrite stmt_no_fault.
      destruct (latest _) as [row |] eqn:Hrow; [by eexists |].
      apply latest_None in Hrow.
      destruct (select_active_head_Some chat now (FastSpawn.db st) k s Hk Hchat Hc Hexp)
        as [r Hr].
      rewrite Hrow in Hr. done.
Qed.

Lemma get_active_spawn_serves_cache_first_witness :
  let st := (FastSpawn.create_spawn (Ex.fast_create 0 0) 7 Ex.empty).1 in
  FastSpawn._spawn_cache Ex.fresh !! 7 = None ∧
  has_active 7 (minutes 1) Ex.store ∧
  is_Some (FastSpawn.get_active_spawn Ex.no_sprite None (minutes 1) 7 Ex.fresh).2 ∧
  (FastSpawn.get_active_spawn Ex.no_sprite None (minutes 11) 7 Ex.fresh).1 = Ex.fresh ∧
  FastSpawn.d_spawn_id <$>
    (FastSpawn.get_active_spawn Ex.no_sprite None (minutes 11) 7 st).2
  = Some "spawn_0_1000".
Proof.
  cbv zeta.
  assert (has_active 7 (minutes 1) Ex.store) as Hyes.
  { exists "spawn_0_1234", Ex.pikachu. repeat split; reflexivity. }
  split; [reflexivity |]. split; [exact Hyes |].
  destruct (get_active_spawn_serves_cache_first Ex.no_sprite None (minutes 1) 7 Ex.fresh)
    as (_ & Hstore).
  destruct (Hstore eq_refl) as (_ & _ & Hsome).
  split; [exact (Hsome eq_refl Hyes) |].
  destruct (get_active_spawn_serves_cache_first Ex.no_sprite None (minutes 11) 7 Ex.fresh)
    as (_ & Hstore').
  destruct (Hstore' eq_refl) as (_ & Hnone & _).
  split; [exact (Hnone eq_refl) |].
  destruct (get_active_spawn_serves_cache_first Ex.no_sprite None (minutes 11) 7
              (FastSpawn.create_spawn (Ex.fast_create 0 0) 7 Ex.empty).1)
    as (Hcache & _).
  rewrite (Hcache _ eq_refl). reflexivity.
Defined.

(** ** The cooldown of manual spawns *)

Lemma cooldown_step_not_admin (ADMIN_IDS : list Z) (uid : Z) (now : Q)
    (m : gmap string Q) :
  Handler.is_admin ADMIN_IDS uid = false →
  Handler.cooldown_step ADMIN_IDS uid now m
  = match m !! Handler.cooldown_key uid with
    | Some last =>
        if Qltb (now - last) 30%Q
        then (m, Handler.Blocked (30 - int_of_float (now - last)))
        else (<[Handler.cooldown_key uid := now]> m, Handler.Pass)
    | None => (<[Handler.cooldown_key uid := now]> m, Handler.Pass)
    end.
Proof. intros Hna. unfold Handler.cooldown_step. by rewrite Hna. Qed.

(** C6, counterexample: user 5 is no admin and triggered a manual spawn at
    time 100; at time 130 that record is 30 seconds old, not older, yet
    the step lets the user pass and records 130. *)
Lemma cooldown_passes_at_thirty_seconds :
  let m : gmap string Q := {[ "spawn_5" := 100%Q ]} in
  Handler.is_admin [1] 5 = false ∧
  m !! Handler.cooldown_key 5 = Some 100%Q ∧
  ¬ (30 < 130 - 100)%Q ∧
  Handler.cooldown_step [1] 5 130%Q m = (<["spawn_5" := 130%Q]> m, Handler.Pass).
Proof.
  cbv zeta. split; [reflexivity |]. split; [reflexivity |].
  split; [vm_compute; discriminate | reflexivity].
Qed.

(** C6, as amended: for a user who is no admin and any cooldown map, the
    cooldown step lets the user pass and records the current time when the
    user has no record or the record is at least 30 seconds old
    ([now - last >= 30]); otherwise ([now - last < 30]) it blocks and
    leaves the map as it was, and the handler answers with the cooldown
    message.  So a user without record passes, is blocked at once, and
    passes again once 30 seconds have gone by. *)
Theorem cooldown_gate
    (ADMIN_IDS : list Z) (sprite : Z → bool → exn (option string))
    (uid : Z) (now : Q) (m : gmap string Q) :
  Handler.is_admin ADMIN_IDS uid = false →
  let key := Handler.cooldown_key uid in
  ((m !! key = None ∨ ∃ last, m !! key = Some last ∧ (30 <= now - last)%Q) →
   Handler.cooldown_step ADMIN_IDS uid now m = (<[key := now]> m, Handler.Pass)) ∧
  (∀ last, m !! key = Some last → (now - last < 30)%Q →
     Handler.cooldown_step ADMIN_IDS uid now m
     = (m, Handler.Blocked (30 - int_of_float (now - last))) ∧
     ∀ i chat st, Handler.user_cooldowns st = m → Handler.h_time i = now →
       (Handler.spawn_handler ADMIN_IDS sprite i uid chat st).2
       = Handler.CooldownActive (30 - int_of_float (now - last)) ∧
       Handler.user_cooldowns (Handler.spawn_handler ADMIN_IDS sprite i uid chat st).1
       = m) ∧
  (m !! key = None → ∀ later, (30 <= later - now)%Q →
     let m1 := (Handler.cooldown_step ADMIN_IDS uid now m).1 in
     (Handler.cooldown_step ADMIN_IDS uid now m).2 = Handler.Pass ∧
     (∃ remaining,
        Handler.cooldown_step ADMIN_IDS uid now m1 = (m1, Handler.Blocked remaining)) ∧
     Handler.cooldown_step ADMIN_IDS uid later m1
     = (<[key := later]> m1, Handler.Pass)).
Proof.
  intros Hna key. split; [| split].
  - rewrite cooldown_step_not_admin by done. fold key.
    intros [-> | (last & -> & Hold)]; [done |].
    apply Qltb_ge in Hold. by rewrite Hold.
  - intros last Hlast Hyoung.
    assert (Handler.cooldown_step ADMIN_IDS uid now m
            = (m, Handler.Blocked (30 - int_of_float (now - last)))) as Hstep.
    { rewrite cooldown_step_not_admin by done. fold key. rewrite Hlast.
      apply Qltb_lt in Hyoung. by rewrite Hyoung. }
    split; [exact Hstep |].
    intros i chat st Hm Hnow. unfold Handler.spawn_handler.
    cbn [Handler.user_cooldowns Handler.sched]. rewrite Hm, Hnow, Hstep. done.
  - intros Hnone later Hlater. cbv zeta.
    rewrite !cooldown_step_not_admin by done. fold key. rewrite Hnone.
    cbn [fst snd]. rewrite lookup_insert_eq.
    assert (Qltb (now - now) 30%Q = true) as ->.
    { apply Qltb_lt. destruct now as [n d]. unfold Qlt. simpl. lia. }
    apply Qltb_ge in Hlater. rewrite Hlater.
    split; [done |]. split; [by eexists | done].
Qed.

Lemma cooldown_gate_witness :
  let m : gmap string Q := {[ "spawn_5" := 100%Q ]} in
  Handler.is_admin [1] 5 = false ∧
  Handler.cooldown_step [1] 5 115%Q m = (m, Handler.Blocked 15) ∧
  Handler.cooldown_step [1] 5 131%Q m = (<["spawn_5" := 131%Q]> m, Handler.Pass) ∧
  Handler.cooldown_step [1] 5 100%Q ∅ = (m, Handler.Pass).
Proof.
  cbv zeta.
  destruct (cooldown_gate [1] Ex.no_sprite 5 115%Q {[ "spawn_5" := 100%Q ]} eq_refl)
    as (_ & Hblock & _).
  destruct (cooldown_gate [1] Ex.no_sprite 5 131%Q {[ "spawn_5" := 100%Q ]} eq_refl)
    as (Hpass & _).
  destruct (cooldown_gate [1] Ex.no_sprite 5 100%Q ∅ eq_refl) as (Hfirst & _).
  split; [reflexivity |].
  split; [exact (proj1 (Hblock 100%Q eq_refl eq_refl)) |].
  split.
  - apply Hpass. right. exists 100%Q. split; [reflexivity | vm_compute; discriminate].
  - apply Hfirst. left. reflexivity.
Defined.

(** C10: for a user whose id is in [ADMIN_IDS] and any cooldown map, the
    cooldown step is skipped: it lets the user pass and leaves the map as
    it was, so the handler never answers with the cooldown message and
    writes no cooldown time. *)
Theorem admin_skips_cooldown
    (ADMIN_IDS : list Z) (sprite : Z → bool → exn (option string))
    (uid chat : Z) (now : Q) (m : gmap string Q)
    (i : Handler.HandlerIn) (st : Handler.State) :
  uid ∈ ADMIN_IDS →
  Handler.cooldown_step ADMIN_IDS uid now m = (m, Handler.Pass) ∧
  (∀ remaining,
     (Handler.spawn_handler ADMIN_IDS sprite i uid chat st).2
     ≠ Handler.CooldownActive remaining) ∧
  Handler.user_cooldowns (Handler.spawn_handler ADMIN_IDS sprite i uid chat st).1
  = Handler.user_cooldowns st.
Proof.
  intros Hadmin.
  assert (∀ now m, Handler.cooldown_step ADMIN_IDS uid now m = (m, Handler.Pass))
    as Hstep.
  { intros now' m'. unfold Handler.cooldown_step, Handler.is_admin.
    by rewrite bool_decide_eq_true_2. }
  split; [apply Hstep |].
  unfold Handler.spawn_handler. rewrite Hstep.
  cbn [Handler.user_cooldowns Handler.sched].
  destruct (FastSpawn.get_active_spawn _ _ _ _ _) as [svc1 [active |]]; [done |].
  destruct (FastSpawn.create_spawn _ _ _) as [svc2 []]; cbn [negb]; [| done].
  destruct (FastSpawn.get_active_spawn _ _ _ _ _) as [svc3 [spawn |]]; done.
Qed.

Lemma admin_skips_cooldown_witness :
  1 ∈ [1; 2] ∧
  Handler.cooldown_step [1; 2] 1 115%Q {[ "spawn_1" := 100%Q ]}
  = ({[ "spawn_1" := 100%Q ]}, Handler.Pass).
Proof.
  assert (1 ∈ [1; 2]) as Hin by (apply list_elem_of_here).
  split; [exact Hin |].
  exact (proj1 (admin_skips_cooldown [1; 2] Ex.no_sprite 1 7 115%Q
                  {[ "spawn_1" := 100%Q ]}
                  (Handler.mkHandlerIn 115%Q None 0 (Ex.fast_create 0 0) None 0)
                  (Handler.mkState (Scheduler.mkState ∅ false Ex.empty) ∅) Hin)).
Defined.

(** ** The spawn loop of the scheduler *)

Lemma try_block_cancelled (i : Scheduler.IterIn) (st : Scheduler.State) :
  (Scheduler.try_block i st).2 = Some Scheduler.Cancelled →
  ∃ p, Scheduler.raises_at i p = Some Scheduler.Cancelled.
Proof.
  unfold Scheduler.try_block.
  destruct (bool_decide _).
  { destruct (Scheduler.raises_at i Scheduler.AtIdleSleep) eqn:H1; [| done].
    intros [= ->]. eauto. }
  destruct (Scheduler.raises_at i Scheduler.AtImport) eqn:H2.
  { intros [= ->]. eauto. }
  destruct (choice _ _); [| done].
  destruct (Scheduler.raises_at i Scheduler.AtCreateSpawn) eqn:H3.
  { intros [= ->]. eauto. }
  destruct (FastSpawn.create_spawn _ _ _) as [svc' success].
  destruct (Scheduler.raises_at i Scheduler.AtIntervalSleep) eqn:H4; [| done].
  intros [= ->]. eauto.
Qed.

(** C9, counterexample.  The store is down while the loop spawns in chat
    7: the SELECT of [create_spawn] raises (and, in the second run, its
    INSERT).  The exception never reaches the loop: [create_spawn] catches
    it and returns [False], nothing is logged by the loop, there is no
    sleep of 10 seconds, and the iteration ends with the regular sleep drawn
    between 30 and 60 seconds. *)
Lemma store_failure_does_not_reach_the_loop :
  let down n := FastSpawn.mkCreateIn (Some n) 0 0 0 0 0.5 0 0 0 0 0 2 in
  let i n := Scheduler.mkIterIn None 0 (down n) 0 false (fun st => st) in
  let st := Scheduler.mkState {[7]} true Ex.empty in
  Scheduler.try_block (i 0%nat) st = (st, [Scheduler.Sleep 30], None) ∧
  Scheduler.iteration (i 0%nat) st = (st, [Scheduler.Sleep 30], true) ∧
  Scheduler.iteration (i 1%nat) st = (st, [Scheduler.Sleep 30], true) ∧
  Scheduler._spawn_loop [i 0%nat; i 1%nat] st
  = (st, [Scheduler.Sleep 30; Scheduler.Sleep 30]).
Proof. vm_compute. repeat split; reflexivity. Qed.

(** C9, as amended: take any iteration of [_spawn_loop] entered with the
    running flag set, in which no cancellation is delivered.  Whatever
    exception reaches the [except] clause of the loop, the iteration ends
    inside the loop: the exception is logged, [asyncio.sleep(10)] follows,
    and the loop goes on with the next iteration (which tests the running
    flag again).  A store statement that raises inside [create_spawn] does
    not reach the loop: [create_spawn] returns [False], nothing is logged,
    and the iteration ends with its usual sleep of 30 to 60 seconds. *)
Theorem spawn_loop_survives_failed_iteration
    (i : Scheduler.IterIn) (rest : list Scheduler.IterIn) (st : Scheduler.State) :
  Scheduler.running st = true →
  (∀ p, Scheduler.raises_at i p ≠ Some Scheduler.Cancelled) →
  Scheduler.it_backoff_cancelled i = false →
  ∃ st' evs,
    Scheduler.iteration i st = (st', evs, true) ∧
    Scheduler._spawn_loop (i :: rest) st
    = ((Scheduler._spawn_loop rest (Scheduler.it_meanwhile i st')).1,
       evs ++ (Scheduler._spawn_loop rest (Scheduler.it_meanwhile i st')).2) ∧
    ((Scheduler.try_block i st).2 = Some Scheduler.Error →
     evs = (Scheduler.try_block i st).1.2
           ++ [Scheduler.LoopError; Scheduler.Sleep 10]) ∧
    (Scheduler.it_raise i = None →
     Scheduler.active_channels st ≠ ∅ →
     FastSpawn.c_fault (Scheduler.it_create i) = Some 0%nat
     ∨ FastSpawn.c_fault (Scheduler.it_create i) = Some 1%nat →
     st' = st ∧
     evs = [Scheduler.Sleep (randint 30 60 (Scheduler.it_interval_seed i))]).
Proof.
  intros Hrun Hnc Hback.
  assert (∃ st' evs, Scheduler.iteration i st = (st', evs, true) ∧
            ((Scheduler.try_block i st).2 = Some Scheduler.Error →
             evs = (Scheduler.try_block i st).1.2
                   ++ [Scheduler.LoopError; Scheduler.Sleep 10]) ∧
            (Scheduler.it_raise i = None →
             Scheduler.active_channels st ≠ ∅ →
             FastSpawn.c_fault (Scheduler.it_create i) = Some 0%nat
             ∨ FastSpawn.c_fault (Scheduler.it_create i) = Some 1%nat →
             st' = st ∧
             evs = [Scheduler.Sleep (randint 30 60 (Scheduler.it_interval_seed i))]))
    as (st' & evs & Hit & Herr & Hstore).
  { unfold Scheduler.iteration.
    pose proof (try_block_cancelled i st) as Hcanc.
    assert (Scheduler.it_raise i = None →
            Scheduler.active_channels st ≠ ∅ →
            FastSpawn.c_fault (Scheduler.it_create i) = Some 0%nat
            ∨ FastSpawn.c_fault (Scheduler.it_create i) = Some 1%nat →
            Scheduler.try_block i st
            = (st, [Scheduler.Sleep (randint 30 60 (Scheduler.it_interval_seed i))],
               None)) as Htry.
    { intros Hnr Hne Hfault. unfold Scheduler.try_block, Scheduler.raises_at.
      rewrite Hnr, bool_decide_eq_false_2 by done.
      destruct (choice_nonempty (elements (Scheduler.active_channels st))
                  (Scheduler.it_choice_seed i)) as [chat ->].
      { intros Hnil. apply Hne. apply leibniz_equiv. by apply elements_empty_inv. }
      rewrite fast_create_store_fault by done. by destruct st. }
    destruct (Scheduler.try_block i st) as [[st1 evs1] [[] |]] eqn:Htb; cbn [fst snd] in *.
    - rewrite Hback. eexists _, _. split; [done |]. split; [done |].
      intros Hnr Hne Hfault. by specialize (Htry Hnr Hne Hfault).
    - destruct Hcanc as [p Hp]; [done |]. by destruct (Hnc p).
    - eexists _, _. split; [done |]. split; [done |].
      intros Hnr Hne Hfault. specialize (Htry Hnr Hne Hfault).
      by injection Htry as -> ->. }
  exists st', evs. split; [done |]. split; [| done].
  cbn [Scheduler._spawn_loop]. rewrite Hrun, Hit.
  by destruct (Scheduler._spawn_loop rest _).
Qed.

Lemma spawn_loop_survives_failed_iteration_witness :
  let i := Scheduler.mkIterIn (Some (Scheduler.AtCreateSpawn, Scheduler.Error)) 0
             (Ex.fast_create 0 0) 0 false (fun st => st) in
  let j := Scheduler.mkIterIn None 0
             (FastSpawn.mkCreateIn (Some 0%nat) 0 0 0 0 0.5 0 0 0 0 0 2) 0 false
             (fun st => st) in
  let st := Scheduler.mkState {[7]} true Ex.empty in
  Scheduler.running st = true ∧
  (Scheduler._spawn_loop [i; i] st).2
  = [Scheduler.LoopError; Scheduler.Sleep 10; Scheduler.LoopError; Scheduler.Sleep 10] ∧
  (Scheduler._spawn_loop [j; i] st).2
  = [Scheduler.Sleep 30; Scheduler.LoopError; Scheduler.Sleep 10].
Proof.
  cbv zeta. split; [reflexivity |].
  set (i := Scheduler.mkIterIn (Some (Scheduler.AtCreateSpawn, Scheduler.Error)) 0
              (Ex.fast_create 0 0) 0 false (fun st => st)).
  set (j := Scheduler.mkIterIn None 0
              (FastSpawn.mkCreateIn (Some 0%nat) 0 0 0 0 0.5 0 0 0 0 0 2) 0 false
              (fun st => st)).
  set (st := Scheduler.mkState {[7]} true Ex.empty).
  assert (∀ p, Scheduler.raises_at i p ≠ Some Scheduler.Cancelled) as Hnc.
  { intros p. destruct p; vm_compute; discriminate. }
  assert (∀ p, Scheduler.raises_at j p ≠ Some Scheduler.Cancelled) as Hnc'.
  { intros p. destruct p; vm_compute; discriminate. }
  split.
  - destruct (spawn_loop_survives_failed_iteration i [i] st eq_refl Hnc eq_refl)
      as (st' & evs & Hit & Hloop & _).
    rewrite Hloop. vm_compute in Hit. injection Hit as <- <-. reflexivity.
  - destruct (spawn_loop_survives_failed_iteration j [i] st eq_refl Hnc' eq_refl)
      as (st' & evs & _ & Hloop & _ & Hstore).
    destruct Hstore as [-> ->]; [reflexivity | | by left |].
    + vm_compute. intros Hempty. discriminate.
    + rewrite Hloop. reflexivity.
Defined.

(** * Further properties of the modelled code *)

(** ** What [create_spawn] creates *)

Lemma fast_create_true_inv (i : FastSpawn.CreateIn) (chat : Z) (st : FastSpawn.State) :
  (FastSpawn.create_spawn i chat st).2 = true →
  ∃ s, FastSpawn.new_spawn i chat = Ok s ∧
       spawns (FastSpawn.db st) !! spawn_id s = None ∧
       head (select_spawns (active_in chat (FastSpawn.c_now_select i))
               (FastSpawn.db st)) = None ∧
       (FastSpawn.create_spawn i chat st).1
       = FastSpawn.mkState
           (mkDB (<[spawn_id s := s]> (spawns (FastSpawn.db st)))
                 (pokemon (FastSpawn.db st)) (users (FastSpawn.db st)))
           (<[chat := FastSpawn.cache_entry_of_new s]> (FastSpawn._spawn_cache st)).
Proof.
  unfold FastSpawn.create_spawn, FastSpawn.create_spawn_body, FastSpawn.create_check,
    FastSpawn.create_finish.
  stmt_split; exn_simpl; [done |].
  unfold FastSpawn.select_existing.
  destruct (head _) as [r |] eqn:Hhead; [done |].
  cbn [fmap option_fmap option_map from_option].
  destruct (FastSpawn.new_spawn i chat) as [s |]; exn_simpl; [| done].
  stmt_split; exn_simpl; [done |].
  unfold insert_spawn.
  destruct (spawns (FastSpawn.db st) !! spawn_id s) eqn:Hfresh; exn_simpl; [done |].
  intros _. exists s. done.
Qed.

Lemma old_rows_inactive_later (chat : Z) (now t : datetime) (d : DB) (k : string)
    (s : Spawn) :
  head (select_spawns (active_in chat now) d) = None →
  now ≤ t →
  spawns d !! k = Some s →
  active_in chat t s = false.
Proof.
  intros Hnone Hle Hk.
  pose proof (proj1 (select_spawns_head_None _ _) Hnone k s Hk) as Hold.
  destruct (active_in chat t s) eqn:Hact; [| done].
  apply active_in_spec in Hact as (Hchat & Hc & Hexp).
  assert (active_in chat now s = true) as Hnow; [| congruence].
  apply active_in_spec. repeat split; [done | done | lia].
Qed.

Lemma svc_create_some_inv catalog (i : SpawnSvc.CreateIn) (chat : Z)
    (st : SpawnSvc.State) (spawn : Spawn) :
  (SpawnSvc.create_spawn catalog i chat st).2 = Some spawn →
  head (select_spawns (active_in chat (SpawnSvc.c_utcnow_select i)) (SpawnSvc.db st))
  = None ∧
  level spawn = randint 1 50 (SpawnSvc.c_level_seed i) ∧
  is_shiny spawn = Qltb (SpawnSvc.c_shiny_roll i) 0.002%Q ∧
  rarity spawn = (if is_shiny spawn then "rare" else "common") ∧
  caught_by spawn = None ∧ caught_at spawn = None.
Proof.
  unfold SpawnSvc.create_spawn, SpawnSvc.create_spawn_body, SpawnSvc.create_check,
    SpawnSvc.create_finish.
  stmt_split; [done |].
  unfold SpawnSvc.select_one. rewrite svc_clear_cache_db.
  destruct (head _) as [r |] eqn:Hhead; [done |].
  cbn [fmap option_fmap option_map from_option].
  assert (∀ sp_id data st1,
            (let '(st', e) :=
               SpawnSvc.persist_spawn i chat (randint 1 50 (SpawnSvc.c_level_seed i))
                 (Qltb (SpawnSvc.c_shiny_roll i) 0.002%Q)
                 (if Qltb (SpawnSvc.c_shiny_roll i) 0.002%Q then "rare" else "common")
                 sp_id data st1 in
             match e with Ok r => (st', r) | Raise => (st', None) end).2 = Some spawn →
            level spawn = randint 1 50 (SpawnSvc.c_level_seed i) ∧
            is_shiny spawn = Qltb (SpawnSvc.c_shiny_roll i) 0.002%Q ∧
            rarity spawn = (if is_shiny spawn then "rare" else "common") ∧
            caught_by spawn = None ∧ caught_at spawn = None) as Hpersist.
  { intros sp_id data st1. unfold SpawnSvc.persist_spawn.
    destruct (SpawnSvc.name_of data); [| done].
    stmt_split; [done |].
    destruct (insert_spawn _ _); [| done].
    cbn [snd]. intros [= <-]. cbn. done. }
  destruct (SpawnSvc._get_cached_pokemon_data catalog 0 _ _) as [st1 data1].
  destruct (SpawnSvc.has_data data1).
  { intros Hsome. split; [done |]. by eapply Hpersist. }
  destruct (SpawnSvc._get_cached_pokemon_data catalog 1 _ _) as [st2 data2].
  destruct (SpawnSvc.has_data data2); [| done].
  intros Hsome. split; [done |]. by eapply Hpersist.
Qed.

(** Two steps of a call taken in a row are the call itself. *)
Lemma fast_serial_run (a b : FastSpawn.CreateIn) (c1 c2 : Z) (st : FastSpawn.State) :
  CreateRace.run CreateRace.step_call [0; 0; 1; 1]%nat
    [CreateRace.Pending a c1; CreateRace.Pending b c2] st
  = ((FastSpawn.create_spawn b c2 (FastSpawn.create_spawn a c1 st).1).1,
     [CreateRace.Returned (FastSpawn.create_spawn a c1 st).2;
      CreateRace.Returned (FastSpawn.create_spawn b c2 (FastSpawn.create_spawn a c1 st).1).2]).
Proof.
  unfold FastSpawn.create_spawn, FastSpawn.create_spawn_body.
  cbn [CreateRace.run lookup list_lookup CreateRace.step_call].
  destruct (FastSpawn.create_check a c1 st) as [ea |]; exn_simpl;
    cbn [CreateRace.run lookup list_lookup CreateRace.step_call insert list_insert
         fst snd];
    [destruct (FastSpawn.create_finish a c1 ea st) as [[st1 ra] |];
     cbn [CreateRace.run lookup list_lookup CreateRace.step_call insert list_insert
          fst snd] |];
    (match goal with
     | |- context [FastSpawn.create_check b c2 ?s] =>
         destruct (FastSpawn.create_check b c2 s) as [eb |]; exn_simpl;
         cbn [CreateRace.run lookup list_lookup CreateRace.step_call insert list_insert
              fst snd];
         [| done];
         by destruct (FastSpawn.create_finish b c2 eb s) as [[st2 rb] |]
     end).
Qed.

Lemma svc_serial_run catalog (a b : SpawnSvc.CreateIn) (c1 c2 : Z) (st : SpawnSvc.State) :
  CreateRace.run CreateRace.svc_step_call [0; 0; 1; 1]%nat
    [CreateRace.SvcPending catalog a c1; CreateRace.SvcPending catalog b c2] st
  = ((SpawnSvc.create_spawn catalog b c2 (SpawnSvc.create_spawn catalog a c1 st).1).1,
     [CreateRace.SvcReturned (SpawnSvc.create_spawn catalog a c1 st).2;
      CreateRace.SvcReturned
        (SpawnSvc.create_spawn catalog b c2 (SpawnSvc.create_spawn catalog a c1 st).1).2]).
Proof.
  unfold SpawnSvc.create_spawn, SpawnSvc.create_spawn_body.
  cbn [CreateRace.run lookup list_lookup CreateRace.svc_step_call].
  destruct (SpawnSvc.create_check a c1 _) as [ea |];
    cbn [CreateRace.run lookup list_lookup CreateRace.svc_step_call insert list_insert
         fst snd];
    [destruct (SpawnSvc.create_finish catalog a c1 ea _) as [st1 [ra |]];
     cbn [CreateRace.run lookup list_lookup CreateRace.svc_step_call insert list_insert
          fst snd] | ];
    (match goal with
     | |- context [SpawnSvc.create_check b c2 ?s] =>
         destruct (SpawnSvc.create_check b c2 s) as [eb |];
         cbn [CreateRace.run lookup list_lookup CreateRace.svc_step_call insert
              list_insert fst snd];
         [| done];
         by destruct (SpawnSvc.create_finish catalog b c2 eb s) as [st2 [rb |]]
     end).
Qed.

(** The SELECT of a call that meets no active spawn of the chat. *)
Lemma fast_check_free (i : FastSpawn.CreateIn) (chat : Z) (st : FastSpawn.State) :
  FastSpawn.c_fault i = None →
  ¬ has_active chat (FastSpawn.c_now_select i) (FastSpawn.db st) →
  FastSpawn.create_check i chat st = Ok None.
Proof.
  intros Hf Hno. unfold FastSpawn.create_check, FastSpawn.select_existing.
  rewrite Hf, stmt_no_fault.
  by rewrite (select_active_head_None _ _ _ (not_has_active _ _ _ Hno)).
Qed.

(** The rest of a call whose SELECT met no active spawn, on whatever the
    store has become. *)
Lemma fast_finish_free (i : FastSpawn.CreateIn) (chat : Z) (st : FastSpawn.State)
    (s : Spawn) :
  FastSpawn.c_fault i = None →
  FastSpawn.new_spawn i chat = Ok s →
  spawns (FastSpawn.db st) !! spawn_id s = None →
  FastSpawn.create_finish i chat None st
  = Ok (FastSpawn.mkState
          (mkDB (<[spawn_id s := s]> (spawns (FastSpawn.db st)))
                (pokemon (FastSpawn.db st)) (users (FastSpawn.db st)))
          (<[chat := FastSpawn.cache_entry_of_new s]> (FastSpawn._spawn_cache st)),
        true).
Proof.
  intros Hf Hnew Hfresh. unfold FastSpawn.create_finish. cbn [from_option].
  rewrite Hnew. exn_simpl. rewrite Hf, stmt_no_fault.
  unfold insert_spawn. by rewrite Hfresh.
Qed.

Lemma svc_check_free (i : SpawnSvc.CreateIn) (chat : Z) (st : SpawnSvc.State) :
  SpawnSvc.c_fault i = None →
  ¬ has_active chat (SpawnSvc.c_utcnow_select i) (SpawnSvc.db st) →
  SpawnSvc.create_check i chat st = Ok None.
Proof.
  intros Hf Hno. unfold SpawnSvc.create_check, SpawnSvc.select_one.
  rewrite Hf, stmt_no_fault.
  by rewrite (select_active_head_None _ _ _ (not_has_active _ _ _ Hno)).
Qed.

Lemma svc_clear_cache_named (i : SpawnSvc.CreateIn) (st : SpawnSvc.State) :
  named_cache st → named_cache (SpawnSvc._clear_cache_if_needed i st).
Proof.
  intros Hnamed. unfold SpawnSvc._clear_cache_if_needed. case_match; [| done].
  intros k data. cbn. by rewrite lookup_empty.
Qed.

Lemma svc_finish_free catalog (i : SpawnSvc.CreateIn) (chat : Z) (st : SpawnSvc.State)
    (data : SpawnSvc.PokemonData) :
  SpawnSvc.c_fault i = None →
  named_cache st →
  catalog 0%nat (randint 1 1010 (SpawnSvc.c_species_seed i)) = Some data →
  named data →
  spawns (SpawnSvc.db st)
    !! SpawnSvc.generate_id "spawn_" (SpawnSvc.c_utcnow_id i) (SpawnSvc.c_id_seeds i)
    = None →
  ∃ species_name st',
    let shiny := Qltb (SpawnSvc.c_shiny_roll i) 0.002%Q in
    let s :=
      mkSpawn (SpawnSvc.c_row_id i)
        (SpawnSvc.generate_id "spawn_" (SpawnSvc.c_utcnow_id i) (SpawnSvc.c_id_seeds i))
        chat species_name (randint 1 1010 (SpawnSvc.c_species_seed i))
        (randint 1 50 (SpawnSvc.c_level_seed i)) shiny
        (if shiny then "rare" else "common")
        (SpawnSvc.c_utcnow i) (SpawnSvc.c_utcnow i + minutes 8) false None None in
    SpawnSvc.create_finish catalog i chat None st = (st', Ok (Some s)) ∧
    SpawnSvc.db st'
    = mkDB (<[spawn_id s := s]> (spawns (SpawnSvc.db st)))
           (pokemon (SpawnSvc.db st)) (users (SpawnSvc.db st)) ∧
    named_cache st'.
Proof.
  intros Hf Hnamed Hcat Hdata Hfresh. cbv zeta.
  unfold SpawnSvc.create_finish. cbn [from_option].
  unfold SpawnSvc._get_cached_pokemon_data.
  destruct (SpawnSvc._pokemon_cache st !! _) as [cached |] eqn:Hcached.
  - destruct (Hnamed _ _ Hcached) as [n Hn].
    rewrite (has_data_named cached n Hn).
    unfold SpawnSvc.persist_spawn, SpawnSvc.name_of. cbn [mbind option_bind].
    rewrite Hn, Hf, stmt_no_fault. unfold insert_spawn. cbn [spawn_id].
    rewrite Hfresh. eexists n, _. done.
  - rewrite Hcat. destruct Hdata as [n Hn].
    rewrite (has_data_named data n Hn). cbv beta iota zeta.
    rewrite (has_data_named data n Hn).
    unfold SpawnSvc.persist_spawn, SpawnSvc.name_of. cbn [mbind option_bind].
    rewrite Hn, Hf, stmt_no_fault. unfold insert_spawn. cbn [spawn_id SpawnSvc.db].
    rewrite Hfresh. eexists n, _. split; [done |]. split; [done |].
    intros k d. cbn [SpawnSvc._pokemon_cache]. rewrite lookup_insert. case_decide.
    + intros [= <-]. by exists n.
    + apply Hnamed.
Qed.

(** X1: [create_spawn] keeps a chat to one active spawn only as long as its
    calls do not overlap.  Two calls for one chat run one after the other
    (the SELECT and the rest of the first, then those of the second) are
    the two calls composed; when the first creates a spawn, that spawn is
    the only active spawn of the chat from the time of its SELECT on, and
    a second call whose SELECT runs before its expiry returns [False]
    (resp. [None]).  When both SELECTs run before either INSERT and meet no
    active spawn, both calls create a spawn (no statement raising, the ids
    new and different, the catalog giving a named record): both return
    [True] (resp. their spawn), the table has both rows, and both are
    active until the first of them expires.  In both services. *)
Theorem create_spawn_one_active_unless_overlapped
    (catalog : nat → Z → option SpawnSvc.PokemonData) (chat : Z)
    (a b : FastSpawn.CreateIn) (st : FastSpawn.State) (sa sb : Spawn)
    (a' b' : SpawnSvc.CreateIn) (sst : SpawnSvc.State)
    (data_a data_b : SpawnSvc.PokemonData) :
  let calls := [CreateRace.Pending a chat; CreateRace.Pending b chat] in
  let serial := CreateRace.run CreateRace.step_call [0; 0; 1; 1]%nat calls st in
  let overlap := CreateRace.run CreateRace.step_call [0; 1; 0; 1]%nat calls st in
  let first := FastSpawn.create_spawn a chat st in
  let calls' := [CreateRace.SvcPending catalog a' chat;
                 CreateRace.SvcPending catalog b' chat] in
  let serial' := CreateRace.run CreateRace.svc_step_call [0; 0; 1; 1]%nat calls' sst in
  let overlap' := CreateRace.run CreateRace.svc_step_call [0; 1; 0; 1]%nat calls' sst in
  let first' := SpawnSvc.create_spawn catalog a' chat sst in
  let id_a := SpawnSvc.generate_id "spawn_" (SpawnSvc.c_utcnow_id a')
                (SpawnSvc.c_id_seeds a') in
  let id_b := SpawnSvc.generate_id "spawn_" (SpawnSvc.c_utcnow_id b')
                (SpawnSvc.c_id_seeds b') in
  (serial = ((FastSpawn.create_spawn b chat first.1).1,
             [CreateRace.Returned first.2;
              CreateRace.Returned (FastSpawn.create_spawn b chat first.1).2])) ∧
  (first.2 = true → FastSpawn.new_spawn a chat = Ok sa →
   spawns (FastSpawn.db first.1) !! spawn_id sa = Some sa ∧
   (∀ t k s', FastSpawn.c_now_select a ≤ t →
              spawns (FastSpawn.db first.1) !! k = Some s' →
              active_in chat t s' = true → s' = sa) ∧
   (FastSpawn.c_now_select b < expires_at sa →
    serial = (first.1, [CreateRace.Returned true; CreateRace.Returned false]))) ∧
  (FastSpawn.c_fault a = None → FastSpawn.c_fault b = None →
   ¬ has_active chat (FastSpawn.c_now_select a) (FastSpawn.db st) →
   ¬ has_active chat (FastSpawn.c_now_select b) (FastSpawn.db st) →
   FastSpawn.new_spawn a chat = Ok sa → FastSpawn.new_spawn b chat = Ok sb →
   spawns (FastSpawn.db st) !! spawn_id sa = None →
   spawns (FastSpawn.db st) !! spawn_id sb = None →
   spawn_id sa ≠ spawn_id sb →
   overlap.2 = [CreateRace.Returned true; CreateRace.Returned true] ∧
   spawns (FastSpawn.db overlap.1)
   = <[spawn_id sb := sb]> (<[spawn_id sa := sa]> (spawns (FastSpawn.db st))) ∧
   spawns (FastSpawn.db overlap.1) !! spawn_id sa = Some sa ∧
   spawns (FastSpawn.db overlap.1) !! spawn_id sb = Some sb ∧
   ∀ t, t < FastSpawn.c_utcnow_expires a + minutes 10 →
        t < FastSpawn.c_utcnow_expires b + minutes 10 →
        active_in chat t sa = true ∧ active_in chat t sb = true) ∧
  (serial' = ((SpawnSvc.create_spawn catalog b' chat first'.1).1,
              [CreateRace.SvcReturned first'.2;
               CreateRace.SvcReturned
                 (SpawnSvc.create_spawn catalog b' chat first'.1).2])) ∧
  (∀ s, first'.2 = Some s →
   spawns (SpawnSvc.db first'.1) !! spawn_id s = Some s ∧
   (∀ t k s', SpawnSvc.c_utcnow_select a' ≤ t →
              spawns (SpawnSvc.db first'.1) !! k = Some s' →
              active_in chat t s' = true → s' = s) ∧
   (SpawnSvc.c_utcnow_select b' < expires_at s →
    serial'.2 = [CreateRace.SvcReturned (Some s); CreateRace.SvcReturned None] ∧
    SpawnSvc.db serial'.1 = SpawnSvc.db first'.1)) ∧
  (SpawnSvc.c_fault a' = None → SpawnSvc.c_fault b' = None →
   ¬ has_active chat (SpawnSvc.c_utcnow_select a') (SpawnSvc.db sst) →
   ¬ has_active chat (SpawnSvc.c_utcnow_select b') (SpawnSvc.db sst) →
   named_cache sst →
   catalog 0%nat (randint 1 1010 (SpawnSvc.c_species_seed a')) = Some data_a →
   catalog 0%nat (randint 1 1010 (SpawnSvc.c_species_seed b')) = Some data_b →
   named data_a → named data_b →
   spawns (SpawnSvc.db sst) !! id_a = None →
   spawns (SpawnSvc.db sst) !! id_b = None →
   id_a ≠ id_b →
   ∃ sa' sb',
     overlap'.2 = [CreateRace.SvcReturned (Some sa'); CreateRace.SvcReturned (Some sb')] ∧
     spawn_id sa' = id_a ∧ spawn_id sb' = id_b ∧
     spawns (SpawnSvc.db overlap'.1)
     = <[id_b := sb']> (<[id_a := sa']> (spawns (SpawnSvc.db sst))) ∧
     spawns (SpawnSvc.db overlap'.1) !! id_a = Some sa' ∧
     spawns (SpawnSvc.db overlap'.1) !! id_b = Some sb' ∧
     ∀ t, t < SpawnSvc.c_utcnow a' + minutes 8 →
          t < SpawnSvc.c_utcnow b' + minutes 8 →
          active_in chat t sa' = true ∧ active_in chat t sb' = true).
Proof.
  cbv zeta. split_and!.
  - apply fast_serial_run.
  - intros Hcreated Hnew.
    destruct (fast_create_true_inv a chat st Hcreated) as (s & Hnew' & Hfresh & Hnone & Hst).
    assert (s = sa) as -> by congruence.
    destruct (fast_new_spawn_payload a chat sa Hnew) as (Hchat & _ & _ & _ & _ & Hc & _).
    assert (spawns (FastSpawn.db (FastSpawn.create_spawn a chat st).1) !! spawn_id sa
            = Some sa) as Hrow.
    { rewrite Hst. cbn [FastSpawn.db spawns]. by rewrite lookup_insert_eq. }
    split; [done |]. split.
    + intros t k s' Ht Hk Hact. rewrite Hst in Hk. cbn [FastSpawn.db spawns] in Hk.
      rewrite lookup_insert in Hk. case_decide; [congruence |].
      by rewrite (old_rows_inactive_later chat _ t _ k s' Hnone Ht Hk) in Hact.
    + intros Hexp. rewrite fast_serial_run.
      rewrite (fast_create_when_active b chat _ (spawn_id sa) sa Hrow Hchat Hc Hexp).
      cbn [fst snd]. by rewrite Hcreated.
  - intros Hfa Hfb Hna Hnb Hsa Hsb Hfra Hfrb Hne.
    cbn [CreateRace.run lookup list_lookup CreateRace.step_call].
    rewrite (fast_check_free a chat st Hfa Hna).
    cbn [CreateRace.run lookup list_lookup CreateRace.step_call insert list_insert].
    rewrite (fast_check_free b chat st Hfb Hnb).
    cbn [CreateRace.run lookup list_lookup CreateRace.step_call insert list_insert].
    rewrite (fast_finish_free a chat st sa Hfa Hsa Hfra).
    cbn [CreateRace.run lookup list_lookup CreateRace.step_call insert list_insert].
    rewrite (fast_finish_free b chat _ sb Hfb Hsb);
      [| cbn [FastSpawn.db spawns]; by rewrite lookup_insert_ne].
    cbn [CreateRace.run lookup list_lookup CreateRace.step_call insert list_insert
         fst snd FastSpawn.db spawns].
    destruct (fast_new_spawn_payload a chat sa Hsa)
      as (Hchat_a & _ & _ & _ & _ & Hc_a & _ & _ & Hexp_a).
    destruct (fast_new_spawn_payload b chat sb Hsb)
      as (Hchat_b & _ & _ & _ & _ & Hc_b & _ & _ & Hexp_b).
    split; [done |]. split; [done |].
    split; [by rewrite lookup_insert_ne, lookup_insert_eq |].
    split; [by rewrite lookup_insert_eq |].
    intros t Hta Htb. split; apply active_in_spec; repeat split; try done; lia.
  - apply svc_serial_run.
  - intros s Hsome.
    destruct (svc_create_some_inv catalog a' chat sst s Hsome) as (Hnone & _).
    pose proof (svc_create_cases catalog a' chat sst) as Hcases. cbv zeta in Hcases.
    destruct Hcases as [[Hn _] | (s0 & Hs0 & Hdb & Hfresh & Hchat & Hc & _)];
      [congruence |].
    assert (s0 = s) as -> by congruence.
    assert (spawns (SpawnSvc.db (SpawnSvc.create_spawn catalog a' chat sst).1)
              !! spawn_id s = Some s) as Hrow.
    { rewrite Hdb. cbn [spawns]. by rewrite lookup_insert_eq. }
    split; [done |]. split.
    + intros t k s' Ht Hk Hact. rewrite Hdb in Hk. cbn [spawns] in Hk.
      rewrite lookup_insert in Hk. case_decide; [congruence |].
      by rewrite (old_rows_inactive_later chat _ t _ k s' Hnone Ht Hk) in Hact.
    + intros Hexp. rewrite svc_serial_run.
      rewrite (svc_create_when_active catalog b' chat
                 (SpawnSvc.create_spawn catalog a' chat sst).1)
        by (exists (spawn_id s), s; done).
      cbn [fst snd]. rewrite Hsome. split; [done |]. apply svc_clear_cache_db.
  - intros Hfa Hfb Hna Hnb Hnamed Hca Hcb Hda Hdb Hfra Hfrb Hne.
    cbn [CreateRace.run lookup list_lookup CreateRace.svc_step_call].
    rewrite (svc_check_free a' chat _ Hfa) by (by rewrite svc_clear_cache_db).
    cbn [CreateRace.run lookup list_lookup CreateRace.svc_step_call insert list_insert].
    rewrite (svc_check_free b' chat _ Hfb) by (by rewrite !svc_clear_cache_db).
    cbn [CreateRace.run lookup list_lookup CreateRace.svc_step_call insert list_insert].
    set (st0 := SpawnSvc._clear_cache_if_needed b' (SpawnSvc._clear_cache_if_needed a' sst)).
    assert (SpawnSvc.db st0 = SpawnSvc.db sst) as Hdb0
      by (unfold st0; by rewrite !svc_clear_cache_db).
    assert (named_cache st0) as Hnamed0
      by (unfold st0; by do 2 apply svc_clear_cache_named).
    destruct (svc_finish_free catalog a' chat st0 data_a Hfa Hnamed0 Hca Hda)
      as (na & st1 & Hfin1 & Hdb1 & Hnamed1); [by rewrite Hdb0 |].
    cbv zeta in Hfin1, Hdb1. rewrite Hfin1.
    cbn [CreateRace.run lookup list_lookup CreateRace.svc_step_call insert list_insert].
    destruct (svc_finish_free catalog b' chat st1 data_b Hfb Hnamed1 Hcb Hdb)
      as (nb & st2 & Hfin2 & Hdb2 & _).
    { rewrite Hdb1. cbn [spawns spawn_id]. by rewrite lookup_insert_ne, Hdb0. }
    cbv zeta in Hfin2, Hdb2. rewrite Hfin2.
    cbn [CreateRace.run lookup list_lookup CreateRace.svc_step_call insert list_insert
         fst snd].
    eexists _, _. split; [done |]. cbn [spawn_id].
    split; [done |]. split; [done |].
    rewrite Hdb2, Hdb1, Hdb0. cbn [spawns spawn_id].
    split; [done |].
    split; [by rewrite lookup_insert_ne, lookup_insert_eq |].
    split; [by rewrite lookup_insert_eq |].
    intros t Hta Htb. split; apply active_in_spec; cbn; repeat split; try done; lia.
Qed.

Lemma create_spawn_one_active_unless_overlapped_witness :
  let a := FastSpawn.mkCreateIn None 0 0 0 0 0.5 0 0 0 0 0 2 in
  let b := FastSpawn.mkCreateIn None 0 1 1 1 0.5 1 0 1 0 0 3 in
  let calls := [CreateRace.Pending a 7; CreateRace.Pending b 7] in
  let a' := SpawnSvc.mkCreateIn None 0 0 0 0 0 0.5 0 0 (fun _ => 0) 0 2 in
  let b' := SpawnSvc.mkCreateIn None 0 0 0 0 0 0.5 0 0 (fun _ => 1) 0 3 in
  let calls' := [CreateRace.SvcPending Ex.bulbasaur_only a' 9;
                 CreateRace.SvcPending Ex.bulbasaur_only b' 9] in
  let sst := SpawnSvc.mkState (mkDB ∅ ∅ ∅) ∅ 0 in
  (CreateRace.run CreateRace.step_call [0; 0; 1; 1]%nat calls Ex.empty).2
  = [CreateRace.Returned true; CreateRace.Returned false] ∧
  (CreateRace.run CreateRace.step_call [0; 1; 0; 1]%nat calls Ex.empty).2
  = [CreateRace.Returned true; CreateRace.Returned true] ∧
  size (spawns (FastSpawn.db
          (CreateRace.run CreateRace.step_call [0; 1; 0; 1]%nat calls Ex.empty).1))
  = 2%nat ∧
  (∃ s, (CreateRace.run CreateRace.svc_step_call [0; 0; 1; 1]%nat calls' sst).2
        = [CreateRace.SvcReturned (Some s); CreateRace.SvcReturned None]) ∧
  ∃ sa sb, (CreateRace.run CreateRace.svc_step_call [0; 1; 0; 1]%nat calls' sst).2
           = [CreateRace.SvcReturned (Some sa); CreateRace.SvcReturned (Some sb)] ∧
           spawn_id sa ≠ spawn_id sb.
Proof.
  cbv zeta.
  set (a := FastSpawn.mkCreateIn None 0 0 0 0 0.5 0 0 0 0 0 2).
  set (b := FastSpawn.mkCreateIn None 0 1 1 1 0.5 1 0 1 0 0 3).
  set (a' := SpawnSvc.mkCreateIn None 0 0 0 0 0 0.5 0 0 (fun _ => 0) 0 2).
  set (b' := SpawnSvc.mkCreateIn None 0 0 0 0 0 0.5 0 0 (fun _ => 1) 0 3).
  set (sst := SpawnSvc.mkState (mkDB ∅ ∅ ∅) ∅ 0).
  set (sa := mkSpawn 2 "spawn_0_1000" 7 "pikachu" 1 1 false "common" 0 (minutes 10)
               false None None).
  set (sb := mkSpawn 3 "spawn_0_1001" 7 "charizard" 2 2 false "uncommon" 0 (minutes 10)
               false None None).
  assert (∀ chat t, ¬ has_active chat t (mkDB ∅ ∅ ∅)) as Hempty.
  { intros chat t (k & s & Hk & _). cbn in Hk. by rewrite lookup_empty in Hk. }
  assert (named_cache sst) as Hnamed.
  { intros k d Hk. cbn in Hk. by rewrite lookup_empty in Hk. }
  assert (named ({[ "name" := "bulbasaur" ]} : SpawnSvc.PokemonData)) as Hbulb.
  { by exists "bulbasaur". }
  destruct (create_spawn_one_active_unless_overlapped Ex.bulbasaur_only 7
              a b Ex.empty sa sb a' b' sst {[ "name" := "bulbasaur" ]}
              {[ "name" := "bulbasaur" ]})
    as (_ & Hserial & Hoverlap & _ & _ & _).
  destruct (create_spawn_one_active_unless_overlapped Ex.bulbasaur_only 9
              a b Ex.empty sa sb a' b' sst {[ "name" := "bulbasaur" ]}
              {[ "name" := "bulbasaur" ]})
    as (_ & _ & _ & _ & Hserial' & Hoverlap').
  cbv zeta in Hserial, Hoverlap, Hserial', Hoverlap'.
  destruct (Hserial eq_refl eq_refl) as (_ & _ & Hsecond).
  destruct (Hoverlap eq_refl eq_refl (Hempty _ _) (Hempty _ _) eq_refl eq_refl
              eq_refl eq_refl) as (Hboth & Hrows & _); [vm_compute; congruence |].
  split; [by rewrite Hsecond by (vm_compute; reflexivity) |].
  split; [exact Hboth |].
  split; [rewrite Hrows; vm_compute; reflexivity |].
  split.
  - destruct (Hserial' _ eq_refl) as (_ & _ & Hsecond').
    destruct Hsecond' as [Hret _]; [vm_compute; reflexivity |]. eexists. exact Hret.
  - destruct (Hoverlap' eq_refl eq_refl (Hempty _ _) (Hempty _ _) Hnamed eq_refl eq_refl
                Hbulb Hbulb eq_refl eq_refl) as (sa' & sb' & Hret & Hida & Hidb & _);
      [vm_compute; congruence |].
    exists sa', sb'. split; [exact Hret |]. rewrite Hida, Hidb. vm_compute. congruence.
Defined.

(** X2: the payload of a created spawn.  [RawSQLSpawnService] draws the
    species name from its list of forty names, a species id between 1 and
    800 and a level between 1 and 50; the rarity is "legendary" exactly
    when the spawn is shiny, and one of "common", "uncommon", "rare"
    otherwise.  [SpawnService] draws a level between 1 and 50 and a species
    id between 1 and 1010; the rarity is "rare" when shiny and "common"
    otherwise.  In both the spawn is inserted uncaught, without catcher. *)
Theorem created_spawn_payload
    (catalog : nat → Z → option SpawnSvc.PokemonData) (chat : Z)
    (fi : FastSpawn.CreateIn) (st : FastSpawn.State)
    (si : SpawnSvc.CreateIn) (sst : SpawnSvc.State) :
  ((FastSpawn.create_spawn fi chat st).2 = true →
   ∃ s, spawns (FastSpawn.db (FastSpawn.create_spawn fi chat st).1)
        = <[spawn_id s := s]> (spawns (FastSpawn.db st)) ∧
        species s ∈ FastSpawn._pokemon_names ∧
        1 ≤ species_id s ≤ 800 ∧ 1 ≤ level s ≤ 50 ∧
        (if is_shiny s then rarity s = "legendary"
         else rarity s ∈ ["common"; "uncommon"; "rare"]) ∧
        is_caught s = false ∧ caught_by s = None ∧ caught_at s = None) ∧
  (∀ s, (SpawnSvc.create_spawn catalog si chat sst).2 = Some s →
        spawns (SpawnSvc.db (SpawnSvc.create_spawn catalog si chat sst).1)
        = <[spawn_id s := s]> (spawns (SpawnSvc.db sst)) ∧
        1 ≤ species_id s ≤ 1010 ∧ 1 ≤ level s ≤ 50 ∧
        rarity s = (if is_shiny s then "rare" else "common") ∧
        is_caught s = false ∧ caught_by s = None ∧ caught_at s = None).
Proof.
  split.
  - intros Hcreated.
    destruct (fast_create_true_inv fi chat st Hcreated) as (s & Hnew & _ & _ & ->).
    destruct (fast_new_spawn_payload fi chat s Hnew)
      as (_ & Hname & Hid & Hlvl & Hrar & Hc & Hby & Hat & _).
    exists s. done.
  - intros s Hsome.
    destruct (svc_create_some_inv catalog si chat sst s Hsome)
      as (_ & Hlvl & _ & Hrar & Hby & Hat).
    pose proof (svc_create_cases catalog si chat sst) as Hcases. cbv zeta in Hcases.
    destruct Hcases as [[Hn _] | (s0 & Hs0 & Hdb & _ & _ & Hc & _ & _ & Hsrc)];
      [congruence |].
    assert (s0 = s) as -> by congruence.
    rewrite Hdb, Hlvl. cbn [spawns].
    pose proof (randint_range 1 50 (SpawnSvc.c_level_seed si) ltac:(lia)).
    pose proof (randint_range 1 1010 (SpawnSvc.c_species_seed si) ltac:(lia)).
    pose proof (randint_range 1 151 (SpawnSvc.c_fallback_seed si) ltac:(lia)).
    assert (1 ≤ species_id s ≤ 1010) as Hid
      by (destruct Hsrc as [(_ & -> & _) | (_ & _ & -> & _)]; lia).
    repeat split; try done; lia.
Qed.

Lemma created_spawn_payload_witness :
  (FastSpawn.create_spawn (Ex.fast_create (minutes 11) 0) 7 Ex.fresh).2 = true ∧
  (∃ s, spawns (FastSpawn.db
                  (FastSpawn.create_spawn (Ex.fast_create (minutes 11) 0) 7 Ex.fresh).1)
        = <[spawn_id s := s]> (spawns Ex.store) ∧ 1 ≤ level s ≤ 50) ∧
  ∃ s, (SpawnSvc.create_spawn Ex.bulbasaur_only (Ex.svc_create (minutes 11) 0) 7
          Ex.svc_fresh).2 = Some s ∧ 1 ≤ level s ≤ 50.
Proof.
  destruct (created_spawn_payload Ex.bulbasaur_only 7
              (Ex.fast_create (minutes 11) 0) Ex.fresh
              (Ex.svc_create (minutes 11) 0) Ex.svc_fresh) as [Hfast Hsvc].
  split; [reflexivity |]. split.
  - destruct (Hfast eq_refl) as (s & Hs & _ & _ & Hlvl & _). exists s.
    split; [exact Hs | exact Hlvl].
  - eexists. split; [reflexivity |].
    destruct (Hsvc _ eq_refl) as (_ & _ & Hlvl & _). exact Hlvl.
Defined.

(** ** Re-reading the active spawn *)

(** X3: once [RawSQLSpawnService.get_active_spawn] has returned a spawn
    for a chat, a second call returns the same spawn, at whatever time it
    is made, whether or not the store fails and whatever has happened to
    the store in between: it is answered from the cache alone.  Only the
    image URL is looked up again: the entry returned and written back to
    the cache is the first one with the URL the sprite service answers at
    the second call ([None] when it raises), all other fields being as
    they were; when that answer is the URL of the first call, the entry is
    the very same and the service is unchanged. *)
Theorem get_active_spawn_is_sticky
    (sprite1 sprite2 : Z → bool → exn (option string)) (f1 : option nat)
    (t1 : datetime) (chat : Z) (st : FastSpawn.State) (data : FastSpawn.SpawnData) :
  (FastSpawn.get_active_spawn sprite1 f1 t1 chat st).2 = Some data →
  ∀ (f2 : option nat) (t2 : datetime) (d' : DB),
    let cache1 :=
      FastSpawn._spawn_cache (FastSpawn.get_active_spawn sprite1 f1 t1 chat st).1 in
    let url2 :=
      FastSpawn.image_url_of sprite2 (default 1 (FastSpawn.d_species_id data))
        (FastSpawn.d_is_shiny data) in
    let data2 :=
      FastSpawn.mkSpawnData (FastSpawn.d_spawn_id data) (FastSpawn.d_species data)
        (FastSpawn.d_species_id data) (FastSpawn.d_level data)
        (FastSpawn.d_is_shiny data) (FastSpawn.d_rarity data)
        (FastSpawn.d_spawned_at data) (Some url2) in
    FastSpawn.get_active_spawn sprite2 f2 t2 chat (FastSpawn.mkState d' cache1)
    = (FastSpawn.mkState d' (<[chat := data2]> cache1), Some data2) ∧
    (FastSpawn.d_image_url data = Some url2 →
     FastSpawn.get_active_spawn sprite2 f2 t2 chat (FastSpawn.mkState d' cache1)
     = (FastSpawn.mkState d' cache1, Some data)).
Proof.
  intros Hfirst f2 t2 d'. cbv zeta.
  assert (FastSpawn._spawn_cache (FastSpawn.get_active_spawn sprite1 f1 t1 chat st).1
          = <[chat := data]> (FastSpawn._spawn_cache st)) as Hcache.
  { revert Hfirst. unfold FastSpawn.get_active_spawn.
    destruct (FastSpawn._spawn_cache st !! chat) as [cached |].
    - cbn [fst snd]. intros [= <-]. done.
    - stmt_split; [done |].
      destruct (FastSpawn.select_active chat t1 (FastSpawn.db st)) as [row |]; [| done].
      cbn [fst snd]. intros [= <-]. done. }
  rewrite Hcache. unfold FastSpawn.get_active_spawn.
  cbn [FastSpawn._spawn_cache FastSpawn.db]. rewrite lookup_insert_eq.
  unfold FastSpawn.with_image_url. split; [done |].
  intros Hurl. rewrite <- Hurl, insert_insert_eq. by destruct data.
Qed.

Lemma get_active_spawn_is_sticky_witness :
  let first := FastSpawn.get_active_spawn Ex.no_sprite None (minutes 1) 7 Ex.fresh in
  let sprite2 : Z → bool → exn (option string) := fun _ _ => Ok (Some "pikachu.png") in
  is_Some first.2 ∧
  FastSpawn.d_spawn_id <$>
    (FastSpawn.get_active_spawn sprite2 (Some 0%nat) (minutes 30) 7
       (FastSpawn.mkState (mkDB ∅ ∅ ∅) (FastSpawn._spawn_cache first.1))).2
  = Some "spawn_0_1234" ∧
  FastSpawn.d_image_url <$>
    (FastSpawn.get_active_spawn sprite2 (Some 0%nat) (minutes 30) 7
       (FastSpawn.mkState (mkDB ∅ ∅ ∅) (FastSpawn._spawn_cache first.1))).2
  = Some (Some (Some "pikachu.png")) ∧
  FastSpawn.d_image_url <$> first.2 = Some (Some None).
Proof.
  cbv zeta. split; [by eexists |].
  destruct (get_active_spawn_is_sticky Ex.no_sprite (fun _ _ => Ok (Some "pikachu.png"))
              None (minutes 1) 7 Ex.fresh _ eq_refl
              (Some 0%nat) (minutes 30) (mkDB ∅ ∅ ∅)) as [Hsecond _].
  cbv zeta in Hsecond. rewrite Hsecond. repeat split; reflexivity.
Defined.

(** ** The manual spawn handler as a whole *)

Lemma spawn_handler_channels
    (ADMIN_IDS : list Z) (sprite : Z → bool → exn (option string))
    (i : Handler.HandlerIn) (uid chat : Z) (st : Handler.State) :
  Scheduler.active_channels (Handler.sched (Handler.spawn_handler ADMIN_IDS sprite i uid chat st).1)
  = {[chat]} ∪ Scheduler.active_channels (Handler.sched st).
Proof.
  unfold Handler.spawn_handler.
  destruct (Handler.cooldown_step _ _ _ _) as [m [r |]]; [done |].
  destruct (FastSpawn.get_active_spawn _ _ _ _ _) as [svc1 [active |]]; [done |].
  destruct (FastSpawn.create_spawn _ _ _) as [svc2 []]; cbn [negb]; [| done].
  by destruct (FastSpawn.get_active_spawn _ _ _ _ _) as [svc3 [spawn |]].
Qed.

Lemma fast_create_true_cached (i : FastSpawn.CreateIn) (chat : Z) (st : FastSpawn.State) :
  (FastSpawn.create_spawn i chat st).2 = true →
  ∃ s, spawns (FastSpawn.db (FastSpawn.create_spawn i chat st).1) !! spawn_id s = Some s ∧
       chat_id s = chat ∧ is_caught s = false ∧
       FastSpawn._spawn_cache (FastSpawn.create_spawn i chat st).1 !! chat
       = Some (FastSpawn.cache_entry_of_new s).
Proof.
  intros Hcreated.
  destruct (fast_create_true_inv i chat st Hcreated) as (s & Hnew & _ & _ & ->).
  destruct (fast_new_spawn_payload i chat s Hnew) as (Hchat & _ & _ & _ & _ & Hc & _).
  exists s. cbn. by rewrite !lookup_insert_eq.
Qed.

(** X4: whatever the inputs, [spawn_handler] registers the chat for
    automatic spawning (also when the cooldown blocks the request), and it
    never answers "Spawn Creation Error": after a successful [create_spawn]
    the spawn is read back from the cache that [create_spawn] has just
    filled.  The spawn it announces as created is a row of the store, of
    this chat and not caught, with the announced species and level. *)
Theorem spawn_handler_registers_and_reads_back
    (ADMIN_IDS : list Z) (sprite : Z → bool → exn (option string))
    (i : Handler.HandlerIn) (uid chat : Z) (st : Handler.State) :
  let out := Handler.spawn_handler ADMIN_IDS sprite i uid chat st in
  chat ∈ Scheduler.active_channels (Handler.sched out.1) ∧
  out.2 ≠ Handler.SpawnCreationError ∧
  (∀ data, out.2 = Handler.SpawnedSuccessfully data →
     ∃ s, spawns (FastSpawn.db (Scheduler.svc (Handler.sched out.1)))
            !! FastSpawn.d_spawn_id data = Some s ∧
          chat_id s = chat ∧ is_caught s = false ∧
          FastSpawn.d_species data = species s ∧
          FastSpawn.d_level data = level s).
Proof.
  cbv zeta. split.
  { rewrite spawn_handler_channels. set_solver. }
  unfold Handler.spawn_handler.
  destruct (Handler.cooldown_step _ _ _ _) as [m [r |]]; [done |].
  destruct (FastSpawn.get_active_spawn _ _ _ _ _) as [svc1 [active |]]; [done |].
  pose proof (fast_create_true_cached (Handler.h_create i) chat svc1) as Hcached.
  destruct (FastSpawn.create_spawn _ _ _) as [svc2 []]; cbn [negb fst snd] in *; [| done].
  destruct Hcached as (s & Hs & Hchat & Hc & Hentry); [done |].
  unfold FastSpawn.get_active_spawn. rewrite Hentry. cbn [fst snd].
  split; [done |]. intros data [= <-]. exists s. done.
Qed.

(** X5: when the cache has an entry for the chat, [spawn_handler] never
    creates a spawn: unless the cooldown blocks the request it answers
    "Wild Pokemon Spotted" with the cached entry, whatever the clock and the
    store say about that spawn, and the store is left as it was. *)
Theorem spawn_handler_shows_cached_spawn
    (ADMIN_IDS : list Z) (sprite : Z → bool → exn (option string))
    (i : Handler.HandlerIn) (uid chat : Z) (st : Handler.State)
    (cached : FastSpawn.SpawnData) :
  FastSpawn._spawn_cache (Scheduler.svc (Handler.sched st)) !! chat = Some cached →
  let out := Handler.spawn_handler ADMIN_IDS sprite i uid chat st in
  FastSpawn.db (Scheduler.svc (Handler.sched out.1))
  = FastSpawn.db (Scheduler.svc (Handler.sched st)) ∧
  ((∃ remaining, out.2 = Handler.CooldownActive remaining) ∨
   out.2 = Handler.WildSpotted
             (FastSpawn.with_image_url cached
                (FastSpawn.image_url_of sprite
                   (default 1 (FastSpawn.d_species_id cached))
                   (FastSpawn.d_is_shiny cached)))).
Proof.
  intros Hcached. cbv zeta. unfold Handler.spawn_handler.
  destruct (Handler.cooldown_step _ _ _ _) as [m [r |]]; [eauto |].
  unfold FastSpawn.get_active_spawn.
  cbn [Handler.sched Scheduler.svc Scheduler.register_channel].
  rewrite Hcached. cbn. eauto.
Qed.

Lemma spawn_handler_shows_cached_spawn_witness :
  let svc := (FastSpawn.create_spawn (Ex.fast_create 0 0) 7 Ex.empty).1 in
  let st := Handler.mkState (Scheduler.mkState ∅ false svc) ∅ in
  let i := Handler.mkHandlerIn 660%Q None (minutes 11) (Ex.fast_create (minutes 11) 1)
             None (minutes 11) in
  is_Some (FastSpawn._spawn_cache svc !! 7) ∧
  FastSpawn.select_active 7 (minutes 11) (FastSpawn.db svc) = None ∧
  ∃ data, (Handler.spawn_handler [1] Ex.no_sprite i 5 7 st).2 = Handler.WildSpotted data ∧
          FastSpawn.d_spawn_id data = "spawn_0_1000".
Proof.
  cbv zeta. split; [by eexists |]. split; [reflexivity |].
  destruct (spawn_handler_shows_cached_spawn [1] Ex.no_sprite
              (Handler.mkHandlerIn 660%Q None (minutes 11) (Ex.fast_create (minutes 11) 1)
                 None (minutes 11)) 5 7
              (Handler.mkState
                 (Scheduler.mkState ∅ false
                    (FastSpawn.create_spawn (Ex.fast_create 0 0) 7 Ex.empty).1) ∅)
              _ eq_refl) as [_ [[r Hr] | Hw]].
  - vm_compute in Hr. discriminate.
  - eexists. split; [exact Hw | reflexivity].
Defined.

(** ** What a capture writes *)

Lemma fast_catch_success_state (i : FastSpawn.CatchIn) (sid : string) (uid : Z)
    (st : FastSpawn.State) :
  (FastSpawn.catch_spawn i sid uid st).2.1 = true →
  ∃ s, spawns (FastSpawn.db st) !! sid = Some s ∧
       is_caught s = false ∧
       FastSpawn.k_now i < expires_at s ∧
       pokemon (FastSpawn.db st) !! pokemon_id (FastSpawn.new_pokemon i uid s) = None ∧
       FastSpawn.catch_spawn i sid uid st
       = (FastSpawn.mkState
            (mkDB (<[sid := mark_caught s uid (FastSpawn.k_now i)]>
                     (spawns (FastSpawn.db st)))
                  (<[pokemon_id (FastSpawn.new_pokemon i uid s) :=
                       FastSpawn.new_pokemon i uid s]> (pokemon (FastSpawn.db st)))
                  (<[uid := FastSpawn.reward_user (level s * 10)
                              (level s * 5 + (if is_shiny s then 100 else 0))
                              (default new_trainer (users (FastSpawn.db st) !! uid))]>
                     (users (FastSpawn.db st))))
            (delete (chat_id s) (FastSpawn._spawn_cache st)),
          (true, FastSpawn.caught_message s)).
Proof.
  intros Hr.
  destruct (fast_catch_success i sid uid st Hr)
    as (s & Hs & Hc & Hexp & Hroll & Hmsg & Hsp & Hfresh & Hpk & Hcache).
  exists s. repeat split; try done.
  revert Hr Hmsg Hsp Hpk Hcache.
  unfold FastSpawn.catch_spawn, FastSpawn.catch_spawn_body.
  stmt_split; exn_simpl; [done |].
  unfold FastSpawn.catch_resolve, FastSpawn.select_unexpired.
  rewrite Hs. apply Z.ltb_lt in Hexp. rewrite Hexp, Hc.
  apply Qltb_lt in Hroll. rewrite Hroll.
  repeat (stmt_split; exn_simpl; [done |]).
  destruct (insert_pokemon _ _) as [d3 |] eqn:Hins; exn_simpl; [| done].
  stmt_split; exn_simpl; [done |].
  stmt_split; [done |].
  cbn [fst snd]. intros _ _ Hsp Hpk _.
  f_equal. f_equal.
  assert (users d3
          = users (FastSpawn.ensure_user uid
                     (update_spawn_caught sid uid (FastSpawn.k_now i) (FastSpawn.db st))))
    as Hu3.
  { unfold insert_pokemon in Hins.
    destruct (pokemon _ !! _) in Hins; [discriminate |]. by injection Hins as <-. }
  cbn [FastSpawn.db spawns pokemon users FastSpawn.update_user_stats] in *.
  unfold FastSpawn.update_user_stats. rewrite Hsp, Hpk. f_equal.
  rewrite Hu3. unfold FastSpawn.ensure_user, new_trainer.
  cbn [users update_spawn_caught].
  destruct (users (FastSpawn.db st) !! uid) as [u |] eqn:Hu; cbn [users default].
  - apply map_eq. intros k. rewrite lookup_alter, lookup_insert.
    unfold update_spawn_caught. cbn [users].
    case_decide; subst; by rewrite ?Hu.
  - apply map_eq. intros k. rewrite lookup_alter, !lookup_insert.
    unfold update_spawn_caught. cbn [users].
    repeat case_decide; subst; done.
Qed.

Lemma svc_catch_success_state (i : SpawnSvc.CatchIn) (sid : string) (uid : Z) (d : DB) :
  (SpawnSvc.catch_spawn i sid uid d).2.1 = true →
  ∃ s, let pid := SpawnSvc.generate_id "poke_" (SpawnSvc.k_utcnow_id i)
                    (SpawnSvc.k_id_seeds i) in
       spawns d !! sid = Some s ∧ is_caught s = false ∧
       pokemon d !! pid = None ∧
       SpawnSvc.catch_spawn i sid uid d
       = (mkDB (<[sid := mark_caught s uid (SpawnSvc.k_utcnow_caught i)]> (spawns d))
               (<[pid := SpawnSvc.new_pokemon i pid uid s]> (pokemon d))
               (alter (SpawnSvc.reward_user (level s * 10)) uid (users d)),
          (true, pid)).
Proof.
  intros Hr.
  destruct (svc_catch_success i sid uid d Hr)
    as (s & Hs & Hc & Hexp & Hroll & Hmsg & Hsp & Hfresh & Hpk).
  exists s. cbv zeta. repeat split; try done.
  revert Hr Hmsg Hsp Hpk.
  unfold SpawnSvc.catch_spawn, SpawnSvc.catch_spawn_body.
  stmt_split; exn_simpl; [done |].
  unfold SpawnSvc.catch_resolve.
  rewrite Hs, Hc. apply Z.ltb_ge in Hexp. rewrite Hexp.
  apply Qltb_ge in Hroll. rewrite Hroll.
  repeat (stmt_split; exn_simpl; [done |]).
  destruct (insert_pokemon _ _) as [d2 |] eqn:Hins; exn_simpl; [| done].
  stmt_split; exn_simpl; [done |].
  stmt_split; exn_simpl; [done |].
  cbn [fst snd]. intros _ _ Hsp Hpk.
  f_equal.
  assert (users d2 = users d) as Hu2.
  { unfold insert_pokemon in Hins.
    destruct (pokemon _ !! _) in Hins; [discriminate |]. by injection Hins as <-. }
  unfold SpawnSvc.update_user_stats in *. cbn [spawns pokemon users] in *.
  by rewrite Hsp, Hpk, Hu2.
Qed.

(** X6: a successful [RawSQLSpawnService.catch_spawn] leaves the catcher
    with a row in [users] whose [pokemon_caught] and [total_pokemon] are
    one more, whose experience is [level * 10] more and whose coins are
    [level * 5] more (and 100 more still for a shiny spawn) than before, a
    user without row starting as a trainer with 1000 coins; the rows of
    all other users are as they were. *)
Theorem fast_capture_rewards_the_catcher
    (i : FastSpawn.CatchIn) (sid : string) (uid : Z) (st : FastSpawn.State) :
  (FastSpawn.catch_spawn i sid uid st).2.1 = true →
  ∃ s u,
    let before := default new_trainer (users (FastSpawn.db st) !! uid) in
    let after := users (FastSpawn.db (FastSpawn.catch_spawn i sid uid st).1) in
    spawns (FastSpawn.db st) !! sid = Some s ∧
    after !! uid = Some u ∧
    pokemon_caught u = pokemon_caught before + 1 ∧
    total_pokemon u = total_pokemon before + 1 ∧
    experience u = experience before + level s * 10 ∧
    coins u = coins before + level s * 5 + (if is_shiny s then 100 else 0) ∧
    u_level u = u_level before ∧ username u = username before ∧
    ∀ other, other ≠ uid → after !! other = users (FastSpawn.db st) !! other.
Proof.
  intros Hr.
  destruct (fast_catch_success_state i sid uid st Hr) as (s & Hs & _ & _ & _ & ->).
  exists s. eexists. cbv zeta. cbn [fst FastSpawn.db users].
  rewrite lookup_insert_eq. split; [done |]. split; [done |].
  cbn. repeat split; try lia.
  intros other Hne. by rewrite lookup_insert_ne.
Qed.

Lemma fast_capture_rewards_the_catcher_witness :
  let out := FastSpawn.catch_spawn (Ex.fast_call (minutes 1) 0.5 1)
               "spawn_0_1234" 101 Ex.fresh in
  out.2.1 = true ∧
  ∃ u, users (FastSpawn.db out.1) !! 101 = Some u ∧
       coins u = 1025 ∧ experience u = 50 ∧ pokemon_caught u = 1.
Proof.
  cbv zeta. split; [reflexivity |].
  destruct (fast_capture_rewards_the_catcher (Ex.fast_call (minutes 1) 0.5 1)
              "spawn_0_1234" 101 Ex.fresh eq_refl)
    as (s & u & Hs & Hu & Hcaught & _ & Hexp & Hcoins & _).
  exists u. split; [exact Hu |].
  assert (s = Ex.pikachu) as -> by (apply (inj Some); symmetry; exact Hs).
  split; [exact Hcoins |]. split; [exact Hexp | exact Hcaught].
Defined.

(** X7: a successful capture marks the spawn row caught by the catcher at
    the time of the call and changes no other field nor any other spawn;
    it adds exactly one row to [pokemon], owned by the catcher, with the
    species, level, shininess and rarity of the spawn and the stats the
    service derives from the level: hp [3 * level + 50] and the five other
    stats [2 * level + 30] in [RawSQLSpawnService], hp [2 * level + 100]
    and [2 * level + 50] in [SpawnService]. *)
Theorem capture_writes_spawn_and_pokemon
    (fi : FastSpawn.CatchIn) (si : SpawnSvc.CatchIn) (sid : string) (uid : Z)
    (st : FastSpawn.State) (d : DB) :
  ((FastSpawn.catch_spawn fi sid uid st).2.1 = true →
   ∃ s p,
     spawns (FastSpawn.db st) !! sid = Some s ∧
     spawns (FastSpawn.db (FastSpawn.catch_spawn fi sid uid st).1)
     = <[sid := mark_caught s uid (FastSpawn.k_now fi)]> (spawns (FastSpawn.db st)) ∧
     pokemon (FastSpawn.db st) !! pokemon_id p = None ∧
     pokemon (FastSpawn.db (FastSpawn.catch_spawn fi sid uid st).1)
     = <[pokemon_id p := p]> (pokemon (FastSpawn.db st)) ∧
     owner_id p = uid ∧ p_species p = species s ∧ p_species_id p = species_id s ∧
     p_level p = level s ∧ p_is_shiny p = is_shiny s ∧ p_rarity p = rarity s ∧
     hp p = level s * 3 + 50 ∧
     attack p = level s * 2 + 30 ∧ defense p = level s * 2 + 30 ∧
     special_attack p = level s * 2 + 30 ∧ special_defense p = level s * 2 + 30 ∧
     speed p = level s * 2 + 30 ∧ in_team p = false) ∧
  ((SpawnSvc.catch_spawn si sid uid d).2.1 = true →
   ∃ s p,
     spawns d !! sid = Some s ∧
     spawns (SpawnSvc.catch_spawn si sid uid d).1
     = <[sid := mark_caught s uid (SpawnSvc.k_utcnow_caught si)]> (spawns d) ∧
     pokemon d !! pokemon_id p = None ∧
     pokemon (SpawnSvc.catch_spawn si sid uid d).1 = <[pokemon_id p := p]> (pokemon d) ∧
     (SpawnSvc.catch_spawn si sid uid d).2.2 = pokemon_id p ∧
     owner_id p = uid ∧ p_species p = species s ∧ p_species_id p = species_id s ∧
     p_level p = level s ∧ p_is_shiny p = is_shiny s ∧ p_rarity p = rarity s ∧
     hp p = level s * 2 + 100 ∧
     attack p = level s * 2 + 50 ∧ defense p = level s * 2 + 50 ∧
     special_attack p = level s * 2 + 50 ∧ special_defense p = level s * 2 + 50 ∧
     speed p = level s * 2 + 50 ∧ in_team p = false).
Proof.
  split; intros Hr.
  - destruct (fast_catch_success_state fi sid uid st Hr) as (s & Hs & _ & _ & Hfresh & ->).
    exists s, (FastSpawn.new_pokemon fi uid s). cbn. done.
  - destruct (svc_catch_success_state si sid uid d Hr) as (s & Hs & _ & Hfresh & ->).
    eexists s, (SpawnSvc.new_pokemon si _ uid s). cbn. done.
Qed.

Lemma capture_writes_spawn_and_pokemon_witness :
  (FastSpawn.catch_spawn (Ex.fast_call (minutes 1) 0.5 1) "spawn_0_1234" 101
     Ex.fresh).2.1 = true ∧
  (SpawnSvc.catch_spawn (Ex.svc_call (minutes 1) 0.5 1) "spawn_0_1234" 101
     Ex.store).2.1 = true ∧
  (∃ p, pokemon (FastSpawn.db
                   (FastSpawn.catch_spawn (Ex.fast_call (minutes 1) 0.5 1)
                      "spawn_0_1234" 101 Ex.fresh).1)
        = <[pokemon_id p := p]> ∅ ∧ owner_id p = 101) ∧
  ∃ p, pokemon (SpawnSvc.catch_spawn (Ex.svc_call (minutes 1) 0.5 1) "spawn_0_1234" 101
                  Ex.store).1
       = <[pokemon_id p := p]> ∅ ∧ owner_id p = 101.
Proof.
  destruct (capture_writes_spawn_and_pokemon (Ex.fast_call (minutes 1) 0.5 1)
              (Ex.svc_call (minutes 1) 0.5 1) "spawn_0_1234" 101 Ex.fresh Ex.store)
    as [Hfast Hsvc].
  split; [reflexivity |]. split; [reflexivity |]. split.
  - destruct (Hfast eq_refl) as (s & p & _ & _ & _ & Hp & Howner & _).
    exists p. split; [exact Hp | exact Howner].
  - destruct (Hsvc eq_refl) as (s & p & _ & _ & _ & Hp & _ & Howner & _).
    exists p. split; [exact Hp | exact Howner].
Defined.

(** X8: [SpawnService.catch_spawn] never creates a user: on a successful
    capture by a user who has no row in [users] the pokemon is inserted
    and the spawn marked, but [users] is left as it was, so the capture is
    counted nowhere; a user who has a row gets [pokemon_caught] and
    [total_pokemon] increased by one and [level * 10] experience, the coins
    staying as they were. *)
Theorem svc_capture_needs_a_user_row
    (i : SpawnSvc.CatchIn) (sid : string) (uid : Z) (d : DB) :
  (SpawnSvc.catch_spawn i sid uid d).2.1 = true →
  let d' := (SpawnSvc.catch_spawn i sid uid d).1 in
  size (pokemon d') = S (size (pokemon d)) ∧
  (users d !! uid = None → users d' = users d) ∧
  (∀ u, users d !! uid = Some u →
     ∃ s u', spawns d !! sid = Some s ∧ users d' !! uid = Some u' ∧
             pokemon_caught u' = pokemon_caught u + 1 ∧
             total_pokemon u' = total_pokemon u + 1 ∧
             experience u' = experience u + level s * 10 ∧
             coins u' = coins u) ∧
  (∀ other, other ≠ uid → users d' !! other = users d !! other).
Proof.
  intros Hr. cbv zeta.
  destruct (svc_catch_success_state i sid uid d Hr) as (s & Hs & _ & Hfresh & ->).
  cbv zeta in Hfresh. cbn [fst pokemon users].
  split; [by rewrite map_size_insert_None |].
  split; [| split].
  - intros Hnone. apply map_eq. intros k. rewrite lookup_alter.
    case_decide; subst; by rewrite ?Hnone.
  - intros u Hu. exists s. eexists. split; [done |].
    rewrite lookup_alter, decide_True, Hu by done. cbn. done.
  - intros other Hne. by rewrite lookup_alter_ne.
Qed.

Lemma svc_capture_needs_a_user_row_witness :
  let out := SpawnSvc.catch_spawn (Ex.svc_call (minutes 1) 0.5 1) "spawn_0_1234" 101
               Ex.store in
  out.2.1 = true ∧ users Ex.store !! 101 = None ∧
  size (pokemon out.1) = 1%nat ∧ users out.1 = ∅.
Proof.
  cbv zeta. split; [reflexivity |]. split; [reflexivity |].
  destruct (svc_capture_needs_a_user_row (Ex.svc_call (minutes 1) 0.5 1)
              "spawn_0_1234" 101 Ex.store eq_refl) as (Hsize & Hnone & _).
  split; [exact Hsize | exact (Hnone eq_refl)].
Defined.

(** ** From creation to capture *)

Lemma select_active_None (chat : Z) (t : datetime) (d : DB) :
  (∀ k s, spawns d !! k = Some s → active_in chat t s = false) →
  FastSpawn.select_active chat t d = None.
Proof.
  intros Hall. unfold FastSpawn.select_active. apply latest_None.
  apply head_None. by apply select_spawns_head_None.
Qed.

(** X9: the life of a spawn in [RawSQLSpawnService].  After a successful
    [create_spawn], [get_active_spawn] returns the spawn just created; a
    [catch_spawn] on its id made before the ten minutes are over, with a
    successful roll, a new pokemon id and no store fault, captures it; and
    from then on [get_active_spawn] finds no spawn in the chat: the cache
    entry is gone and the store holds no active spawn of the chat. *)
Theorem spawn_lifecycle
    (sprite : Z → bool → exn (option string)) (ci : FastSpawn.CreateIn)
    (ki : FastSpawn.CatchIn) (chat uid : Z) (st : FastSpawn.State)
    (f : option nat) (t : datetime) :
  (FastSpawn.create_spawn ci chat st).2 = true →
  FastSpawn.k_fault ki = None →
  FastSpawn.k_now ki < FastSpawn.c_utcnow_expires ci + minutes 10 →
  (0.02 < FastSpawn.k_roll ki)%Q →
  (∀ s, pokemon (FastSpawn.db st) !! pokemon_id (FastSpawn.new_pokemon ki uid s) = None) →
  ∃ s,
    let st1 := (FastSpawn.create_spawn ci chat st).1 in
    let seen := FastSpawn.get_active_spawn sprite f t chat st1 in
    let caught := FastSpawn.catch_spawn ki (spawn_id s) uid seen.1 in
    FastSpawn.d_spawn_id <$> seen.2 = Some (spawn_id s) ∧
    caught.2 = (true, FastSpawn.caught_message s) ∧
    ∀ (t' : datetime) (f' : option nat), FastSpawn.c_now_select ci ≤ t' →
      FastSpawn.get_active_spawn sprite f' t' chat caught.1 = (caught.1, None).
Proof.
  intros Hcreated Hfault Hexp Hroll Hfresh.
  destruct (fast_create_true_inv ci chat st Hcreated) as (s & Hnew & Hnokey & Hnone & ->).
  destruct (fast_new_spawn_payload ci chat s Hnew)
    as (Hchat & _ & _ & _ & _ & Hc & _ & _ & Hexpires).
  exists s. cbv zeta.
  set (d1 := mkDB (<[spawn_id s := s]> (spawns (FastSpawn.db st)))
                  (pokemon (FastSpawn.db st)) (users (FastSpawn.db st))).
  set (entry := FastSpawn.with_image_url (FastSpawn.cache_entry_of_new s)
                  (FastSpawn.image_url_of sprite 1 (is_shiny s))).
  set (cache1 := <[chat := entry]>
                   (<[chat := FastSpawn.cache_entry_of_new s]>
                      (FastSpawn._spawn_cache st))).
  assert (FastSpawn.get_active_spawn sprite f t chat
            (FastSpawn.mkState d1
               (<[chat := FastSpawn.cache_entry_of_new s]> (FastSpawn._spawn_cache st)))
          = (FastSpawn.mkState d1 cache1, Some entry)) as ->.
  { unfold FastSpawn.get_active_spawn. cbn [FastSpawn._spawn_cache FastSpawn.db].
    by rewrite lookup_insert_eq. }
  cbn [fst snd]. split; [done |].
  assert ((FastSpawn.catch_spawn ki (spawn_id s) uid (FastSpawn.mkState d1 cache1)).2
          = (true, FastSpawn.caught_message s)) as Hhit.
  { apply (fast_catch_hit d1 cache1 (spawn_id s) uid s ki); try done.
    - subst d1. cbn. by rewrite lookup_insert_eq.
    - lia. }
  split; [exact Hhit |].
  intros t' f' Ht'.
  assert ((FastSpawn.catch_spawn ki (spawn_id s) uid (FastSpawn.mkState d1 cache1)).2.1
          = true) as Hr by (by rewrite Hhit).
  destruct (fast_catch_success_state ki (spawn_id s) uid _ Hr)
    as (s0 & Hs0 & _ & _ & _ & ->).
  assert (s0 = s) as ->.
  { subst d1. cbn in Hs0. rewrite lookup_insert_eq in Hs0. congruence. }
  cbn [fst]. unfold FastSpawn.get_active_spawn.
  cbn [FastSpawn._spawn_cache FastSpawn.db]. rewrite Hchat, lookup_delete_eq.
  rewrite select_active_None; [by destruct (stmt_cases f' 0 (Ok (None : option Spawn)))
                                      as [[_ ->] | [_ ->]] |].
  intros k s' Hk. subst d1. cbn [spawns] in Hk.
  rewrite lookup_insert in Hk. case_decide.
  - injection Hk as <-. unfold active_in. cbn. by rewrite andb_false_r.
  - rewrite lookup_insert_ne in Hk by done.
    by apply (old_rows_inactive_later chat (FastSpawn.c_now_select ci) t'
                (FastSpawn.db st) k s').
Qed.

Lemma spawn_lifecycle_witness :
  let st1 := (FastSpawn.create_spawn (Ex.fast_create 0 0) 7 Ex.empty).1 in
  let seen := FastSpawn.get_active_spawn Ex.no_sprite None (minutes 1) 7 st1 in
  let caught := FastSpawn.catch_spawn (Ex.fast_call (minutes 2) 0.5 1)
                  "spawn_0_1000" 101 seen.1 in
  (FastSpawn.create_spawn (Ex.fast_create 0 0) 7 Ex.empty).2 = true ∧
  FastSpawn.d_spawn_id <$> seen.2 = Some "spawn_0_1000" ∧
  caught.2.1 = true ∧
  FastSpawn.get_active_spawn Ex.no_sprite None (minutes 3) 7 caught.1 = (caught.1, None).
Proof.
  cbv zeta. split; [reflexivity |].
  destruct (spawn_lifecycle Ex.no_sprite (Ex.fast_create 0 0)
              (Ex.fast_call (minutes 2) 0.5 1) 7 101 Ex.empty None (minutes 1)
              eq_refl eq_refl eq_refl eq_refl (fun _ => eq_refl))
    as (s & Hseen & Hcaught & Hgone).
  cbv zeta in Hseen, Hcaught, Hgone.
  assert (spawn_id s = "spawn_0_1000") as Hid.
  { apply (inj Some). symmetry. exact Hseen. }
  rewrite Hid in Hcaught, Hgone.
  split; [reflexivity |].
  split; [by rewrite Hcaught |].
  apply Hgone. vm_compute. discriminate.
Defined.

(** ** Deleting expired spawns *)

Lemma cleanup_filters_agree (now : datetime) (m : gmap string Spawn) :
  filter (fun kv => FastSpawn.expired_uncaught now kv.2 = false) m
  = filter (fun kv => (negb (is_caught kv.2) && (expires_at kv.2 <? now)) = false) m.
Proof.
  apply map_filter_ext. intros k s _. unfold FastSpawn.expired_uncaught. cbn.
  by rewrite andb_comm.
Qed.

Lemma cleanup_kept_lookup (now : datetime) (m : gmap string Spawn) (k : string)
    (s : Spawn) :
  filter (fun kv => FastSpawn.expired_uncaught now kv.2 = false) m !! k = Some s ↔
  m !! k = Some s ∧ (is_caught s = true ∨ now ≤ expires_at s).
Proof.
  rewrite map_lookup_filter_Some. unfold FastSpawn.expired_uncaught. cbn.
  rewrite andb_false_iff, negb_false_iff, Z.ltb_ge. tauto.
Qed.

(** X10: the three deletions of expired spawns,
    [RawSQLSpawnService.cleanup_expired], [SpawnService.cleanup_expired_spawns]
    and [FastSchedulerService.cleanup_expired_spawns], remove the same
    rows: a spawn is kept exactly when it is caught or its [expires_at] is
    not before the time of the call (a spawn expiring at that very instant
    is kept).  [pokemon] and [users] are untouched, the number reported is
    the number of rows removed, a second deletion at the same time removes
    nothing, and only the first of the three also empties the cache.  When
    the statement raises, nothing is deleted, 0 is reported and the cache
    is left alone. *)
Theorem cleanups_delete_expired_uncaught (now : datetime) (st : FastSpawn.State) :
  let d := FastSpawn.db st in
  let fast := FastSpawn.cleanup_expired None now st in
  let svc := SpawnSvcRest.cleanup_expired_spawns None now d in
  let sch := SchedulerRest.cleanup_expired_spawns None now d in
  FastSpawn.db fast.1 = svc.1 ∧ sch.1 = svc.1 ∧
  fast.2 = svc.2 ∧ sch.2 = negb (svc.2 =? 0) ∧
  FastSpawn._spawn_cache fast.1 = ∅ ∧
  (∀ k s, spawns svc.1 !! k = Some s ↔
          spawns d !! k = Some s ∧ (is_caught s = true ∨ now ≤ expires_at s)) ∧
  pokemon svc.1 = pokemon d ∧ users svc.1 = users d ∧
  0 ≤ svc.2 ∧ Z.of_nat (size (spawns svc.1)) + svc.2 = Z.of_nat (size (spawns d)) ∧
  SpawnSvcRest.cleanup_expired_spawns None now svc.1 = (svc.1, 0) ∧
  FastSpawn.cleanup_expired (Some 0%nat) now st = (st, 0) ∧
  SpawnSvcRest.cleanup_expired_spawns (Some 0%nat) now d = (d, 0) ∧
  SchedulerRest.cleanup_expired_spawns (Some 0%nat) now d = (d, false).
Proof.
  cbv zeta.
  unfold FastSpawn.cleanup_expired, SpawnSvcRest.cleanup_expired_spawns,
    SchedulerRest.cleanup_expired_spawns.
  rewrite !stmt_no_fault, !stmt_fault. cbn [fst snd FastSpawn.db FastSpawn._spawn_cache].
  rewrite <- !cleanup_filters_agree.
  set (kept := filter _ (spawns (FastSpawn.db st))).
  assert (size kept ≤ size (spawns (FastSpawn.db st)))%nat as Hsize
    by apply map_subseteq_size, map_filter_subseteq.
  split_and!; try done; cbn [spawns pokemon users].
  - intros k s. apply cleanup_kept_lookup.
  - lia.
  - lia.
  - assert (filter (λ kv : string * Spawn, FastSpawn.expired_uncaught now kv.2 = false) kept
            = kept) as ->.
    { apply map_filter_id. intros k s Hk. by apply map_lookup_filter_Some in Hk as [_ ?]. }
    f_equal. lia.
Qed.

Lemma get_active_spawn_from_store
    (sprite : Z → bool → exn (option string)) (fault : option nat) (now : datetime)
    (chat : Z) (st : FastSpawn.State) (data : FastSpawn.SpawnData) :
  FastSpawn._spawn_cache st !! chat = None →
  (FastSpawn.get_active_spawn sprite fault now chat st).2 = Some data →
  ∃ k row, spawns (FastSpawn.db st) !! k = Some row ∧
           FastSpawn.d_spawn_id data = spawn_id row ∧
           FastSpawn.d_species_id data = Some (species_id row) ∧
           chat_id row = chat ∧ is_caught row = false ∧ now < expires_at row.
Proof.
  intros Hnone. unfold FastSpawn.get_active_spawn. rewrite Hnone.
  unfold FastSpawn.select_active. stmt_split; [done |].
  destruct (latest _) as [row |] eqn:Hrow; [| done].
  cbn [snd]. intros [= <-].
  apply latest_elem, elem_of_select_spawns in Hrow as [[k Hk] Hact].
  apply active_in_spec in Hact as (Hchat & Hc & Hexp).
  exists k, row. done.
Qed.

(** X11: after [RawSQLSpawnService.cleanup_expired] has run, a spawn that
    [get_active_spawn] returns is read from the store: it is a row of the
    chat that is not caught and whose [expires_at] is after the time of the
    call, whatever the cache held before the cleanup. *)
Theorem cleanup_ends_stale_answers
    (sprite : Z → bool → exn (option string)) (cleanup_time : datetime)
    (fault : option nat) (now : datetime) (chat : Z) (st : FastSpawn.State)
    (data : FastSpawn.SpawnData) :
  let cleaned := (FastSpawn.cleanup_expired None cleanup_time st).1 in
  (FastSpawn.get_active_spawn sprite fault now chat cleaned).2 = Some data →
  ∃ k row, spawns (FastSpawn.db st) !! k = Some row ∧
           FastSpawn.d_spawn_id data = spawn_id row ∧
           chat_id row = chat ∧ is_caught row = false ∧ now < expires_at row.
Proof.
  cbv zeta. intros Hsome.
  apply get_active_spawn_from_store in Hsome
    as (k & row & Hk & Hid & _ & Hchat & Hc & Hexp).
  - exists k, row. repeat split; try done.
    revert Hk. unfold FastSpawn.cleanup_expired. rewrite stmt_no_fault.
    cbn [fst FastSpawn.db spawns]. rewrite cleanup_kept_lookup. tauto.
  - unfold FastSpawn.cleanup_expired. by rewrite stmt_no_fault.
Qed.

Lemma cleanup_ends_stale_answers_witness :
  let stale := (FastSpawn.create_spawn (Ex.fast_create 0 0) 7 Ex.empty).1 in
  let fresh := (FastSpawn.create_spawn (Ex.fast_create (minutes 12) 1) 7
                  (FastSpawn.cleanup_expired None (minutes 11) stale).1).1 in
  FastSpawn.d_spawn_id <$>
    (FastSpawn.get_active_spawn Ex.no_sprite None (minutes 11) 7 stale).2
  = Some "spawn_0_1000" ∧
  (FastSpawn.get_active_spawn Ex.no_sprite None (minutes 11) 7
     (FastSpawn.cleanup_expired None (minutes 11) stale).1).2 = None ∧
  ∃ data, (FastSpawn.get_active_spawn Ex.no_sprite None (minutes 13) 7
             (FastSpawn.cleanup_expired None (minutes 12) (FastSpawn.mkState
                (FastSpawn.db fresh) ∅)).1).2 = Some data ∧
          ∃ k row, spawns (FastSpawn.db fresh) !! k = Some row ∧
                   FastSpawn.d_spawn_id data = spawn_id row ∧
                   minutes 13 < expires_at row.
Proof.
  cbv zeta. split; [reflexivity |]. split; [reflexivity |].
  eexists. split; [reflexivity |].
  destruct (cleanup_ends_stale_answers Ex.no_sprite (minutes 12) None (minutes 13) 7
              (FastSpawn.mkState
                 (FastSpawn.db
                    (FastSpawn.create_spawn (Ex.fast_create (minutes 12) 1) 7
                       (FastSpawn.cleanup_expired None (minutes 11)
                          (FastSpawn.create_spawn (Ex.fast_create 0 0) 7 Ex.empty).1).1).1)
                 ∅) _ eq_refl) as (k & row & Hk & Hid & _ & _ & Hexp).
  exists k, row. split; [exact Hk |]. split; [exact Hid | exact Hexp].
Defined.

(** ** Overlapping calls on a spawn that cannot be captured *)

Lemma harmless_step (sid : string) (st : FastSpawn.State) (c : Race.Call) :
  harmless sid (FastSpawn.db st) c →
  ∃ c', Race.step_call sid c st = (st, c') ∧ harmless sid (FastSpawn.db st) c'.
Proof.
  destruct c as [i uid | i uid [s |] | [success msg]]; cbn [harmless Race.step_call].
  - intros Hrow. stmt_split; [by eexists |].
    unfold FastSpawn.select_unexpired.
    destruct (spawns (FastSpawn.db st) !! sid) as [s |] eqn:Hs; [| by eexists].
    destruct (FastSpawn.k_now i <? expires_at s) eqn:Hexp; [| by eexists].
    eexists. split; [done |]. cbn.
    apply Z.ltb_lt in Hexp. destruct (Hrow s eq_refl); [done | lia].
  - intros Hc. cbn [FastSpawn.catch_resolve]. rewrite Hc. by eexists.
  - intros _. by eexists.
  - intros ->. by eexists.
Qed.

Lemma harmless_run (sid : string) (schedule : list nat) (calls : list Race.Call)
    (st : FastSpawn.State) :
  Forall (harmless sid (FastSpawn.db st)) calls →
  (Race.run sid schedule calls st).1 = st ∧
  Forall (harmless sid (FastSpawn.db st)) (Race.run sid schedule calls st).2.
Proof.
  revert calls. induction schedule as [| k schedule IH]; intros calls Hall; [done |].
  cbn [Race.run].
  destruct (calls !! k) as [c |] eqn:Hk; [| by apply IH].
  destruct (harmless_step sid st c) as (c' & -> & Hc').
  { by eapply Forall_lookup_1. }
  apply IH. by apply Forall_insert.
Qed.

Lemma harmless_not_captured (sid : string) (d : DB) (c : Race.Call) :
  harmless sid d c → Race.captured c = false.
Proof. destruct c as [| | [[] msg]]; cbn; done. Qed.

(** X12: overlapping calls of [catch_spawn] on a spawn that is missing,
    already caught, or expired at the clock of every call: whatever the
    schedule, no call returns [True] and store and cache are left as they
    were. *)
Theorem no_schedule_captures_an_unavailable_spawn
    (sid : string) (schedule : list nat) (calls : list (FastSpawn.CatchIn * Z))
    (st : FastSpawn.State) :
  (∀ s, spawns (FastSpawn.db st) !! sid = Some s →
        is_caught s = true ∨
        ∀ i uid, (i, uid) ∈ calls → expires_at s ≤ FastSpawn.k_now i) →
  let out := Race.run sid schedule (pending calls) st in
  out.1 = st ∧ ∀ c, c ∈ out.2 → Race.captured c = false.
Proof.
  intros Hrow. cbv zeta.
  assert (Forall (harmless sid (FastSpawn.db st)) (pending calls)) as Hall.
  { unfold pending. apply Forall_fmap, Forall_forall. intros [i uid] Hin. cbn.
    intros s Hs. destruct (Hrow s Hs) as [? | Hexp]; [by left | right; eauto]. }
  destruct (harmless_run sid schedule _ st Hall) as [Hst Hres].
  split; [done |]. intros c Hc.
  apply (harmless_not_captured sid (FastSpawn.db st)).
  by eapply Forall_forall in Hres.
Qed.

Lemma no_schedule_captures_an_unavailable_spawn_witness :
  let st := FastSpawn.mkState Ex.store_caught ∅ in
  let calls := [(Ex.fast_call (minutes 2) 0.5 1, 202); (Ex.fast_call (minutes 2) 0.5 2, 303)] in
  (∀ s, spawns Ex.store_caught !! "spawn_0_1234" = Some s → is_caught s = true) ∧
  (Race.run "spawn_0_1234" [0; 1; 0; 1]%nat (pending calls) st).1 = st.
Proof.
  cbv zeta.
  assert (∀ s, spawns Ex.store_caught !! "spawn_0_1234" = Some s → is_caught s = true)
    as Hcaught.
  { intros s Hs. vm_compute in Hs. by injection Hs as <-. }
  split; [exact Hcaught |].
  apply (no_schedule_captures_an_unavailable_spawn "spawn_0_1234" [0; 1; 0; 1]%nat
           [(Ex.fast_call (minutes 2) 0.5 1, 202); (Ex.fast_call (minutes 2) 0.5 2, 303)]
           (FastSpawn.mkState Ex.store_caught ∅)).
  intros s Hs. left. exact (Hcaught s Hs).
Defined.

(** ** What the scheduler writes *)

Lemma fast_create_false_unchanged (i : FastSpawn.CreateIn) (chat : Z)
    (st : FastSpawn.State) :
  (FastSpawn.create_spawn i chat st).2 = false →
  (FastSpawn.create_spawn i chat st).1 = st.
Proof.
  unfold FastSpawn.create_spawn, FastSpawn.create_spawn_body, FastSpawn.create_check,
    FastSpawn.create_finish.
  stmt_split; exn_simpl; [done |].
  destruct (from_option _ _ _); [done |].
  destruct (FastSpawn.new_spawn i chat) as [s |]; exn_simpl; [| done].
  stmt_split; exn_simpl; [done |].
  by destruct (insert_spawn _ _).
Qed.

(** X13: one iteration of [_spawn_loop] leaves the set of registered
    channels and the running flag alone and writes at most one row: a new
    spawn, in a registered channel, which is the channel it logs; [pokemon]
    and [users] are untouched.  With no channel registered it writes
    nothing.  Every sleep it makes lasts 5 seconds (idle), 10 seconds
    (after an error) or between 30 and 60 seconds. *)
Theorem iteration_spawns_in_a_registered_channel
    (i : Scheduler.IterIn) (st : Scheduler.State) :
  let st' := (Scheduler.iteration i st).1.1 in
  let evs := (Scheduler.iteration i st).1.2 in
  let d := FastSpawn.db (Scheduler.svc st) in
  let d' := FastSpawn.db (Scheduler.svc st') in
  Scheduler.active_channels st' = Scheduler.active_channels st ∧
  Scheduler.running st' = Scheduler.running st ∧
  pokemon d' = pokemon d ∧ users d' = users d ∧
  ((Scheduler.svc st' = Scheduler.svc st ∧ ∀ chat, Scheduler.AutoSpawned chat ∉ evs) ∨
   (∃ s, chat_id s ∈ Scheduler.active_channels st ∧
         spawns d !! spawn_id s = None ∧
         spawns d' = <[spawn_id s := s]> (spawns d) ∧
         ∀ chat, Scheduler.AutoSpawned chat ∈ evs ↔ chat = chat_id s)) ∧
  (Scheduler.active_channels st = ∅ → Scheduler.svc st' = Scheduler.svc st) ∧
  (∀ n, Scheduler.Sleep n ∈ evs → n = 5 ∨ n = 10 ∨ 30 ≤ n ≤ 60).
Proof.
  cbv zeta.
  assert (∀ (st1 : Scheduler.State) evs1 (r : option Scheduler.Raised),
            (Scheduler.try_block i st = (st1, evs1, r)) →
            ∃ st2 evs2 go extra,
              Scheduler.iteration i st = (st2, evs2, go) ∧ st2 = st1 ∧
              evs2 = evs1 ++ extra ∧
              (extra = [] ∨ extra = [Scheduler.LoopError]
               ∨ extra = [Scheduler.LoopError; Scheduler.Sleep 10])) as Hiter.
  { intros st1 evs1 r Htb. unfold Scheduler.iteration. rewrite Htb.
    destruct r as [[] |].
    - destruct (Scheduler.it_backoff_cancelled i); eexists _, _, _, _; eauto 10.
    - eexists _, _, _, []. rewrite app_nil_r. eauto 10.
    - eexists _, _, _, []. rewrite app_nil_r. eauto 10. }
  pose proof (randint_range 30 60 (Scheduler.it_interval_seed i) ltac:(lia)) as Hint.
  unfold Scheduler.try_block in Hiter.
  destruct (bool_decide (Scheduler.active_channels st = ∅)) eqn:Hempty.
  { assert (∃ evs1 r, (match Scheduler.raises_at i Scheduler.AtIdleSleep with
                       | Some r => (st, [], Some r)
                       | None => (st, [Scheduler.Sleep 5], None)
                       end) = (st, evs1, r) ∧ (evs1 = [] ∨ evs1 = [Scheduler.Sleep 5]))
      as (evs1 & r & Heq & Hevs1) by (destruct (Scheduler.raises_at _ _); eauto 10).
    destruct (Hiter st evs1 r Heq) as (st2 & evs2 & go & extra & -> & -> & -> & Hextra).
    cbn [fst snd]. split_and!; try done.
    - left. split; [done |]. intros chat.
      destruct Hevs1 as [-> | ->]; destruct Hextra as [-> | [-> | ->]]; set_unfold; intuition (simplify_eq; eauto; try lia).
    - intros n.
      destruct Hevs1 as [-> | ->]; destruct Hextra as [-> | [-> | ->]]; set_unfold;
        intuition (simplify_eq; eauto; try lia). }
  apply bool_decide_eq_false in Hempty.
  destruct (Scheduler.raises_at i Scheduler.AtImport) as [r |].
  { destruct (Hiter st [] (Some r) eq_refl)
      as (st2 & evs2 & go & extra & -> & -> & -> & Hextra).
    cbn [fst snd]. split_and!; try done.
    - left. split; [done |]. intros chat. destruct Hextra as [-> | [-> | ->]]; set_unfold; intuition (simplify_eq; eauto; try lia).
    - intros n. destruct Hextra as [-> | [-> | ->]]; set_unfold; intuition (simplify_eq; eauto; try lia). }
  destruct (choice _ _) as [chat_id |] eqn:Hchoice.
  2: { destruct (Hiter st [] (Some Scheduler.Error) eq_refl)
         as (st2 & evs2 & go & extra & -> & -> & -> & Hextra).
       cbn [fst snd]. split_and!; try done.
       - left. split; [done |]. intros chat. destruct Hextra as [-> | [-> | ->]]; set_unfold; intuition (simplify_eq; eauto; try lia).
       - intros n. destruct Hextra as [-> | [-> | ->]]; set_unfold; intuition (simplify_eq; eauto; try lia). }
  apply choice_elem, elem_of_elements in Hchoice.
  destruct (Scheduler.raises_at i Scheduler.AtCreateSpawn) as [r |].
  { destruct (Hiter st [] (Some r) eq_refl)
      as (st2 & evs2 & go & extra & -> & -> & -> & Hextra).
    cbn [fst snd]. split_and!; try done.
    - left. split; [done |]. intros chat. destruct Hextra as [-> | [-> | ->]]; set_unfold; intuition (simplify_eq; eauto; try lia).
    - intros n. destruct Hextra as [-> | [-> | ->]]; set_unfold; intuition (simplify_eq; eauto; try lia). }
  pose proof (fast_create_true_inv (Scheduler.it_create i) chat_id (Scheduler.svc st))
    as Htrue.
  pose proof (fast_create_false_unchanged (Scheduler.it_create i) chat_id (Scheduler.svc st))
    as Hfalse.
  destruct (FastSpawn.create_spawn _ _ _) as [svc' success]. cbn [fst snd] in *.
  assert (∃ evs1 r,
            (match Scheduler.raises_at i Scheduler.AtIntervalSleep with
             | Some r =>
                 (Scheduler.mkState (Scheduler.active_channels st) (Scheduler.running st) svc',
                  (if success then [Scheduler.AutoSpawned chat_id] else []), Some r)
             | None =>
                 (Scheduler.mkState (Scheduler.active_channels st) (Scheduler.running st) svc',
                  (if success then [Scheduler.AutoSpawned chat_id] else [])
                  ++ [Scheduler.Sleep (randint 30 60 (Scheduler.it_interval_seed i))], None)
             end)
            = (Scheduler.mkState (Scheduler.active_channels st) (Scheduler.running st) svc',
               evs1, r) ∧
            ∃ tail, evs1 = (if success then [Scheduler.AutoSpawned chat_id] else []) ++ tail ∧
                    (tail = [] ∨ tail = [Scheduler.Sleep
                                           (randint 30 60 (Scheduler.it_interval_seed i))]))
    as (evs1 & r & Heq & tail & Hevs1 & Htail).
  { destruct (Scheduler.raises_at _ _); eexists _, _; (split; [done |]).
    - exists []. by rewrite app_nil_r; eauto.
    - eexists. eauto. }
  destruct (Hiter _ evs1 r Heq) as (st2 & evs2 & go & extra & -> & -> & -> & Hextra).
  cbn [fst snd Scheduler.active_channels Scheduler.running Scheduler.svc]. subst evs1.
  destruct success.
  - destruct Htrue as (s & Hnew & Hfresh & _ & ->); [done |].
    destruct (fast_new_spawn_payload _ _ _ Hnew) as (Hchat & _).
    cbn [FastSpawn.db spawns pokemon users].
    split_and!; try done.
    + right. exists s. rewrite Hchat. split_and!; try done.
      intros chat. destruct Htail as [-> | ->]; destruct Hextra as [-> | [-> | ->]];
        set_unfold; intuition (simplify_eq; eauto; try lia).
    + intros n. destruct Htail as [-> | ->]; destruct Hextra as [-> | [-> | ->]];
        set_unfold; intuition (simplify_eq; eauto; try lia).
  - rewrite Hfalse by done.
    split_and!; try done.
    + left. split; [done |]. intros chat.
      destruct Htail as [-> | ->]; destruct Hextra as [-> | [-> | ->]]; set_unfold; intuition (simplify_eq; eauto; try lia).
    + intros n. destruct Htail as [-> | ->]; destruct Hextra as [-> | [-> | ->]];
        set_unfold; intuition (simplify_eq; eauto; try lia).
Qed.

(** ** [force_spawn_all_channels] *)

Lemma force_spawn_list_spec catalog (inputs : Z → SpawnSvc.CreateIn)
    (channels : list Z) (st : SpawnSvc.State) :
  let out := SchedulerRest.force_spawn_list catalog inputs channels st in
  0 ≤ out.2 ≤ Z.of_nat (length channels) ∧
  Z.of_nat (size (spawns (SpawnSvc.db out.1)))
  = Z.of_nat (size (spawns (SpawnSvc.db st))) + out.2 ∧
  spawns (SpawnSvc.db st) ⊆ spawns (SpawnSvc.db out.1) ∧
  (∀ k s, spawns (SpawnSvc.db out.1) !! k = Some s →
          spawns (SpawnSvc.db st) !! k = None →
          chat_id s ∈ channels ∧ is_caught s = false) ∧
  pokemon (SpawnSvc.db out.1) = pokemon (SpawnSvc.db st) ∧
  users (SpawnSvc.db out.1) = users (SpawnSvc.db st).
Proof.
  revert st. induction channels as [| chat rest IH]; intros st;
    cbn [SchedulerRest.force_spawn_list].
  - cbn. split_and!; try done; [lia | congruence].
  - pose proof (svc_create_cases catalog (inputs chat) chat st) as Hc. cbv zeta in Hc.
    destruct (SpawnSvc.create_spawn catalog (inputs chat) chat st) as [st' spawn].
    specialize (IH st').
    destruct (SchedulerRest.force_spawn_list catalog inputs rest st') as [st'' n].
    cbn [fst snd length] in *.
    destruct IH as (Hn & Hsize & Hsub & Hnew & Hp & Hu).
    destruct Hc as [[-> Hdb] | (s0 & -> & Hdb & Hfresh & Hchat & Hunc & _)].
    + rewrite Hdb in *. split_and!; try done; try lia.
      intros k s H1 H2. destruct (Hnew k s H1 H2). split; [by right | done].
    + rewrite Hdb in *. cbn [spawns pokemon users] in *.
      rewrite map_size_insert_None in Hsize by done.
      split_and!; try done; try lia.
      * etrans; [| exact Hsub]. by apply insert_subseteq.
      * intros k s H1 H2. destruct (decide (k = spawn_id s0)) as [-> | Hne].
        -- assert (spawns (SpawnSvc.db st'') !! spawn_id s0 = Some s0) as H3.
           { eapply lookup_weaken; [| exact Hsub]. apply lookup_insert_eq. }
           assert (s = s0) as -> by congruence.
           split; [rewrite Hchat; left | done].
        -- destruct (Hnew k s H1) as [? ?]; [by rewrite lookup_insert_ne |].
           split; [by right | done].
Qed.

(** X14: [force_spawn_all_channels] returns the number of rows it has
    added to [spawns]: between 0 and the number of registered channels.
    Every row that was there is still there, unchanged; every new row is an
    uncaught spawn of a registered channel; [pokemon] and [users] are left
    alone. *)
Theorem force_spawn_counts_the_rows_it_adds catalog (inputs : Z → SpawnSvc.CreateIn)
    (active_channels : gset Z) (st : SpawnSvc.State) :
  let out := SchedulerRest.force_spawn_all_channels catalog inputs active_channels st in
  0 ≤ out.2 ≤ Z.of_nat (size active_channels) ∧
  Z.of_nat (size (spawns (SpawnSvc.db out.1)))
  = Z.of_nat (size (spawns (SpawnSvc.db st))) + out.2 ∧
  (∀ k s, spawns (SpawnSvc.db st) !! k = Some s →
          spawns (SpawnSvc.db out.1) !! k = Some s) ∧
  (∀ k s, spawns (SpawnSvc.db out.1) !! k = Some s →
          spawns (SpawnSvc.db st) !! k = None →
          chat_id s ∈ active_channels ∧ is_caught s = false) ∧
  pokemon (SpawnSvc.db out.1) = pokemon (SpawnSvc.db st) ∧
  users (SpawnSvc.db out.1) = users (SpawnSvc.db st).
Proof.
  cbv zeta. unfold SchedulerRest.force_spawn_all_channels.
  destruct (force_spawn_list_spec catalog inputs (elements active_channels) st)
    as (Hn & Hsize & Hsub & Hnew & Hp & Hu).
  split_and!; try done.
  - lia.
  - change (size active_channels) with (length (elements active_channels)). lia.
  - intros k s Hk. by eapply lookup_weaken.
  - intros k s H1 H2. destruct (Hnew k s H1 H2) as [Hin ?].
    by apply elem_of_elements in Hin.
Qed.

(** ** The catalog cache of [SpawnService] *)

(** X15: [_get_cached_pokemon_data] touches neither the store nor the time
    of the last clearing nor the cache entries of other species.  An answer
    with data is served again for the same species without the catalog
    being asked: whatever the catalog would say then, the result and the
    state are the same.  An answer without data (no record, or an empty one)
    is not cached: the service is as it was. *)
Theorem catalog_answers_are_cached_failures_are_not
    catalog (n : nat) (species_id : Z) (st : SpawnSvc.State) :
  let out := SpawnSvc._get_cached_pokemon_data catalog n species_id st in
  SpawnSvc.db out.1 = SpawnSvc.db st ∧
  SpawnSvc._last_cache_clear out.1 = SpawnSvc._last_cache_clear st ∧
  (∀ other, other ≠ species_id →
            SpawnSvc._pokemon_cache out.1 !! other = SpawnSvc._pokemon_cache st !! other) ∧
  (SpawnSvc.has_data out.2 = true →
   ∀ catalog' m,
     SpawnSvc._get_cached_pokemon_data catalog' m species_id out.1 = (out.1, out.2)) ∧
  (SpawnSvc.has_data out.2 = false → out.1 = st).
Proof.
  cbv zeta.
  destruct (SpawnSvc._get_cached_pokemon_data catalog n species_id st) as [st' r] eqn:Hout.
  cbn [fst snd]. unfold SpawnSvc._get_cached_pokemon_data in Hout.
  destruct (SpawnSvc._pokemon_cache st !! species_id) as [d |] eqn:Hcached.
  - injection Hout as <- <-. split_and!; try done.
    intros _ catalog' m. unfold SpawnSvc._get_cached_pokemon_data. by rewrite Hcached.
  - destruct (catalog n species_id) as [data |].
    + destruct (SpawnSvc.has_data (Some data)) eqn:Hdata; injection Hout as <- <-.
      * split_and!; try done.
        -- intros other Hne. cbn. by rewrite lookup_insert_ne.
        -- intros _ catalog' m. unfold SpawnSvc._get_cached_pokemon_data. cbn.
           by rewrite lookup_insert_eq.
        -- by rewrite Hdata.
      * split_and!; try done. by rewrite Hdata.
    + injection Hout as <- <-. split_and!; done.
Qed.

Lemma td_seconds_whole_days (days rest : Z) :
  0 ≤ rest < 86400 * 1000000 →
  SpawnSvc.td_seconds (days * 86400 * 1000000 + rest) = rest / 1000000.
Proof.
  intros Hrest. unfold SpawnSvc.td_seconds.
  replace (days * 86400 * 1000000 + rest) with (days * 86400 * 1000000 + rest) by lia.
  rewrite Z.div_add_l by lia.
  rewrite Z.add_comm, Z.mod_add by lia.
  apply Z.mod_small. split; [apply Z.div_pos; lia |].
  apply Z.div_lt_upper_bound; lia.
Qed.

(** X16: [_clear_cache_if_needed] tests [.seconds] of the time since the
    last clearing, which leaves out whole days.  Writing that time as a
    number of days plus a rest below one day, the cache is cleared (and the
    clearing time set) exactly when the rest is 1801 seconds or more: after
    24 hours and 10 minutes the cache is kept as after 10 minutes.  The
    store is never touched. *)
Theorem cache_clear_ignores_whole_days
    (i : SpawnSvc.CreateIn) (st : SpawnSvc.State) (days rest : Z) :
  SpawnSvc.c_utcnow_clear i - SpawnSvc._last_cache_clear st
  = days * 86400 * 1000000 + rest →
  0 ≤ rest < 86400 * 1000000 →
  let st' := SpawnSvc._clear_cache_if_needed i st in
  SpawnSvc.db st' = SpawnSvc.db st ∧
  (rest < 1801 * 1000000 → st' = st) ∧
  (1801 * 1000000 ≤ rest →
   SpawnSvc._pokemon_cache st' = ∅ ∧
   SpawnSvc._last_cache_clear st' = SpawnSvc.c_utcnow_cleared i).
Proof.
  intros Hgap Hrest. cbv zeta. split; [apply svc_clear_cache_db |].
  unfold SpawnSvc._clear_cache_if_needed.
  rewrite Hgap, td_seconds_whole_days by done.
  destruct (1800 <? rest / 1000000) eqn:Hcmp.
  - apply Z.ltb_lt in Hcmp. split; [| done].
    intros Hlt. assert (rest / 1000000 < 1801) by (apply Z.div_lt_upper_bound; lia). lia.
  - apply Z.ltb_ge in Hcmp. split; [done |].
    intros Hge. assert (1801 ≤ rest / 1000000) by (apply Z.div_le_lower_bound; lia). lia.
Qed.

Lemma cache_clear_ignores_whole_days_witness :
  SpawnSvc._clear_cache_if_needed (Ex.svc_create (minutes 1450) 0)
    (SpawnSvc.mkState Ex.store {[ 1 := {[ "name" := "bulbasaur" ]} ]} 0)
  = SpawnSvc.mkState Ex.store {[ 1 := {[ "name" := "bulbasaur" ]} ]} 0.
Proof.
  apply (cache_clear_ignores_whole_days (Ex.svc_create (minutes 1450) 0)
           (SpawnSvc.mkState Ex.store {[ 1 := {[ "name" := "bulbasaur" ]} ]} 0)
           1 (minutes 10)).
  - reflexivity.
  - unfold minutes. lia.
  - unfold minutes. lia.
Defined.

(** ** The spawn cooldown of a chat *)

Lemma svc_get_active_None (fault : option nat) (utcnow : datetime) (chat : Z) (d : DB) :
  SpawnSvc.get_active_spawn fault utcnow chat d = None ↔
  fault = Some 0%nat ∨ ¬ has_active chat utcnow d.
Proof.
  unfold SpawnSvc.get_active_spawn, stmt.
  case_decide as Hfault.
  - split; [by left | done].
  - rewrite latest_None. split.
    + intros Hnil. right. intros (k & s & Hk & Hchat & Hc & Hexp).
      assert (s ∈ select_spawns (active_in chat utcnow) d) as Hin.
      { apply elem_of_select_spawns. split; [by exists k |]. by apply active_in_spec. }
      rewrite Hnil in Hin. by apply elem_of_nil in Hin.
    + intros [? | Hnone]; [done |].
      destruct (select_spawns _ d) as [| s l] eqn:Hsel; [done |].
      exfalso. apply Hnone.
      assert (s ∈ select_spawns (active_in chat utcnow) d) as Hin
        by (rewrite Hsel; left).
      apply elem_of_select_spawns in Hin as [[k Hk] Hact].
      apply active_in_spec in Hact. exists k, s. tauto.
Qed.

(** X17: [should_auto_spawn] answers [True] exactly when the roll is at
    most 0.05, the chat has no cooldown row or one that has run out (or the
    cooldown query failed: the check fails open), and the chat has no
    uncaught spawn that has yet to expire (or the query for it failed). *)
Theorem should_auto_spawn_spec
    (i : SpawnSvcRest.AutoIn) (chat : Z) (d : DB)
    (spawn_cooldowns : gmap Z SpawnSvcRest.SpawnCooldown) :
  SpawnSvcRest.should_auto_spawn i chat d spawn_cooldowns = true ↔
  (SpawnSvcRest.a_roll i <= 0.05)%Q ∧
  (SpawnSvcRest.a_fault_cooldown i = Some 0%nat ∨
   ∀ c, spawn_cooldowns !! chat = Some c →
        SpawnSvcRest.cooldown_until c ≤ SpawnSvcRest.a_utcnow_cooldown i) ∧
  (SpawnSvcRest.a_fault_active i = Some 0%nat ∨
   ¬ has_active chat (SpawnSvcRest.a_utcnow_active i) d).
Proof.
  unfold SpawnSvcRest.should_auto_spawn.
  rewrite <- svc_get_active_None.
  destruct (Qltb 0.05 (SpawnSvcRest.a_roll i)) eqn:Hroll.
  { apply Qltb_lt in Hroll. split; [done |]. intros [Hle _].
    exfalso. by apply (Qlt_not_le _ _ Hroll). }
  apply Qltb_ge in Hroll.
  assert (SpawnSvcRest.check_spawn_cooldown (SpawnSvcRest.a_fault_cooldown i)
            (SpawnSvcRest.a_utcnow_cooldown i) chat spawn_cooldowns = true ↔
          SpawnSvcRest.a_fault_cooldown i = Some 0%nat ∨
          ∀ c, spawn_cooldowns !! chat = Some c →
               SpawnSvcRest.cooldown_until c ≤ SpawnSvcRest.a_utcnow_cooldown i) as Hcheck.
  { unfold SpawnSvcRest.check_spawn_cooldown, stmt.
    case_decide as Hfault; [split; [by left | done] |].
    destruct (spawn_cooldowns !! chat) as [c |].
    - rewrite Z.leb_le. split.
      + intros Hle. right. by intros ? [= <-].
      + intros [? | Hall]; [done | by apply Hall].
    - split; [| done]. intros _. right. done. }
  destruct (SpawnSvcRest.check_spawn_cooldown _ _ _ _); cbn [negb].
  - destruct (SpawnSvc.get_active_spawn _ _ _ _).
    + split; [done |]. by intros (_ & _ & ?).
    + split; [| done]. intros _. split_and!; [done | by apply Hcheck | done].
  - split; [done |]. intros (_ & Hc & _). by apply Hcheck in Hc.
Qed.

(** X18: once [set_spawn_cooldown] has gone through at time [now], the
    check of that chat answers [True] exactly from [now] plus
    [SPAWN_COOLDOWN] seconds on, whatever the table held before, and
    [should_auto_spawn] answers [False] before that for every roll; the
    checks of the other chats answer as before.  When the query or the
    commit of [set_spawn_cooldown] fails the table is as it was, and a check
    whose query fails answers [True] whatever the table holds. *)
Theorem spawn_cooldown_round_trip
    (SPAWN_COOLDOWN : Z) (now t : datetime) (chat : Z)
    (spawn_cooldowns : gmap Z SpawnSvcRest.SpawnCooldown)
    (i : SpawnSvcRest.AutoIn) (d : DB) :
  let set := SpawnSvcRest.set_spawn_cooldown SPAWN_COOLDOWN None now chat spawn_cooldowns in
  SpawnSvcRest.check_spawn_cooldown None t chat set
  = bool_decide (now + SPAWN_COOLDOWN * 1000000 ≤ t) ∧
  (∀ other u, other ≠ chat →
              SpawnSvcRest.check_spawn_cooldown None u other set
              = SpawnSvcRest.check_spawn_cooldown None u other spawn_cooldowns) ∧
  (SpawnSvcRest.a_fault_cooldown i = None →
   SpawnSvcRest.a_utcnow_cooldown i < now + SPAWN_COOLDOWN * 1000000 →
   SpawnSvcRest.should_auto_spawn i chat d set = false) ∧
  (∀ n, (n < 2)%nat →
        SpawnSvcRest.set_spawn_cooldown SPAWN_COOLDOWN (Some n) now chat spawn_cooldowns
        = spawn_cooldowns) ∧
  (∀ u c table, SpawnSvcRest.check_spawn_cooldown (Some 0%nat) u c table = true).
Proof.
  cbv zeta. unfold SpawnSvcRest.set_spawn_cooldown, SpawnSvcRest.seconds.
  rewrite !stmt_no_fault. exn_simpl.
  split_and!.
  - unfold SpawnSvcRest.check_spawn_cooldown. rewrite stmt_no_fault, lookup_insert_eq.
    cbn [SpawnSvcRest.cooldown_until].
    destruct (Z.leb_spec (now + SPAWN_COOLDOWN * 1000000) t).
    + by rewrite bool_decide_eq_true_2.
    + rewrite bool_decide_eq_false_2; [done | lia].
  - intros other u Hne. unfold SpawnSvcRest.check_spawn_cooldown.
    by rewrite !stmt_no_fault, lookup_insert_ne.
  - intros Hfault Hearly. unfold SpawnSvcRest.should_auto_spawn.
    destruct (Qltb _ _); [done |].
    unfold SpawnSvcRest.check_spawn_cooldown.
    rewrite Hfault, stmt_no_fault, lookup_insert_eq. cbn [SpawnSvcRest.cooldown_until].
    by rewrite (proj2 (Z.leb_gt _ _) Hearly).
  - intros n Hn. destruct n as [| [| n]]; [| | lia].
    + by rewrite stmt_fault.
    + unfold stmt. by cbn.
  - intros u c table. unfold SpawnSvcRest.check_spawn_cooldown. by rewrite stmt_fault.
Qed.

(** ** Levels and experience *)

Lemma calculate_level_exp_mono (a b : Z) :
  a ≤ b → Helpers.calculate_level_exp a ≤ Helpers.calculate_level_exp b.
Proof.
  intros Hab. unfold Helpers.calculate_level_exp.
  destruct (Z.leb_spec a 1), (Z.leb_spec b 1); try lia.
  apply Z.pow_le_mono_l. lia.
Qed.

Lemma calculate_level_exp_ge (a : Z) :
  1 ≤ a → a = 1 ∨ a ≤ Helpers.calculate_level_exp a.
Proof.
  intros Ha. unfold Helpers.calculate_level_exp.
  destruct (Z.leb_spec a 1); [lia |].
  assert (a ^ 1 ≤ a ^ 3) by (apply Z.pow_le_mono_r; lia). lia.
Qed.

(** The loop stops at a level whose threshold is reached, and it stops
    because the next threshold is not, unless the fuel has run out. *)
Lemma level_loop_spec (fuel : nat) (experience level : Z) :
  Helpers.calculate_level_exp level ≤ experience →
  let r := Helpers.level_loop fuel experience level in
  level ≤ r ≤ level + Z.of_nat fuel ∧
  Helpers.calculate_level_exp r ≤ experience ∧
  (r < level + Z.of_nat fuel → experience < Helpers.calculate_level_exp (r + 1)).
Proof.
  revert level. induction fuel as [| fuel IH]; intros level Hlevel; cbn [Helpers.level_loop].
  - cbv zeta. split_and!; [lia | lia | done | lia].
  - destruct (Z.leb_spec (Helpers.calculate_level_exp (level + 1)) experience) as [Hle | Hgt].
    + destruct (IH (level + 1) Hle) as (Hr & Hreach & Hstop). cbv zeta.
      split_and!; [lia | lia | done |]. intros ?. apply Hstop. lia.
    + cbv zeta. split_and!; [lia | lia | done | done].
Qed.

(** The loop of [get_level_from_exp] ends before the fuel does. *)
Lemma level_loop_stops (experience : Z) :
  0 < experience →
  let r := Helpers.level_loop (Z.to_nat experience) experience 1 in
  1 ≤ r ∧ Helpers.calculate_level_exp r ≤ experience
  ∧ experience < Helpers.calculate_level_exp (r + 1).
Proof.
  intros Hpos.
  destruct (level_loop_spec (Z.to_nat experience) experience 1) as (Hr & Hreach & Hstop).
  { unfold Helpers.calculate_level_exp. cbn. lia. }
  cbv zeta. split_and!; [lia | done |].
  apply Hstop. pose proof (calculate_level_exp_ge _ (proj1 Hr)). lia.
Qed.

Lemma level_unique (experience a b : Z) :
  Helpers.calculate_level_exp a ≤ experience < Helpers.calculate_level_exp (a + 1) →
  Helpers.calculate_level_exp b ≤ experience < Helpers.calculate_level_exp (b + 1) →
  1 ≤ a → 1 ≤ b → a = b.
Proof.
  intros Ha Hb ? ?.
  destruct (Z.lt_trichotomy a b) as [Hlt | [-> | Hlt]]; [| done |].
  - pose proof (calculate_level_exp_mono (a + 1) b ltac:(lia)). lia.
  - pose proof (calculate_level_exp_mono (b + 1) a ltac:(lia)). lia.
Qed.

(** X19: [get_level_from_exp] returns a level between 1 and 100 whose
    threshold [calculate_level_exp] the experience has reached (for
    experience that is not negative); below the threshold of level 101 the
    threshold of the next level has not been reached, so the level is the
    highest one reached; from the threshold of level 100 on the level is
    100.  More experience never gives a lower level. *)
Theorem level_is_the_highest_threshold_reached (experience : Z) :
  let level := Helpers.get_level_from_exp experience in
  1 ≤ level ≤ 100 ∧
  (0 ≤ experience → Helpers.calculate_level_exp level ≤ experience) ∧
  (experience < Helpers.calculate_level_exp 101 →
   experience < Helpers.calculate_level_exp (level + 1)) ∧
  (Helpers.calculate_level_exp 100 ≤ experience → level = 100) ∧
  (∀ more, experience ≤ more → level ≤ Helpers.get_level_from_exp more).
Proof.
  assert (∀ e, 0 < e →
            ∃ r, Helpers.get_level_from_exp e = Z.min r 100 ∧ 1 ≤ r ∧
                 Helpers.calculate_level_exp r ≤ e
                 ∧ e < Helpers.calculate_level_exp (r + 1)) as Hloop.
  { intros e He. exists (Helpers.level_loop (Z.to_nat e) e 1).
    split; [| by apply level_loop_stops].
    unfold Helpers.get_level_from_exp. destruct (Z.leb_spec e 0); [lia | done]. }
  assert (∀ e, e ≤ 0 → Helpers.get_level_from_exp e = 1) as Hlow.
  { intros e He. unfold Helpers.get_level_from_exp. by destruct (Z.leb_spec e 0); [| lia]. }
  assert (Helpers.calculate_level_exp 1 = 0) as H1 by done.
  assert (Helpers.calculate_level_exp 2 = 8) as H2 by done.
  cbv zeta. destruct (Z.le_gt_cases experience 0) as [Hle | Hpos].
  - rewrite (Hlow _ Hle). split_and!; try lia.
    + intros _. change (1 + 1) with 2. lia.
    + intros Hc. change (Helpers.calculate_level_exp 100) with 1000000 in Hc. lia.
    + intros more Hmore. destruct (Z.le_gt_cases more 0) as [? | Hm].
      * rewrite Hlow by done. lia.
      * destruct (Hloop more Hm) as (r & -> & ? & _). lia.
  - destruct (Hloop _ Hpos) as (r & -> & Hr & Hreach & Hstop).
    split_and!.
    + lia.
    + lia.
    + intros _. destruct (Z.le_gt_cases r 100) as [? | Hbig].
      * by rewrite Z.min_l.
      * rewrite Z.min_r by lia.
        pose proof (calculate_level_exp_mono 100 r ltac:(lia)). lia.
    + intros Hcap. destruct (Z.le_gt_cases r 100) as [? | Hbig].
      * rewrite Z.min_l by done.
        pose proof (calculate_level_exp_mono (r + 1) 101 ltac:(lia)). lia.
      * rewrite Z.min_r by lia. exact Hcap.
    + intros Hcap. destruct (Z.le_gt_cases 100 r) as [? | Hsmall]; [lia |].
      pose proof (calculate_level_exp_mono (r + 1) 100 ltac:(lia)). lia.
    + intros more Hmore. destruct (Hloop more ltac:(lia)) as (r' & -> & Hr' & Hreach' & Hstop').
      destruct (Z.le_gt_cases r r') as [? | Hgt]; [lia |].
      pose proof (calculate_level_exp_mono (r' + 1) r ltac:(lia)). lia.
Qed.

(** X20: for a level from 1 to 100, the experience [calculate_level_exp]
    asks for gives back that level, and so does any experience short of
    the next threshold; from the threshold of a level below 100, gaining
    [calculate_exp_for_next_level] gives the next level. *)
Theorem level_round_trip (level : Z) :
  1 ≤ level ≤ 100 →
  Helpers.get_level_from_exp (Helpers.calculate_level_exp level) = level ∧
  (∀ experience,
     Helpers.calculate_level_exp level ≤ experience
     < Helpers.calculate_level_exp (level + 1) →
     Helpers.get_level_from_exp experience = level) ∧
  (level < 100 →
   Helpers.get_level_from_exp
     (Helpers.calculate_level_exp level + Helpers.calculate_exp_for_next_level level)
   = level + 1).
Proof.
  intros Hlevel.
  assert (∀ l e, 1 ≤ l ≤ 100 →
            Helpers.calculate_level_exp l ≤ e < Helpers.calculate_level_exp (l + 1) →
            Helpers.get_level_from_exp e = l) as Hbetween.
  { intros l e Hl He. unfold Helpers.get_level_from_exp.
    destruct (Z.leb_spec e 0) as [Hle | Hpos].
    - destruct (Z.le_gt_cases l 1); [lia |].
      pose proof (calculate_level_exp_mono 2 l ltac:(lia)) as Hm.
      change (Helpers.calculate_level_exp 2) with 8 in Hm. lia.
    - destruct (level_loop_stops e Hpos) as (Hr & Hreach & Hstop).
      assert (Helpers.level_loop (Z.to_nat e) e 1 = l) as ->
        by (apply (level_unique e); [by split | done | done | lia]).
      lia. }
  assert (∀ l, 1 ≤ l →
            Helpers.calculate_level_exp l < Helpers.calculate_level_exp (l + 1)) as Hstrict.
  { intros l Hl. unfold Helpers.calculate_level_exp.
    destruct (Z.leb_spec l 1), (Z.leb_spec (l + 1) 1); lia. }
  split_and!.
  - apply Hbetween; [done |]. split; [lia | apply Hstrict; lia].
  - intros experience He. by apply Hbetween.
  - intros Hlt. unfold Helpers.calculate_exp_for_next_level.
    replace (Helpers.calculate_level_exp level
             + (Helpers.calculate_level_exp (level + 1) - Helpers.calculate_level_exp level))
      with (Helpers.calculate_level_exp (level + 1)) by lia.
    apply Hbetween; [lia |]. split; [lia | apply Hstrict; lia].
Qed.

Lemma level_round_trip_witness :
  Helpers.get_level_from_exp (Helpers.calculate_level_exp 10) = 10 ∧
  Helpers.get_level_from_exp 1330 = 10.
Proof.
  destruct (level_round_trip 10 ltac:(lia)) as (Hexact & Hbetween & _).
  split; [exact Hexact |].
  apply Hbetween. change (1000 ≤ 1330 < 1331). lia.
Defined.

(** ** Rarity *)

(** X21: for every species, [determine_rarity] ranks the shiny form
    strictly above the ordinary one, and at [EPIC] or above; the ordinary
    form is never [EPIC] or [MYTHICAL]. *)
Theorem shiny_is_always_rarer (pokemon_id : Z) :
  rank (Helpers.determine_rarity pokemon_id false)
  < rank (Helpers.determine_rarity pokemon_id true) ∧
  rank Helpers.EPIC ≤ rank (Helpers.determine_rarity pokemon_id true) ∧
  Helpers.determine_rarity pokemon_id false ≠ Helpers.EPIC ∧
  Helpers.determine_rarity pokemon_id false ≠ Helpers.MYTHICAL.
Proof.
  unfold Helpers.determine_rarity.
  repeat case_bool_decide; cbn; split_and!; (lia || done).
Qed.

(** X22: [_get_random_pokemon_id] never raises (none of the lists it draws
    from is empty) and returns an id from 1 to 649.  With a roll below 0.01
    the id is one [determine_rarity] ranks [LEGENDARY]; with a roll from
    0.01 up to (not including) 0.06 it is one it ranks [RARE]. *)
Theorem random_pokemon_id_in_range (roll : Q) (seed : Z) :
  ∃ id, SpawnSvcRest._get_random_pokemon_id roll seed = Ok id ∧
        1 ≤ id ≤ 649 ∧
        ((roll < 0.01)%Q →
         Helpers.determine_rarity id false = Helpers.LEGENDARY) ∧
        ((0.01 <= roll)%Q → (roll < 0.06)%Q →
         Helpers.determine_rarity id false = Helpers.RARE).
Proof.
  assert (∀ (l : list Z) (P : Z → Prop),
            l ≠ [] → Forall P l →
            ∃ id, FastSpawn.choice_exn l seed = Ok id ∧ P id) as Hdraw.
  { intros l P Hl HP. unfold FastSpawn.choice_exn.
    destruct (choice_nonempty l seed Hl) as [id Hid]. rewrite Hid.
    exists id. split; [done |].
    apply choice_elem in Hid. by eapply Forall_forall in HP. }
  unfold SpawnSvcRest._get_random_pokemon_id. cbv zeta.
  destruct (Qltb roll 0.01) eqn:H1.
  { destruct (Hdraw Helpers.get_legendary_pokemon
                (λ id, 1 ≤ id ≤ 649
                       ∧ Helpers.determine_rarity id false = Helpers.LEGENDARY))
      as (id & -> & Hrange & Hrar); [done | |].
    { unfold Helpers.get_legendary_pokemon.
      repeat (apply Forall_cons; split; [split; [lia | reflexivity] |]).
      apply Forall_nil_2. }
    exists id. split_and!; try done; try lia.
    apply Qltb_lt in H1. intros Hge _. exfalso. by apply (Qlt_not_le _ _ H1). }
  apply Qltb_ge in H1.
  destruct (Qltb roll 0.060000000000000005) eqn:H2.
  { destruct (Hdraw Helpers.get_rare_pokemon
                (λ id, 1 ≤ id ≤ 649
                       ∧ Helpers.determine_rarity id false = Helpers.RARE))
      as (id & -> & Hrange & Hrar); [done | |].
    { unfold Helpers.get_rare_pokemon.
      repeat (apply Forall_cons; split; [split; [lia | reflexivity] |]).
      apply Forall_nil_2. }
    exists id. split_and!; try done; try lia.
    intros Hlt. exfalso. by apply (Qlt_not_le _ _ Hlt). }
  apply Qltb_ge in H2.
  assert (¬ (roll < 0.06)%Q) as Hnot.
  { intros Hlt. apply (Qlt_not_le _ _ Hlt).
    apply Qle_trans with 0.060000000000000005%Q; [by vm_compute | exact H2]. }
  assert ((roll < 0.01)%Q → False) as Hnot1
    by (intros Hlt; by apply (Qlt_not_le _ _ Hlt)).
  destruct (Qltb roll 0.21).
  { destruct (Hdraw SpawnSvcRest.starters (λ id, 1 ≤ id ≤ 649))
      as (id & -> & Hrange); [done | |].
    { apply Forall_forall. intros x. unfold SpawnSvcRest.starters.
      rewrite !elem_of_app, !elem_of_seqZ. lia. }
    exists id. split_and!; try done; try lia. }
  pose proof (randint_range 1 649 seed ltac:(lia)).
  exists (randint 1 649 seed). split_and!; try done; lia.
Qed.

(** X23: along the members of [PokemonRarity], from [COMMON] to
    [MYTHICAL], [_get_catch_rate] goes down and [_calculate_catch_exp] goes
    up, the latter also along the level; the rates lie strictly between 0
    and 1. *)
Theorem rarer_is_harder_and_pays_more
    (r1 r2 : Helpers.PokemonRarity) (level1 level2 : Z) :
  rank r1 < rank r2 → level1 ≤ level2 →
  (SpawnSvcRest._get_catch_rate (Helpers.value r2)
   < SpawnSvcRest._get_catch_rate (Helpers.value r1))%Q ∧
  (0 < SpawnSvcRest._get_catch_rate (Helpers.value r2))%Q ∧
  (SpawnSvcRest._get_catch_rate (Helpers.value r1) < 1)%Q ∧
  SpawnSvcRest._calculate_catch_exp (Helpers.value r1) level1
  < SpawnSvcRest._calculate_catch_exp (Helpers.value r2) level2.
Proof.
  intros Hrank Hlevel.
  assert (SpawnSvcRest.base_exp (Helpers.value r1)
          < SpawnSvcRest.base_exp (Helpers.value r2)) as Hbase
    by (destruct r1, r2; cbn in Hrank; try lia; reflexivity).
  split_and!.
  - destruct r1, r2; cbn in Hrank; try lia; reflexivity.
  - destruct r2; reflexivity.
  - destruct r1; reflexivity.
  - unfold SpawnSvcRest._calculate_catch_exp.
    pose proof (Z.div_le_mono level1 level2 5 ltac:(lia) Hlevel). lia.
Qed.

Lemma rarer_is_harder_and_pays_more_witness :
  (SpawnSvcRest._get_catch_rate "legendary" < SpawnSvcRest._get_catch_rate "rare")%Q ∧
  SpawnSvcRest._calculate_catch_exp "rare" 10
  < SpawnSvcRest._calculate_catch_exp "legendary" 10.
Proof.
  destruct (rarer_is_harder_and_pays_more Helpers.RARE Helpers.LEGENDARY 10 10
              ltac:(reflexivity) ltac:(lia)) as (Hrate & _ & _ & Hexp).
  split; [exact Hrate | exact Hexp].
Defined.

(** ** The catch button *)

Lemma string_app_cons (a : Ascii.ascii) (s t : string) :
  String a s +:+ t = String a (s +:+ t).
Proof. reflexivity. Qed.

Lemma string_app_nil_l (s : string) : "" +:+ s = s.
Proof. reflexivity. Qed.

Lemma string_app_nil_r (s : string) : s +:+ "" = s.
Proof. induction s as [| a s IH]; [done |]. by rewrite string_app_cons, IH. Qed.

Lemma string_app_assoc (s1 s2 s3 : string) : (s1 +:+ s2) +:+ s3 = s1 +:+ (s2 +:+ s3).
Proof. induction s1 as [| a s1 IH]; [done |]. by rewrite !string_app_cons, IH. Qed.

Lemma chars_app (s1 s2 : string) :
  String.list_ascii_of_string (s1 +:+ s2)
  = String.list_ascii_of_string s1 ++ String.list_ascii_of_string s2.
Proof.
  induction s1 as [| a s1 IH]; [done |].
  rewrite string_app_cons. cbn [String.list_ascii_of_string]. by rewrite IH.
Qed.

Lemma startswith_app (sep s : string) : PyStr.startswith sep (sep +:+ s) = true.
Proof.
  induction sep as [| a sep IH]; [done |].
  rewrite string_app_cons. cbn [PyStr.startswith]. by rewrite bool_decide_eq_true_2.
Qed.

Lemma split_go_skip (sep cur pre s : string) :
  PyStr.split_go sep (String.length pre) cur (pre +:+ s) = PyStr.split_go sep 0 cur s.
Proof.
  induction pre as [| a pre IH]; [done |].
  rewrite string_app_cons. cbn [String.length PyStr.split_go]. exact IH.
Qed.

Lemma split_go_no_sep (sep cur s : string) :
  PyStr.contains sep s = false → PyStr.split_go sep 0 cur s = [cur +:+ s].
Proof.
  revert cur. induction s as [| a s IH]; intros cur Hno.
  - cbn [PyStr.split_go]. by rewrite string_app_nil_r.
  - cbn [PyStr.contains] in Hno. apply orb_false_iff in Hno as [Hstart Hrest].
    cbn [PyStr.split_go]. rewrite Hstart, IH by done.
    by rewrite string_app_assoc, string_app_cons, string_app_nil_l.
Qed.

(** [(sep + s).split(sep)] is [['', s]] when [sep] does not occur in
    [s]. *)
Lemma split_prefixed (sep s : string) :
  sep ≠ "" → PyStr.contains sep s = false → PyStr.split sep (sep +:+ s) = [""; s].
Proof.
  intros Hsep Hno. destruct sep as [| a sep']; [done |].
  pose proof (startswith_app (String a sep') s) as Hstart.
  unfold PyStr.split. rewrite string_app_cons in *. cbn [PyStr.split_go].
  rewrite Hstart. cbn [String.length].
  replace (S (String.length sep') - 1)%nat with (String.length sep') by lia.
  by rewrite split_go_skip, split_go_no_sep.
Qed.

Lemma contains_first_char_absent (a : Ascii.ascii) (sep s : string) :
  a ∉ String.list_ascii_of_string s → PyStr.contains (String a sep) s = false.
Proof.
  induction s as [| b s IH]; intros Hno; [done |].
  cbn [String.list_ascii_of_string] in Hno. apply not_elem_of_cons in Hno as [Hne Hrest].
  cbn [PyStr.contains PyStr.startswith]. rewrite bool_decide_eq_false_2 by done.
  cbn. by apply IH.
Qed.

Lemma pretty_N_go_chars (a : Ascii.ascii) (x : N) (s : string) :
  (∀ d, a ≠ pretty_N_char d) →
  a ∉ String.list_ascii_of_string s →
  a ∉ String.list_ascii_of_string (pretty_N_go x s).
Proof.
  intros Hdigit. revert s. induction (N.lt_wf_0 x) as [x _ IH]; intros s Hs.
  assert (x = 0 ∨ 0 < x)%N as [-> | ?] by lia.
  - by rewrite pretty_N_go_0.
  - rewrite pretty_N_go_step by done. apply IH; [by apply N.div_lt |].
    cbn. apply not_elem_of_cons. split; [apply Hdigit | done].
Qed.

(** The decimal notation of an integer is made of digits and a sign. *)
Lemma pretty_Z_chars (a : Ascii.ascii) (z : Z) :
  (∀ d, a ≠ pretty_N_char d) → a ∉ String.list_ascii_of_string "-" →
  a ∉ String.list_ascii_of_string (pretty z).
Proof.
  intros Hdigit Hdash.
  assert (∀ p, a ∉ String.list_ascii_of_string (pretty (Npos p))) as Hpos.
  { intros p. unfold pretty, pretty_N. rewrite decide_False by done.
    apply pretty_N_go_chars; [done | apply not_elem_of_nil]. }
  destruct z as [| p | p].
  - apply not_elem_of_cons. split; [apply (Hdigit 0%N) | apply not_elem_of_nil].
  - apply Hpos.
  - change (pretty (Z.neg p)) with ("-" +:+ pretty (Npos p)).
    rewrite chars_app, not_elem_of_app. split; [done | apply Hpos].
Qed.

(** The ids [create_spawn] builds do not contain the prefix of the button
    data. *)
Lemma fast_new_spawn_no_catch (i : FastSpawn.CreateIn) (chat : Z) (s : Spawn) :
  FastSpawn.new_spawn i chat = Ok s → PyStr.contains "catch_" (spawn_id s) = false.
Proof.
  intros Hnew.
  assert (∃ a b : Z, spawn_id s = "spawn_" +:+ pretty a +:+ "_" +:+ pretty b)
    as (a & b & ->).
  { revert Hnew. unfold FastSpawn.new_spawn.
    destruct (FastSpawn.choice_exn FastSpawn._pokemon_names _); exn_simpl; [| done].
    destruct (if Qltb _ _ then _ else _); exn_simpl; [| done].
    intros [= <-]. cbn [spawn_id]. eauto. }
  apply contains_first_char_absent.
  rewrite !chars_app, !not_elem_of_app.
  split_and!;
    try (apply pretty_Z_chars;
         [intros d; unfold pretty_N_char; by repeat case_match |]);
    cbn [String.list_ascii_of_string];
    repeat (apply not_elem_of_cons; split; [done |]); apply not_elem_of_nil.
Qed.

(** X24: the button shown for a spawn that [create_spawn] has made reaches
    that spawn: [catch_button_handler] splits the id it was made from out
    of the callback data (the ids [create_spawn] builds never contain
    ["catch_"]), and so it never answers "Invalid action" and the indexing
    of the split never raises.  When it answers with a capture, the row of
    that spawn is marked caught by the user who pressed.  With any other
    answer the store is as it was, and so is the cache, with one exception:
    when the COMMIT of the capture raises, the answer is "Catch failed!"
    and the cache entry of the chat is gone although nothing was captured.
    Pressed before the spawn expires, with a roll above 0.02, a new pokemon
    id and no store fault, it answers with the capture. *)
Theorem catch_button_reaches_the_created_spawn
    (sprite : Z → bool → exn (option string)) (ci : FastSpawn.CreateIn) (chat : Z)
    (st : FastSpawn.State) (bi : Handlers.ButtonIn) (uid : Z) :
  (FastSpawn.create_spawn ci chat st).2 = true →
  ∃ s, FastSpawn.new_spawn ci chat = Ok s ∧
    let st1 := (FastSpawn.create_spawn ci chat st).1 in
    let data := Handlers.catch_button_data (FastSpawn.cache_entry_of_new s) in
    let ki := Handlers.b_catch bi in
    let out := Handlers.catch_button_handler sprite bi data uid st1 in
    PyStr.split "catch_" data !! 1%nat = Some (spawn_id s) ∧
    out.2 ≠ Handlers.InvalidAction ∧ out.2 ≠ Handlers.CatchError ∧
    (∀ msg, out.2 = Handlers.CapturedOk msg →
            spawns (FastSpawn.db out.1) !! spawn_id s
            = Some (mark_caught s uid (FastSpawn.k_now ki))) ∧
    ((∀ msg, out.2 ≠ Handlers.CapturedOk msg) →
     FastSpawn.db out.1 = FastSpawn.db st1 ∧
     (out.1 = st1 ∨
      (FastSpawn.k_fault ki = Some 5%nat ∧
       out = (FastSpawn.mkState (FastSpawn.db st1)
                (delete chat (FastSpawn._spawn_cache st1)),
              Handlers.CatchFailed "Catch failed!")))) ∧
    (Handlers.b_fault bi = None → Handlers.b_now bi < expires_at s →
     FastSpawn.k_fault ki = None → FastSpawn.k_now ki < expires_at s →
     (0.02 < FastSpawn.k_roll ki)%Q →
     pokemon (FastSpawn.db st) !! pokemon_id (FastSpawn.new_pokemon ki uid s) = None →
     out.2 = Handlers.CapturedOk (FastSpawn.caught_message s)).
Proof.
  intros Hcreated.
  destruct (fast_create_true_inv ci chat st Hcreated) as (s & Hnew & Hfresh & _ & ->).
  destruct (fast_new_spawn_payload ci chat s Hnew) as (Hchat & _ & _ & _ & _ & Hc & _).
  pose proof (fast_new_spawn_no_catch ci chat s Hnew) as Hno.
  exists s. split; [done |]. cbv zeta.
  unfold Handlers.catch_button_data. cbn [FastSpawn.cache_entry_of_new FastSpawn.d_spawn_id].
  assert (PyStr.split "catch_" ("catch_" +:+ spawn_id s) !! 1%nat = Some (spawn_id s))
    as Hsplit by (by rewrite split_prefixed).
  split; [exact Hsplit |].
  unfold Handlers.catch_button_handler. rewrite startswith_app, Hsplit. cbn [negb].
  set (st1 := FastSpawn.mkState _ _).
  assert (spawns (FastSpawn.db st1) !! spawn_id s = Some s) as Hrow
    by (subst st1; cbn; by rewrite lookup_insert_eq).
  unfold Handlers.get_spawn_by_id, FastSpawn.select_unexpired. rewrite Hrow.
  stmt_split.
  { cbn [fst snd]. split_and!; try done;
      [intros _; split; [done | by left] | intros ?; congruence]. }
  destruct (Z.ltb_spec (Handlers.b_now bi) (expires_at s)) as [Hlive | Hdead].
  2: { cbn [fst snd]. split_and!; try done;
         [intros _; split; [done | by left] | intros _ ?; lia]. }
  cbn [Handlers.info_is_caught]. rewrite Hc.
  pose proof (fast_catch_failure_cases (Handlers.b_catch bi) (spawn_id s) uid st1)
    as Hfail.
  pose proof (fast_catch_success_state (Handlers.b_catch bi) (spawn_id s) uid st1)
    as Hwin.
  pose proof (fast_catch_hit (FastSpawn.db st1) (FastSpawn._spawn_cache st1)
                (spawn_id s) uid s (Handlers.b_catch bi) Hrow Hc) as Hhit.
  change (FastSpawn.mkState (FastSpawn.db st1) (FastSpawn._spawn_cache st1))
    with st1 in Hhit.
  destruct (FastSpawn.catch_spawn _ _ _ st1) as [st' [success message]].
  cbn [fst snd] in *. destruct success; cbn [fst snd].
  - destruct Hwin as (s0 & Hs0 & _ & _ & _ & Hout); [done |].
    assert (s0 = s) as -> by congruence.
    injection Hout as -> ->.
    split_and!; try done.
    + intros msg _. cbn. by rewrite lookup_insert_eq.
    + intros Hnever. by destruct (Hnever (FastSpawn.caught_message s)).
  - split_and!; try done.
    + intros _.
      destruct Hfail as [-> | (Hcommit & s0 & Hs0 & _ & _ & _ & Hout)]; [done | by auto |].
      assert (s0 = s) as -> by congruence.
      injection Hout as -> ->. rewrite Hchat. split; [done |]. by right.
    + intros _ _ Hf Hexp Hroll Hnew'.
      specialize (Hhit Hf Hexp Hroll Hnew'). congruence.
Qed.

Lemma catch_button_reaches_the_created_spawn_witness :
  let st1 := (FastSpawn.create_spawn (Ex.fast_create 0 0) 7 Ex.empty).1 in
  let bi := Handlers.mkButtonIn None (minutes 1) (Ex.fast_call (minutes 1) 0.5 1) in
  (FastSpawn.create_spawn (Ex.fast_create 0 0) 7 Ex.empty).2 = true ∧
  ∃ msg, (Handlers.catch_button_handler Ex.no_sprite bi "catch_spawn_0_1000" 101 st1).2
         = Handlers.CapturedOk msg.
Proof.
  cbv zeta. split; [reflexivity |].
  destruct (catch_button_reaches_the_created_spawn Ex.no_sprite (Ex.fast_create 0 0) 7
              Ex.empty
              (Handlers.mkButtonIn None (minutes 1) (Ex.fast_call (minutes 1) 0.5 1))
              101 eq_refl) as (s & Hnew & _ & _ & _ & _ & _ & Hcaptured).
  cbv zeta in Hcaptured.
  vm_compute in Hnew. injection Hnew as <-.
  eexists. apply Hcaptured; reflexivity.
Defined.

(** ** The handlers that catch and announce *)

Lemma fast_get_active_cases
    (sprite : Z → bool → exn (option string)) (fault : option nat) (now : datetime)
    (chat : Z) (st : FastSpawn.State) :
  let out := FastSpawn.get_active_spawn sprite fault now chat st in
  FastSpawn.db out.1 = FastSpawn.db st ∧
  match out.2 with
  | None => out.1 = st ∧ FastSpawn._spawn_cache st !! chat = None
  | Some data =>
      FastSpawn._spawn_cache out.1 = <[chat := data]> (FastSpawn._spawn_cache st)
  end.
Proof.
  cbv zeta. unfold FastSpawn.get_active_spawn.
  destruct (FastSpawn._spawn_cache st !! chat) as [cached |]; [done |].
  stmt_split; [done |].
  by destruct (FastSpawn.select_active chat now (FastSpawn.db st)).
Qed.

(** X25: the three answers of [catch_handler].  "No Wild Pokemon Found"
    means the chat had no cache entry and nothing has changed.  "Capture
    Failed" leaves the store as it was; unless it is the COMMIT of the
    capture that raised, it also leaves the chat with a cache entry, so
    that the next [/catch] aims at the same spawn, and when the COMMIT
    raised the only change is that the cache entry of the chat of the
    spawn is gone.  A capture is always of a row that was not caught and
    had not expired at the clock of the transaction; it marks that row
    caught by the user and drops the cache entry of the chat of that
    row. *)
Theorem catch_handler_outcomes
    (sprite : Z → bool → exn (option string)) (i : Handlers.CatchHandlerIn)
    (uid chat : Z) (st : FastSpawn.State) :
  let out := Handlers.catch_handler sprite i uid chat st in
  let ki := Handlers.h_catch i in
  (out.2 = Handlers.NoWildPokemon →
   out.1 = st ∧ FastSpawn._spawn_cache st !! chat = None) ∧
  (∀ msg, out.2 = Handlers.CaptureFailed msg →
          FastSpawn.db out.1 = FastSpawn.db st ∧
          (is_Some (FastSpawn._spawn_cache out.1 !! chat) ∨
           (FastSpawn.k_fault ki = Some 5%nat ∧ msg = "Catch failed!" ∧
            ∃ data s, (FastSpawn.get_active_spawn sprite (Handlers.h_fault i)
                         (Handlers.h_now i) chat st).2 = Some data ∧
                      spawns (FastSpawn.db st) !! FastSpawn.d_spawn_id data = Some s ∧
                      FastSpawn._spawn_cache out.1
                      = delete (chat_id s) (<[chat := data]> (FastSpawn._spawn_cache st))))) ∧
  (∀ msg, out.2 = Handlers.Captured msg →
          ∃ sid s, spawns (FastSpawn.db st) !! sid = Some s ∧
                   is_caught s = false ∧ FastSpawn.k_now ki < expires_at s ∧
                   spawns (FastSpawn.db out.1) !! sid
                   = Some (mark_caught s uid (FastSpawn.k_now ki)) ∧
                   FastSpawn._spawn_cache out.1 !! chat_id s = None ∧
                   msg = FastSpawn.caught_message s).
Proof.
  cbv zeta. unfold Handlers.catch_handler.
  pose proof (fast_get_active_cases sprite (Handlers.h_fault i) (Handlers.h_now i) chat st)
    as Hget. cbv zeta in Hget.
  destruct (FastSpawn.get_active_spawn _ _ _ _ _) as [st1 [data |]];
    cbn [fst snd] in Hget; destruct Hget as [Hdb Hcache].
  2: { destruct Hcache as [-> Hnone]. cbn [fst snd]. done. }
  pose proof (fast_catch_failure_cases (Handlers.h_catch i)
                (FastSpawn.d_spawn_id data) uid st1) as Hfail.
  pose proof (fast_catch_success_state (Handlers.h_catch i)
                (FastSpawn.d_spawn_id data) uid st1) as Hwin.
  destruct (FastSpawn.catch_spawn _ _ _ st1) as [st2 [success message]].
  cbn [fst snd] in *. destruct success; cbn [fst snd].
  - destruct Hwin as (s & Hs & Hc & Hexp & _ & Hout); [done |].
    injection Hout as -> ->. split_and!; try done.
    intros msg [= <-]. exists (FastSpawn.d_spawn_id data), s.
    cbn [FastSpawn.db FastSpawn._spawn_cache spawns].
    rewrite <- Hdb, !lookup_insert_eq, lookup_delete_eq. done.
  - split_and!; try done.
    intros msg [= <-].
    destruct Hfail as [-> | (Hcommit & s & Hs & _ & _ & _ & Hout)]; [done | |].
    + split; [done |]. left. rewrite Hcache, lookup_insert_eq. by eexists.
    + injection Hout as -> ->. split; [done |]. right.
      split_and!; try done. exists data, s. rewrite <- Hdb, <- Hcache. done.
Qed.

(** X26: [auto_spawn_handler] announces a spawn only in a group or a
    supergroup, when the hash of the message falls below 3 out of 100 and
    the chat had no cache entry, and then the spawn announced is one it has
    just inserted, the only row added; it is announced with the sprite
    looked up for species 1, the cache entry of a new spawn carrying no
    species id, and with a button whose data is ["catch_"] followed by its
    id.  When nothing is announced the store is as it was, and outside
    groups nothing at all is touched. *)
Theorem auto_spawn_handler_outcomes
    (sprite : Z → bool → exn (option string)) (i : Handlers.AutoSpawnIn)
    (chat_type : string) (chat : Z) (st : FastSpawn.State) :
  let out := Handlers.auto_spawn_handler sprite i chat_type chat st in
  (out.2 = None → FastSpawn.db out.1 = FastSpawn.db st) ∧
  (chat_type ∉ ["group"; "supergroup"] → out = (st, None)) ∧
  (∀ data, out.2 = Some data →
     chat_type ∈ ["group"; "supergroup"] ∧
     0 ≤ Handlers.s_hash i mod 100 < 3 ∧
     FastSpawn._spawn_cache st !! chat = None ∧
     ∃ s, FastSpawn.new_spawn (Handlers.s_create i) chat = Ok s ∧
          spawns (FastSpawn.db st) !! spawn_id s = None ∧
          spawns (FastSpawn.db out.1) = <[spawn_id s := s]> (spawns (FastSpawn.db st)) ∧
          data = FastSpawn.with_image_url (FastSpawn.cache_entry_of_new s)
                   (FastSpawn.image_url_of sprite 1 (is_shiny s)) ∧
          Handlers.catch_button_data data = "catch_" +:+ spawn_id s).
Proof.
  cbv zeta. unfold Handlers.auto_spawn_handler.
  case_bool_decide as Hgroup; cbn [negb]; [| done].
  destruct (Z.ltb_spec (Handlers.s_hash i mod 100) 3) as [Hhash | Hhash]; cbn [negb];
    [| done].
  pose proof (Z.mod_pos_bound (Handlers.s_hash i) 100 ltac:(lia)) as Hmod.
  pose proof (fast_get_active_cases sprite (Handlers.s_fault_first i)
                (Handlers.s_now_first i) chat st) as Hget. cbv zeta in Hget.
  destruct (FastSpawn.get_active_spawn _ _ _ _ st) as [st1 [active |]];
    cbn [fst snd] in Hget; destruct Hget as [Hdb Hcache]; [done |].
  destruct Hcache as [-> Hnone].
  pose proof (fast_create_true_inv (Handlers.s_create i) chat st) as Htrue.
  pose proof (fast_create_false_unchanged (Handlers.s_create i) chat st) as Hfalse.
  destruct (FastSpawn.create_spawn _ _ _) as [st2 success]. cbn [fst snd] in *.
  destruct success; cbn [negb].
  - destruct Htrue as (s & Hnew & Hfresh & _ & ->); [done |].
    unfold FastSpawn.get_active_spawn. cbn [FastSpawn._spawn_cache FastSpawn.db].
    rewrite lookup_insert_eq. cbn [fst snd].
    split_and!; try done.
    intros data [= <-]. split_and!; try done; try lia.
    exists s. done.
  - rewrite Hfalse by done. done.
Qed.

Lemma select_active_unique (chat : Z) (now : datetime) (d : DB) (k : string) (s : Spawn) :
  spawns d !! k = Some s →
  active_in chat now s = true →
  (∀ k' s', spawns d !! k' = Some s' → active_in chat now s' = true → s' = s) →
  FastSpawn.select_active chat now d = Some s.
Proof.
  intros Hk Hact Honly. unfold FastSpawn.select_active.
  destruct (latest _) as [r |] eqn:Hlatest.
  - apply latest_elem, elem_of_select_spawns in Hlatest as [[k' Hk'] Hact'].
    f_equal. by eapply Honly.
  - apply latest_None in Hlatest.
    assert (s ∈ select_spawns (active_in chat now) d) as Hin
      by (apply elem_of_select_spawns; split; [by exists k | done]).
    rewrite Hlatest in Hin. by apply elem_of_nil in Hin.
Qed.

(** X27: a spawn made by [create_spawn] is shown with two different
    sprites.  While the cache entry written by [create_spawn] lasts,
    [get_active_spawn] looks up the sprite of species 1, whatever species
    id the row has; once [cleanup_expired] has emptied the cache, the same
    spawn, still active, is read from the store and shown with the sprite
    of its own species id. *)
Theorem created_spawn_has_two_sprites
    (sprite : Z → bool → exn (option string)) (ci : FastSpawn.CreateIn) (chat : Z)
    (st : FastSpawn.State) (fault : option nat) (now : datetime) :
  (FastSpawn.create_spawn ci chat st).2 = true →
  ∃ s, FastSpawn.new_spawn ci chat = Ok s ∧
    let st1 := (FastSpawn.create_spawn ci chat st).1 in
    (FastSpawn.get_active_spawn sprite fault now chat st1).2
    = Some (FastSpawn.with_image_url (FastSpawn.cache_entry_of_new s)
              (FastSpawn.image_url_of sprite 1 (is_shiny s))) ∧
    (FastSpawn.c_now_select ci ≤ now → now < expires_at s →
     (FastSpawn.get_active_spawn sprite None now chat
        (FastSpawn.cleanup_expired None now st1).1).2
     = Some (FastSpawn.with_image_url (FastSpawn.spawn_data_of_row s)
               (FastSpawn.image_url_of sprite (species_id s) (is_shiny s)))).
Proof.
  intros Hcreated.
  destruct (fast_create_true_inv ci chat st Hcreated) as (s & Hnew & Hfresh & Hnone & ->).
  destruct (fast_new_spawn_payload ci chat s Hnew) as (Hchat & _ & _ & _ & _ & Hc & _).
  exists s. split; [done |]. cbv zeta. split.
  { unfold FastSpawn.get_active_spawn. cbn [FastSpawn._spawn_cache].
    by rewrite lookup_insert_eq. }
  intros Hafter Hlive.
  unfold FastSpawn.cleanup_expired. rewrite stmt_no_fault.
  cbn [fst FastSpawn.db spawns pokemon users].
  unfold FastSpawn.get_active_spawn. cbn [FastSpawn._spawn_cache FastSpawn.db].
  rewrite lookup_empty, stmt_no_fault.
  assert (active_in chat now s = true) as Hact by (by apply active_in_spec).
  rewrite (select_active_unique chat now _ (spawn_id s) s); [done | | done |].
  - cbn [spawns]. apply cleanup_kept_lookup. rewrite lookup_insert_eq.
    split; [done | right; lia].
  - intros k' s' Hk' Hact'. cbn [spawns] in Hk'.
    apply cleanup_kept_lookup in Hk' as [Hk' _].
    rewrite lookup_insert in Hk'. case_decide; [congruence |].
    by rewrite (old_rows_inactive_later chat _ now _ k' s' Hnone Hafter Hk') in Hact'.
Qed.

Lemma created_spawn_has_two_sprites_witness :
  let sprite : Z → bool → exn (option string) :=
    fun species_id _ => Ok (Some (pretty species_id)) in
  let st1 := (FastSpawn.create_spawn (Ex.fast_create 0 4) 7 Ex.empty).1 in
  (FastSpawn.create_spawn (Ex.fast_create 0 4) 7 Ex.empty).2 = true ∧
  FastSpawn.d_image_url <$> (FastSpawn.get_active_spawn sprite None (minutes 1) 7 st1).2
  = Some (Some (Some "1")) ∧
  FastSpawn.d_image_url <$>
    (FastSpawn.get_active_spawn sprite None (minutes 1) 7
       (FastSpawn.cleanup_expired None (minutes 1) st1).1).2
  = Some (Some (Some "5")).
Proof.
  cbv zeta. split; [reflexivity |].
  destruct (created_spawn_has_two_sprites
              (fun species_id _ => Ok (Some (pretty species_id)))
              (Ex.fast_create 0 4) 7 Ex.empty None (minutes 1) eq_refl)
    as (s & Hnew & Hcached & Hstored).
  cbv zeta in Hcached, Hstored.
  vm_compute in Hnew. injection Hnew as <-.
  split.
  - rewrite Hcached. vm_compute. reflexivity.
  - rewrite Hstored; [vm_compute; reflexivity | vm_compute; discriminate | reflexivity].
Defined.

(** ** The spawn [get_active_spawn] picks *)

Lemma latest_max (l : list Spawn) (s : Spawn) :
  latest l = Some s → ∀ s', s' ∈ l → spawned_at s' ≤ spawned_at s.
Proof.
  revert s. induction l as [| a l IH]; intros s; simpl; [done |].
  destruct (latest l) as [best |] eqn:Hl.
  - intros [= <-] s' Hin. specialize (IH best eq_refl).
    unfold later. apply elem_of_cons in Hin as [-> | Hin].
    + destruct (Z.ltb_spec (spawned_at best) (spawned_at a)); lia.
    + specialize (IH s' Hin).
      destruct (Z.ltb_spec (spawned_at best) (spawned_at a)); cbn; lia.
  - apply latest_None in Hl as ->. intros [= <-] s' Hin.
    apply list_elem_of_singleton in Hin as ->. lia.
Qed.

(** X28: the spawn [get_active_spawn] reads from the store, in
    [SpawnService] and, for a chat without cache entry, in
    [RawSQLSpawnService], is a row of the chat that is not caught and
    expires after the time of the call, and among those rows one spawned
    last. *)
Theorem active_spawn_is_the_latest
    (sprite : Z → bool → exn (option string)) (fault : option nat) (now : datetime)
    (chat : Z) (st : FastSpawn.State) :
  let d := FastSpawn.db st in
  let is_latest s :=
    (∃ k, spawns d !! k = Some s) ∧
    chat_id s = chat ∧ is_caught s = false ∧ now < expires_at s ∧
    ∀ k' s', spawns d !! k' = Some s' →
             chat_id s' = chat → is_caught s' = false → now < expires_at s' →
             spawned_at s' ≤ spawned_at s in
  (∀ s, SpawnSvc.get_active_spawn fault now chat d = Some s → is_latest s) ∧
  (∀ data, FastSpawn._spawn_cache st !! chat = None →
           (FastSpawn.get_active_spawn sprite fault now chat st).2 = Some data →
           ∃ s, is_latest s ∧
                data = FastSpawn.with_image_url (FastSpawn.spawn_data_of_row s)
                         (FastSpawn.image_url_of sprite (species_id s) (is_shiny s))).
Proof.
  cbv zeta.
  assert (∀ s, latest (select_spawns (active_in chat now) (FastSpawn.db st)) = Some s →
               (∃ k, spawns (FastSpawn.db st) !! k = Some s) ∧
               chat_id s = chat ∧ is_caught s = false ∧ now < expires_at s ∧
               ∀ k' s', spawns (FastSpawn.db st) !! k' = Some s' →
                        chat_id s' = chat → is_caught s' = false → now < expires_at s' →
                        spawned_at s' ≤ spawned_at s) as Hlatest.
  { intros s Hs. pose proof (latest_max _ _ Hs) as Hmax.
    apply latest_elem, elem_of_select_spawns in Hs as [Hrow Hact].
    apply active_in_spec in Hact as (? & ? & ?).
    split_and!; try done.
    intros k' s' Hk' ? ? ?. apply Hmax, elem_of_select_spawns.
    split; [by exists k' | by apply active_in_spec]. }
  split.
  - intros s. unfold SpawnSvc.get_active_spawn. stmt_split; [done |]. apply Hlatest.
  - intros data Hnone. unfold FastSpawn.get_active_spawn, FastSpawn.select_active.
    rewrite Hnone. stmt_split; [done |].
    destruct (latest _) as [row |] eqn:Hrow; [| done].
    cbn [snd]. intros [= <-]. exists row. split; [by apply Hlatest | done].
Qed.

(** ** What the spawn loop writes *)

Ltac sleeps_ok :=
  repeat first [apply Forall_nil_2 | apply Forall_cons_2 | apply Forall_app_2];
  intros ? ?; simplify_eq; lia.

Lemma iteration_spawned (i : Scheduler.IterIn) (st : Scheduler.State) :
  let st' := (Scheduler.iteration i st).1.1 in
  let evs := (Scheduler.iteration i st).1.2 in
  let d := FastSpawn.db (Scheduler.svc st) in
  let d' := FastSpawn.db (Scheduler.svc st') in
  Scheduler.active_channels st' = Scheduler.active_channels st ∧
  Scheduler.running st' = Scheduler.running st ∧
  pokemon d' = pokemon d ∧ users d' = users d ∧
  ((spawns d' = spawns d ∧ omap spawned evs = []) ∨
   (∃ s, chat_id s ∈ Scheduler.active_channels st ∧ is_caught s = false ∧
         spawns d !! spawn_id s = None ∧
         spawns d' = <[spawn_id s := s]> (spawns d) ∧
         omap spawned evs = [chat_id s])) ∧
  Forall (λ e, ∀ n, e = Scheduler.Sleep n → n = 5 ∨ n = 10 ∨ 30 ≤ n ≤ 60) evs.
Proof.
  cbv zeta.
  assert (∀ (st1 : Scheduler.State) evs1 (r : option Scheduler.Raised),
            (Scheduler.try_block i st = (st1, evs1, r)) →
            ∃ st2 evs2 go extra,
              Scheduler.iteration i st = (st2, evs2, go) ∧ st2 = st1 ∧
              evs2 = evs1 ++ extra ∧
              (extra = [] ∨ extra = [Scheduler.LoopError]
               ∨ extra = [Scheduler.LoopError; Scheduler.Sleep 10])) as Hiter.
  { intros st1 evs1 r Htb. unfold Scheduler.iteration. rewrite Htb.
    destruct r as [[] |].
    - destruct (Scheduler.it_backoff_cancelled i); eexists _, _, _, _; eauto 10.
    - eexists _, _, _, []. rewrite app_nil_r. eauto 10.
    - eexists _, _, _, []. rewrite app_nil_r. eauto 10. }
  pose proof (randint_range 30 60 (Scheduler.it_interval_seed i) ltac:(lia)) as Hint.
  unfold Scheduler.try_block in Hiter.
  destruct (bool_decide (Scheduler.active_channels st = ∅)) eqn:Hempty.
  { assert (∃ evs1 r, (match Scheduler.raises_at i Scheduler.AtIdleSleep with
                       | Some r => (st, [], Some r)
                       | None => (st, [Scheduler.Sleep 5], None)
                       end) = (st, evs1, r) ∧ (evs1 = [] ∨ evs1 = [Scheduler.Sleep 5]))
      as (evs1 & r & Heq & Hevs1) by (destruct (Scheduler.raises_at _ _); eauto 10).
    destruct (Hiter st evs1 r Heq) as (st2 & evs2 & go & extra & -> & -> & -> & Hextra).
    cbn [fst snd]. split_and!; try done.
    - left. destruct Hevs1 as [-> | ->]; destruct Hextra as [-> | [-> | ->]]; done.
    - destruct Hevs1 as [-> | ->]; destruct Hextra as [-> | [-> | ->]]; sleeps_ok. }
  apply bool_decide_eq_false in Hempty.
  destruct (Scheduler.raises_at i Scheduler.AtImport) as [r |].
  { destruct (Hiter st [] (Some r) eq_refl)
      as (st2 & evs2 & go & extra & -> & -> & -> & Hextra).
    cbn [fst snd]. split_and!; try done.
    - left. destruct Hextra as [-> | [-> | ->]]; done.
    - destruct Hextra as [-> | [-> | ->]]; sleeps_ok. }
  destruct (choice _ _) as [chat_id |] eqn:Hchoice.
  2: { destruct (Hiter st [] (Some Scheduler.Error) eq_refl)
         as (st2 & evs2 & go & extra & -> & -> & -> & Hextra).
       cbn [fst snd]. split_and!; try done.
       - left. destruct Hextra as [-> | [-> | ->]]; done.
       - destruct Hextra as [-> | [-> | ->]]; sleeps_ok. }
  apply choice_elem, elem_of_elements in Hchoice.
  destruct (Scheduler.raises_at i Scheduler.AtCreateSpawn) as [r |].
  { destruct (Hiter st [] (Some r) eq_refl)
      as (st2 & evs2 & go & extra & -> & -> & -> & Hextra).
    cbn [fst snd]. split_and!; try done.
    - left. destruct Hextra as [-> | [-> | ->]]; done.
    - destruct Hextra as [-> | [-> | ->]]; sleeps_ok. }
  pose proof (fast_create_true_inv (Scheduler.it_create i) chat_id (Scheduler.svc st))
    as Htrue.
  pose proof (fast_create_false_unchanged (Scheduler.it_create i) chat_id (Scheduler.svc st))
    as Hfalse.
  destruct (FastSpawn.create_spawn _ _ _) as [svc' success]. cbn [fst snd] in *.
  assert (∃ evs1 r,
            (match Scheduler.raises_at i Scheduler.AtIntervalSleep with
             | Some r =>
                 (Scheduler.mkState (Scheduler.active_channels st) (Scheduler.running st) svc',
                  (if success then [Scheduler.AutoSpawned chat_id] else []), Some r)
             | None =>
                 (Scheduler.mkState (Scheduler.active_channels st) (Scheduler.running st) svc',
                  (if success then [Scheduler.AutoSpawned chat_id] else [])
                  ++ [Scheduler.Sleep (randint 30 60 (Scheduler.it_interval_seed i))], None)
             end)
            = (Scheduler.mkState (Scheduler.active_channels st) (Scheduler.running st) svc',
               evs1, r) ∧
            ∃ tail, evs1 = (if success then [Scheduler.AutoSpawned chat_id] else []) ++ tail ∧
                    (tail = [] ∨ tail = [Scheduler.Sleep
                                           (randint 30 60 (Scheduler.it_interval_seed i))]))
    as (evs1 & r & Heq & tail & Hevs1 & Htail).
  { destruct (Scheduler.raises_at _ _); eexists _, _; (split; [done |]).
    - exists []. by rewrite app_nil_r; eauto.
    - eexists. eauto. }
  destruct (Hiter _ evs1 r Heq) as (st2 & evs2 & go & extra & -> & -> & -> & Hextra).
  cbn [fst snd Scheduler.active_channels Scheduler.running Scheduler.svc]. subst evs1.
  destruct success.
  - destruct Htrue as (s & Hnew & Hfresh & _ & ->); [done |].
    destruct (fast_new_spawn_payload _ _ _ Hnew) as (Hchat & _ & _ & _ & _ & Hc & _).
    cbn [FastSpawn.db spawns pokemon users].
    split_and!; try done.
    + right. exists s. rewrite Hchat. split_and!; try done.
      destruct Htail as [-> | ->]; destruct Hextra as [-> | [-> | ->]]; done.
    + destruct Htail as [-> | ->]; destruct Hextra as [-> | [-> | ->]]; sleeps_ok.
  - rewrite Hfalse by done.
    split_and!; try done.
    + left. destruct Htail as [-> | ->]; destruct Hextra as [-> | [-> | ->]]; done.
    + destruct Htail as [-> | ->]; destruct Hextra as [-> | [-> | ->]]; sleeps_ok.
Qed.

(** X29: as long as no other task changes the state between iterations,
    [_spawn_loop] only ever adds spawns: after any number of iterations
    the registered channels and the running flag are as they were, every
    row that was in [spawns] is still there, unchanged, [pokemon] and
    [users] are untouched, the number of rows added is the number of
    "Auto-spawned" log lines, each of them names a registered channel, and
    every new row is an uncaught spawn of a registered channel.  Every
    sleep lasts 5, 10 or between 30 and 60 seconds. *)
Theorem spawn_loop_only_adds_spawns
    (inputs : list Scheduler.IterIn) (st : Scheduler.State) :
  Forall (λ i, ∀ s, Scheduler.it_meanwhile i s = s) inputs →
  let out := Scheduler._spawn_loop inputs st in
  let d := FastSpawn.db (Scheduler.svc st) in
  let d' := FastSpawn.db (Scheduler.svc out.1) in
  Scheduler.active_channels out.1 = Scheduler.active_channels st ∧
  Scheduler.running out.1 = Scheduler.running st ∧
  pokemon d' = pokemon d ∧ users d' = users d ∧
  (∀ k s, spawns d !! k = Some s → spawns d' !! k = Some s) ∧
  size (spawns d') = (size (spawns d) + length (omap spawned out.2))%nat ∧
  Forall (λ chat, chat ∈ Scheduler.active_channels st) (omap spawned out.2) ∧
  (∀ k s, spawns d' !! k = Some s → spawns d !! k = None →
          chat_id s ∈ Scheduler.active_channels st ∧ is_caught s = false) ∧
  Forall (λ e, ∀ n, e = Scheduler.Sleep n → n = 5 ∨ n = 10 ∨ 30 ≤ n ≤ 60) out.2.
Proof.
  intros Halone. revert st. cbv zeta.
  induction Halone as [| i rest Hi _ IH]; intros st; cbn [Scheduler._spawn_loop].
  { cbn. split_and!; try done. congruence. }
  destruct (Scheduler.running st) eqn:Hrun.
  2: { cbn. split_and!; try done. congruence. }
  pose proof (iteration_spawned i st) as Hstep. cbv zeta in Hstep.
  destruct (Scheduler.iteration i st) as [[st1 evs] go]. cbn [fst snd] in Hstep.
  destruct Hstep as (Hch & Hr & Hp & Hu & Hrows & Hsleeps).
  assert (spawns (FastSpawn.db (Scheduler.svc st))
            ⊆ spawns (FastSpawn.db (Scheduler.svc st1)) ∧
          size (spawns (FastSpawn.db (Scheduler.svc st1)))
          = (size (spawns (FastSpawn.db (Scheduler.svc st)))
             + length (omap spawned evs))%nat ∧
          Forall (λ chat, chat ∈ Scheduler.active_channels st) (omap spawned evs) ∧
          (∀ k s, spawns (FastSpawn.db (Scheduler.svc st1)) !! k = Some s →
                  spawns (FastSpawn.db (Scheduler.svc st)) !! k = None →
                  chat_id s ∈ Scheduler.active_channels st ∧ is_caught s = false))
    as (Hsub & Hsize & Hlogged & Hnew).
  { destruct Hrows as [[-> ->] | (s & Hin & Hc & Hfresh & -> & ->)].
    - cbn. split_and!; [done | lia | done | congruence].
    - rewrite map_size_insert_None by done. cbn [length].
      split_and!; [by apply insert_subseteq | lia | by repeat constructor |].
      intros k s' Hk Hnone. rewrite lookup_insert in Hk. case_decide.
      + by injection Hk as <-.
      + congruence. }
  destruct go.
  2: { cbn [fst snd]. split_and!; try congruence; try done.
       intros k s Hk. by eapply lookup_weaken. }
  rewrite Hi. specialize (IH st1).
  destruct (Scheduler._spawn_loop rest st1) as [st2 evs']. cbn [fst snd] in *.
  destruct IH as (Hch' & Hr' & Hp' & Hu' & Hkeep' & Hsize' & Hlogged' & Hnew' & Hsleeps').
  rewrite omap_app, length_app.
  split_and!; try congruence.
  - intros k s Hk. apply Hkeep'. by eapply lookup_weaken.
  - lia.
  - apply Forall_app. split; [done |]. by rewrite <- Hch.
  - intros k s Hk Hnone.
    destruct (spawns (FastSpawn.db (Scheduler.svc st1)) !! k) as [s1 |] eqn:Hk1.
    + assert (s = s1) as -> by (apply Hkeep' in Hk1; congruence).
      by apply (Hnew k).
    + rewrite <- Hch. by apply (Hnew' k).
  - by apply Forall_app.
Qed.

Lemma spawn_loop_only_adds_spawns_witness :
  let i := Scheduler.mkIterIn None 0 (Ex.fast_create 0 0) 0 false (fun s => s) in
  let st := Scheduler.mkState {[ 7 ]} true Ex.empty in
  let out := Scheduler._spawn_loop [i; i] st in
  omap spawned out.2 = [7] ∧
  size (spawns (FastSpawn.db (Scheduler.svc out.1))) = 1%nat.
Proof.
  cbv zeta.
  destruct (spawn_loop_only_adds_spawns
              [Scheduler.mkIterIn None 0 (Ex.fast_create 0 0) 0 false (fun s => s);
               Scheduler.mkIterIn None 0 (Ex.fast_create 0 0) 0 false (fun s => s)]
              (Scheduler.mkState {[ 7 ]} true Ex.empty))
    as (_ & _ & _ & _ & _ & Hsize & _).
  { repeat constructor. }
  cbv zeta in Hsize.
  assert (omap spawned
            (Scheduler._spawn_loop
               [Scheduler.mkIterIn None 0 (Ex.fast_create 0 0) 0 false (fun s => s);
                Scheduler.mkIterIn None 0 (Ex.fast_create 0 0) 0 false (fun s => s)]
               (Scheduler.mkState {[ 7 ]} true Ex.empty)).2 = [7]) as Hlog
    by (vm_compute; reflexivity).
  split; [exact Hlog |].
  rewrite Hsize, Hlog. reflexivity.
Defined.

(** ** The ids [generate_id] builds *)

(** X30: whatever is drawn, [generate_id] returns the prefix, the decimal
    notation of the whole seconds of the clock, and exactly eight
    characters, each a lower-case letter or a digit: no draw can fail and
    shorten the id. *)
Theorem generate_id_shape (prefix : string) (utcnow : datetime) (seeds : nat → Z) :
  ∃ random_part,
    SpawnSvc.generate_id prefix utcnow seeds
    = prefix +:+ pretty (timestamp_int utcnow) +:+ random_part ∧
    String.length random_part = 8%nat ∧
    Forall (λ c, c ∈ SpawnSvc.id_alphabet) (String.list_ascii_of_string random_part).
Proof.
  destruct (choices_total SpawnSvc.id_alphabet seeds 8) as [Hlen Hall]; [done |].
  exists (String.string_of_list_ascii (SpawnSvc.choices SpawnSvc.id_alphabet 8 seeds)).
  split_and!.
  - unfold SpawnSvc.generate_id. by case_bool_decide as Hprefix; [rewrite Hprefix |].
  - by rewrite string_of_list_ascii_length.
  - by rewrite String.list_ascii_of_string_of_list_ascii.
Qed.
